(** * CensusGUI: authentication and abuse control

    A shallow embedding of the database managers of
    [codebase/backend/app/database/managers]:

    - [security_manager.py]: [check_rate_limit], [get_rate_limit_status],
                             [clear_expired_logs];
    - [session_manager.py]:  [create_session], [verify_session],
                             [invalidate_session];
    - [user_manager.py]:     [verify_user], [activate_user],
                             [_log_login_attempt], [create_user],
                             [update_user_profile];

    of [database/db_reset.py] ([reset_throttle_logs],
    [reset_user_security_counters], [reset_login_history]) and of the views
    and validators of [routes/auth] ([login], [logout], [login_required],
    [validate_password], [validate_username]).

    The PostgreSQL store is a record of tables, each a list of rows.  The
    Python methods are programs of a small state-and-exception monad [Py]
    whose state holds the committed tables, the transactions that are open
    (one per [with self.get_connection() as conn] block) and a schedule of
    storage faults.  Timestamps are integers counting microseconds, the
    resolution of both [datetime] and PostgreSQL; one instant [now] stands
    for [CURRENT_TIMESTAMP] and [datetime.now()] during a call. *)

From Stdlib Require Import ZArith List String Bool Lia.
Import ListNotations.

Local Open Scope string_scope.
Local Open Scope list_scope.
Local Open Scope Z_scope.

(** ** Durations, in microseconds *)

Definition seconds (n : Z) : Z := 1000000 * n.
Definition minutes (n : Z) : Z := seconds (60 * n).
Definition hours (n : Z) : Z := minutes (60 * n).
Definition days (n : Z) : Z := hours (24 * n).

(** ** Tables *)

Module User.
Record row : Type := mk {
  user_id : Z;
  username : string;
  email : string;
  password_hash : string;
  is_active : bool;
  activation_token : option string;
  activation_token_created_at : option Z;
  reset_password_token : option string;
  failed_login_attempts : Z;
  account_locked_until : option Z;
  last_failed_login : option Z;
  last_login : option Z
}.
End User.

Module Session.
Record row : Type := mk {
  session_id : Z;
  user_id : Z;
  session_token : string;
  ip_address : string;
  user_agent : string;
  expires_at : Z;
  is_active : bool
}.
End Session.

Module LoginHistory.
Record row : Type := mk {
  user_id : option Z;
  ip_address : option string;
  user_agent : option string;
  login_successful : bool;
  failure_reason : option string;
  timestamp : Z
}.
End LoginHistory.

Module ThrottleRule.
Record row : Type := mk {
  endpoint : string;
  max_attempts : Z;
  time_window : Z;
  lockout_duration : Z
}.
End ThrottleRule.

Module ThrottleLog.
Record row : Type := mk {
  ip_address : string;
  endpoint : string;
  timestamp : Z;
  is_blocked : bool
}.
End ThrottleLog.

Record database : Type := mkdb {
  users : list User.row;
  user_sessions : list Session.row;
  login_history : list LoginHistory.row;
  throttle_rules : list ThrottleRule.row;
  throttle_log : list ThrottleLog.row
}.

Definition set_users (us : list User.row) (db : database) : database :=
  mkdb us (user_sessions db) (login_history db) (throttle_rules db)
       (throttle_log db).

Definition set_user_sessions (ss : list Session.row) (db : database)
  : database :=
  mkdb (users db) ss (login_history db) (throttle_rules db) (throttle_log db).

Definition set_login_history (hs : list LoginHistory.row) (db : database)
  : database :=
  mkdb (users db) (user_sessions db) hs (throttle_rules db) (throttle_log db).

Definition set_throttle_log (ls : list ThrottleLog.row) (db : database)
  : database :=
  mkdb (users db) (user_sessions db) (login_history db) (throttle_rules db) ls.

(** ** The monad of manager methods

    A method either returns a value or raises; in both cases it leaves a
    state behind.  [faults] is the schedule of the storage layer: the head
    tells whether the next storage operation (connecting, executing a
    statement, committing) raises, and an exhausted schedule never fails.
    [failures] counts the storage operations that have raised so far. *)

Inductive outcome (A : Type) : Type :=
| Returned (a : A)
| Raised.

Arguments Returned {A} a.
Arguments Raised {A}.

Record env : Type := mkenv {
  committed : database;
  open_txns : list (database -> database);
  faults : list bool;
  failures : nat
}.

Definition Py (A : Type) : Type := env -> outcome A * env.

Definition ret {A : Type} (a : A) : Py A := fun e => (Returned a, e).

Definition raise {A : Type} : Py A := fun e => (Raised, e).

Definition bind {A B : Type} (m : Py A) (k : A -> Py B) : Py B :=
  fun e =>
    match m e with
    | (Returned a, e') => k a e'
    | (Raised, e') => (Raised, e')
    end.

Notation "x <- m ;; k" := (bind m (fun x => k))
  (at level 61, m at next level, right associativity).
Notation "m ;; k" := (bind m (fun _ => k))
  (at level 61, right associativity).

(** [try: ... except Exception: handler]. *)
Definition try_except {A : Type} (body handler : Py A) : Py A :=
  fun e =>
    match body e with
    | (Returned a, e') => (Returned a, e')
    | (Raised, e') => handler e'
    end.

(** One operation of the storage layer, consuming one slot of the
    schedule. *)
Definition storage_op : Py unit :=
  fun e =>
    match faults e with
    | [] => (Returned tt, e)
    | false :: fs =>
        (Returned tt, mkenv (committed e) (open_txns e) fs (failures e))
    | true :: fs =>
        (Raised, mkenv (committed e) (open_txns e) fs (S (failures e)))
    end.

Definition push_txn (e : env) : env :=
  mkenv (committed e) ((fun db => db) :: open_txns e) (faults e) (failures e).

Definition pop_txn (e : env) : env :=
  mkenv (committed e) (tl (open_txns e)) (faults e) (failures e).

Definition commit_txn (w : database -> database) (e : env) : env :=
  mkenv (w (committed e)) (open_txns e) (faults e) (failures e).

(** [with self.get_connection() as conn: body].  psycopg2 commits the
    transaction when the block is left normally (a [return] inside the block
    included) and rolls it back when the block is left by an exception.  The
    writes of a transaction are kept apart from the committed tables until
    the commit. *)
Definition with_connection {A : Type} (body : Py A) : Py A :=
  fun e =>
    match storage_op e with
    | (Raised, e1) => (Raised, e1)
    | (Returned _, e1) =>
        match body (push_txn e1) with
        | (Raised, e2) => (Raised, pop_txn e2)
        | (Returned a, e2) =>
            let w := hd (fun db => db) (open_txns e2) in
            match storage_op (pop_txn e2) with
            | (Raised, e3) => (Raised, e3)
            | (Returned _, e3) => (Returned a, commit_txn w e3)
            end
        end
    end.

(** [cur.execute(stmt)] followed by reading its result: the statement sees
    the committed tables with the writes of its own transaction applied, and
    its own write joins them. *)
Definition execute {A : Type} (stmt : database -> database * A) : Py A :=
  storage_op ;;
  fun e =>
    match open_txns e with
    | [] => (Raised, e)
    | w :: ws =>
        (Returned (snd (stmt (w (committed e)))),
         mkenv (committed e) ((fun db => fst (stmt (w db))) :: ws)
               (faults e) (failures e))
    end.

(** A statement that only reads. *)
Definition query {A : Type} (q : database -> A) : Py A :=
  execute (fun db => (db, q db)).

(** A store that never fails, with no transaction open. *)
Definition healthy (db : database) : env := mkenv db [] [] 0.

(** ** SQL helpers *)

(** [UPDATE t SET ... WHERE cond]. *)
Definition sql_update {R : Type} (cond : R -> bool) (set : R -> R)
  (rows : list R) : list R :=
  map (fun r => if cond r then set r else r) rows.

(** [col = %s] on a nullable column: never true on NULL. *)
Definition eq_nullable (col : option string) (v : string) : bool :=
  match col with
  | Some c => String.eqb c v
  | None => false
  end.

(** [MIN(col)]: NULL over no rows. *)
Fixpoint sql_min (l : list Z) : option Z :=
  match l with
  | [] => None
  | x :: xs =>
      match sql_min xs with
      | None => Some x
      | Some m => Some (Z.min x m)
      end
  end.

(** ** security_manager.py *)

(** The [WHERE] clause shared by both queries on [throttle_log]:
    [ip_address = %s AND endpoint = %s
     AND timestamp > CURRENT_TIMESTAMP - interval '1 second' * %s]. *)
Definition in_window (now : Z) (ip_address endpoint : string)
  (time_window : Z) (l : ThrottleLog.row) : bool :=
  String.eqb (ThrottleLog.ip_address l) ip_address
  && String.eqb (ThrottleLog.endpoint l) endpoint
  && (now - seconds time_window <? ThrottleLog.timestamp l).

Definition select_rule (endpoint : string) (db : database)
  : option ThrottleRule.row :=
  find (fun r => String.eqb (ThrottleRule.endpoint r) endpoint)
       (throttle_rules db).

Definition count_attempts (now : Z) (ip_address endpoint : string)
  (time_window : Z) (db : database) : Z :=
  Z.of_nat (List.length
              (filter (in_window now ip_address endpoint time_window)
                      (throttle_log db))).

(** [INSERT INTO throttle_log (ip_address, endpoint, is_blocked)]; the
    [timestamp] column takes the time of the insertion. *)
Definition insert_throttle_log (now : Z) (ip_address endpoint : string)
  (is_blocked : bool) (db : database) : database * unit :=
  (set_throttle_log
     (throttle_log db
      ++ [ThrottleLog.mk ip_address endpoint now is_blocked]) db, tt).

Definition check_rate_limit (now : Z) (ip_address endpoint : string)
  : Py bool :=
  try_except
    (with_connection
       (rule <- query (select_rule endpoint) ;;
        match rule with
        | None => ret true
        | Some r =>
            let max_attempts := ThrottleRule.max_attempts r in
            let time_window := ThrottleRule.time_window r in
            attempt_count <-
              query (count_attempts now ip_address endpoint time_window) ;;
            let is_blocked := max_attempts <=? attempt_count in
            execute (insert_throttle_log now ip_address endpoint is_blocked) ;;
            ret (negb is_blocked)
        end))
    (ret false).

Section RateLimitStatus.

(** [EXTRACT(EPOCH FROM iv)::INTEGER] for an interval [iv] of that many
    microseconds: the whole number of seconds the database server rounds
    it to.  The server is not part of the repository, so its rounding is a
    parameter. *)
Variable epoch_integer : Z -> Z.

(** [SELECT COUNT( * ), EXTRACT(EPOCH FROM
      (CURRENT_TIMESTAMP - MIN(timestamp)))::INTEGER ... WHERE ...]. *)
Definition select_window (now : Z) (ip_address endpoint : string)
  (time_window : Z) (db : database) : Z * option Z :=
  let rows :=
    filter (in_window now ip_address endpoint time_window)
           (throttle_log db) in
  (Z.of_nat (List.length rows),
   option_map (fun oldest => epoch_integer (now - oldest))
              (sql_min (map ThrottleLog.timestamp rows))).

(** Python's [v or 0] on an optional integer. *)
Definition or_zero (v : option Z) : Z :=
  match v with
  | None => 0
  | Some n => if n =? 0 then 0 else n
  end.

Definition get_rate_limit_status (now : Z) (ip_address endpoint : string)
  : Py (Z * Z) :=
  try_except
    (with_connection
       (rule <- query (select_rule endpoint) ;;
        match rule with
        | None => ret (-1, -1)
        | Some r =>
            let max_attempts := ThrottleRule.max_attempts r in
            let time_window := ThrottleRule.time_window r in
            result <-
              query (select_window now ip_address endpoint time_window) ;;
            let current_attempts := fst result in
            let elapsed_seconds := or_zero (snd result) in
            let remaining_attempts :=
              Z.max 0 (max_attempts - current_attempts) in
            let seconds_until_reset :=
              Z.max 0 (time_window - elapsed_seconds) in
            ret (remaining_attempts, seconds_until_reset)
        end))
    (ret (0, 0)).

End RateLimitStatus.

(** ** session_manager.py *)

(** The [WHERE] clause of [verify_session]. *)
Definition session_matches (now : Z) (session_token ip_address
  user_agent : string) (s : Session.row) : bool :=
  String.eqb (Session.session_token s) session_token
  && String.eqb (Session.ip_address s) ip_address
  && String.eqb (Session.user_agent s) user_agent
  && (now <? Session.expires_at s)
  && Session.is_active s.

(** [SELECT user_id FROM user_sessions WHERE ...] and [fetchone]. *)
Definition select_session (now : Z) (session_token ip_address
  user_agent : string) (db : database) : option Z :=
  option_map Session.user_id
    (find (session_matches now session_token ip_address user_agent)
          (user_sessions db)).

Definition verify_session (now : Z) (session_token ip_address
  user_agent : string) : Py (option Z) :=
  try_except
    (with_connection
       (result <-
          query (select_session now session_token ip_address user_agent) ;;
        ret result))
    (ret None).

Definition has_token (session_token : string) (s : Session.row) : bool :=
  String.eqb (Session.session_token s) session_token.

Definition deactivate (s : Session.row) : Session.row :=
  Session.mk (Session.session_id s) (Session.user_id s)
             (Session.session_token s) (Session.ip_address s)
             (Session.user_agent s) (Session.expires_at s) false.

(** [UPDATE user_sessions SET is_active = FALSE WHERE session_token = %s
     RETURNING session_id] and [fetchone]. *)
Definition update_session_inactive (session_token : string) (db : database)
  : database * option Z :=
  let updated :=
    sql_update (has_token session_token) deactivate (user_sessions db) in
  (set_user_sessions updated db,
   hd_error (map Session.session_id
                 (filter (has_token session_token) (user_sessions db)))).

Definition is_not_None {A : Type} (v : option A) : bool :=
  match v with
  | Some _ => true
  | None => false
  end.

Definition invalidate_session (session_token : string) : Py bool :=
  try_except
    (with_connection
       (returned <- execute (update_session_inactive session_token) ;;
        ret (is_not_None returned)))
    (ret false).

(** ** user_manager.py *)

(** The columns [verify_user] selects; [dict(user)] is what it returns on
    success. *)
Module UserDict.
Record t : Type := mk {
  user_id : Z;
  username : string;
  password_hash : string;
  is_active : bool;
  failed_login_attempts : Z;
  account_locked_until : option Z
}.
End UserDict.

Definition user_dict (u : User.row) : UserDict.t :=
  UserDict.mk (User.user_id u) (User.username u) (User.password_hash u)
              (User.is_active u) (User.failed_login_attempts u)
              (User.account_locked_until u).

(** The first account the [WHERE username = %s] clause meets. *)
Definition find_user (username : string) (db : database)
  : option User.row :=
  find (fun u => String.eqb (User.username u) username) (users db).

(** [SELECT user_id, username, password_hash, is_active,
     failed_login_attempts, account_locked_until FROM users
     WHERE username = %s] and [fetchone]. *)
Definition select_user (username : string) (db : database)
  : option UserDict.t :=
  option_map user_dict (find_user username db).

Definition has_user_id (user_id : Z) (u : User.row) : bool :=
  User.user_id u =? user_id.

(** [SET failed_login_attempts = failed_login_attempts + 1,
         last_failed_login = CURRENT_TIMESTAMP,
         account_locked_until = CASE WHEN failed_login_attempts + 1 >= 5
           THEN CURRENT_TIMESTAMP + interval '15 minutes'
           ELSE account_locked_until END]. *)
Definition failed_login (now : Z) (u : User.row) : User.row :=
  User.mk (User.user_id u) (User.username u) (User.email u)
          (User.password_hash u) (User.is_active u)
          (User.activation_token u) (User.activation_token_created_at u)
          (User.reset_password_token u)
          (User.failed_login_attempts u + 1)
          (if 5 <=? User.failed_login_attempts u + 1
           then Some (now + minutes 15)
           else User.account_locked_until u)
          (Some now)
          (User.last_login u).

(** [SET failed_login_attempts = 0, account_locked_until = NULL,
         last_login = CURRENT_TIMESTAMP]. *)
Definition successful_login (now : Z) (u : User.row) : User.row :=
  User.mk (User.user_id u) (User.username u) (User.email u)
          (User.password_hash u) (User.is_active u)
          (User.activation_token u) (User.activation_token_created_at u)
          (User.reset_password_token u)
          0 None
          (User.last_failed_login u)
          (Some now).

(** [SET is_active = TRUE, activation_token = NULL,
         activation_token_created_at = NULL]. *)
Definition activated (u : User.row) : User.row :=
  User.mk (User.user_id u) (User.username u) (User.email u)
          (User.password_hash u) true None None
          (User.reset_password_token u)
          (User.failed_login_attempts u) (User.account_locked_until u)
          (User.last_failed_login u) (User.last_login u).

Definition update_users (user_id : Z) (set : User.row -> User.row)
  (db : database) : database * unit :=
  (set_users (sql_update (has_user_id user_id) set (users db)) db, tt).

(** [INSERT INTO login_history (user_id, ip_address, user_agent,
     login_successful, failure_reason)]; the [timestamp] column takes the
    time of the insertion. *)
Definition insert_login_history (now : Z) (user_id : option Z)
  (ip_address user_agent : option string) (successful : bool)
  (failure_reason : option string) (db : database) : database * unit :=
  (set_login_history
     (login_history db
      ++ [LoginHistory.mk user_id ip_address user_agent successful
                          failure_reason now]) db, tt).

(** The audit write has a connection and a [try] of its own: its insert is
    committed whatever becomes of the caller's transaction, and its failure
    is swallowed. *)
Definition _log_login_attempt (now : Z) (user_id : option Z)
  (ip_address user_agent : option string) (successful : bool)
  (failure_reason : option string) : Py unit :=
  try_except
    (with_connection
       (execute (insert_login_history now user_id ip_address user_agent
                                      successful failure_reason)))
    (ret tt).

(** [user['account_locked_until'] and
     user['account_locked_until'] > datetime.now()]. *)
Definition locked_out (now : Z) (user : UserDict.t) : bool :=
  match UserDict.account_locked_until user with
  | Some until => now <? until
  | None => false
  end.

Section VerifyUser.

(** [bcrypt.checkpw(password, password_hash)]; [None] when it raises (a
    stored hash that is no bcrypt hash). *)
Variable checkpw : string -> string -> option bool.

Definition bcrypt_checkpw (password password_hash : string) : Py bool :=
  match checkpw password password_hash with
  | Some b => ret b
  | None => raise
  end.

Definition verify_user (now : Z) (username password : string)
  (ip_address user_agent : option string) : Py (option UserDict.t) :=
  try_except
    (with_connection
       (user <- query (select_user username) ;;
        match user with
        | None =>
            _log_login_attempt now None ip_address user_agent false
                               (Some "User not found") ;;
            ret None
        | Some user =>
            let user_id := UserDict.user_id user in
            if locked_out now user then
              _log_login_attempt now (Some user_id) ip_address user_agent
                                 false (Some "Account locked") ;;
              ret None
            else
              matches <-
                bcrypt_checkpw password (UserDict.password_hash user) ;;
              if negb matches then
                execute (update_users user_id (failed_login now)) ;;
                _log_login_attempt now (Some user_id) ip_address
                                   user_agent false
                                   (Some "Invalid password") ;;
                ret None
              else if negb (UserDict.is_active user) then
                _log_login_attempt now (Some user_id) ip_address
                                   user_agent false
                                   (Some "Account not activated") ;;
                ret None
              else
                execute (update_users user_id (successful_login now)) ;;
                _log_login_attempt now (Some user_id) ip_address
                                   user_agent true None ;;
                ret (Some user)
        end))
    (ret None).

End VerifyUser.

(** The first account the [WHERE activation_token = %s] clause meets. *)
Definition find_token_holder (token : string) (db : database)
  : option User.row :=
  find (fun u => eq_nullable (User.activation_token u) token) (users db).

(** [SELECT user_id, is_active, activation_token_created_at FROM users
     WHERE activation_token = %s] and [fetchone]. *)
Definition select_activation (token : string) (db : database)
  : option (Z * bool * option Z) :=
  option_map
    (fun u => (User.user_id u, User.is_active u,
               User.activation_token_created_at u))
    (find_token_holder token db).

Definition activate_user (now : Z) (token : string) : Py bool :=
  try_except
    (with_connection
       (user <- query (select_activation token) ;;
        match user with
        | None => ret false
        | Some (user_id, is_active, token_created_at) =>
            if is_active then ret true
            else
              (* [token_created_at.tzinfo] raises on [None] *)
              created <- match token_created_at with
                         | Some t => ret t
                         | None => raise
                         end ;;
              let current_time := now in
              if created <? current_time - days 1 then ret false
              else
                execute (update_users user_id activated) ;;
                ret true
        end))
    (ret false).

(** ** The wording of the specification, for comparison *)

(** The failure kinds the specification lets [verify] return. *)
Inductive FailureKind : Type :=
| InvalidCredentials
| AccountLocked
| AccountInactive.

(** A session as the specification accepts it: the token matches, the
    fingerprint is the stored one, it has not expired and is active. *)
Definition valid_session (now : Z) (session_token ip_address
  user_agent : string) (s : Session.row) : Prop :=
  Session.session_token s = session_token
  /\ Session.ip_address s = ip_address
  /\ Session.user_agent s = user_agent
  /\ now < Session.expires_at s
  /\ Session.is_active s = true.

(** A throttle-log entry of the client on the endpoint inside the trailing
    window. *)
Definition counted (now : Z) (client_id endpoint : string) (time_window : Z)
  (l : ThrottleLog.row) : Prop :=
  ThrottleLog.ip_address l = client_id
  /\ ThrottleLog.endpoint l = endpoint
  /\ now - seconds time_window < ThrottleLog.timestamp l.

(** The columns of an account that no login attempt touches. *)
Definition same_identity (u u' : User.row) : Prop :=
  User.user_id u' = User.user_id u
  /\ User.username u' = User.username u
  /\ User.email u' = User.email u
  /\ User.password_hash u' = User.password_hash u
  /\ User.is_active u' = User.is_active u
  /\ User.activation_token u' = User.activation_token u
  /\ User.activation_token_created_at u'
     = User.activation_token_created_at u
  /\ User.reset_password_token u' = User.reset_password_token u.

(** ** Example stores *)

Definition login_rule : ThrottleRule.row :=
  ThrottleRule.mk "login" 5 60 900.

Definition db_five_attempts : database :=
  mkdb [] [] [] [login_rule]
       [ThrottleLog.mk "10.0.0.1" "login" (seconds 1) false;
        ThrottleLog.mk "10.0.0.1" "login" (seconds 2) false;
        ThrottleLog.mk "10.0.0.1" "login" (seconds 3) false;
        ThrottleLog.mk "10.0.0.1" "login" (seconds 4) false;
        ThrottleLog.mk "10.0.0.1" "login" (seconds 5) false].


(** A server whose cast to [INTEGER] rounds an interval to the nearest
    whole second, a half going away from zero. *)
Definition whole_seconds (us : Z) : Z :=
  Z.sgn us * ((Z.abs us + 500000) / 1000000).

(** The specification's reading of re-invalidation: a second call on a
    token that has been invalidated returns [false]. *)
Definition reinvalidation_returns_false : Prop :=
  forall (session_token : string) (db : database),
    fst (invalidate_session session_token
           (snd (invalidate_session session_token (healthy db))))
    = Returned false.

Definition alice_session : Session.row :=
  Session.mk 1 7 "tok-a" "10.0.0.1" "Firefox" (hours 24) true.

Definition bob_session : Session.row :=
  Session.mk 2 8 "tok-b" "10.0.0.2" "Chrome" (hours 24) true.

Definition db_sessions : database :=
  mkdb [] [alice_session; bob_session] [] [] [].

(** [s'] is [s] with [is_active] false and every other column kept. *)
Definition switched_off (s s' : Session.row) : Prop :=
  Session.is_active s' = false
  /\ Session.session_id s' = Session.session_id s
  /\ Session.user_id s' = Session.user_id s
  /\ Session.session_token s' = Session.session_token s
  /\ Session.ip_address s' = Session.ip_address s
  /\ Session.user_agent s' = Session.user_agent s
  /\ Session.expires_at s' = Session.expires_at s.

(** The account is under lockout at [now]: a lock is stored and lies
    strictly in the future. *)
Definition locked_at (now : Z) (u : User.row) : Prop :=
  exists until, User.account_locked_until u = Some until /\ now < until.

(** No lock is stored, or the stored one has run out. *)
Definition unlocked_at (now : Z) (u : User.row) : Prop :=
  match User.account_locked_until u with
  | None => True
  | Some until => until <= now
  end.

(** The specification's reading of the return value of [verify]: the value
    returned for a locked account says [AccountLocked], the value returned
    for an unknown username says [InvalidCredentials]. *)
Definition verify_returns_failure_kind
  (checkpw : string -> string -> option bool) : Prop :=
  exists kind_of : outcome (option UserDict.t) -> FailureKind,
    (forall now username password ip ua db u,
       find_user username db = Some u -> locked_at now u ->
       kind_of (fst (verify_user checkpw now username password ip ua
                                 (healthy db)))
       = AccountLocked)
    /\
    (forall now username password ip ua db,
       find_user username db = None ->
       kind_of (fst (verify_user checkpw now username password ip ua
                                 (healthy db)))
       = InvalidCredentials).

(** The specification's reading of the lockout: a wrong password on an
    unlocked account leaves [account_locked_until] alone unless the counter
    after the increment is exactly 5. *)
Definition locks_only_at_exactly_five
  (checkpw : string -> string -> option bool) : Prop :=
  forall now username password ip ua db u u',
    find_user username db = Some u ->
    unlocked_at now u ->
    checkpw password (User.password_hash u) = Some false ->
    find_user username
      (committed (snd (verify_user checkpw now username password ip ua
                                   (healthy db))))
    = Some u' ->
    User.failed_login_attempts u' <> 5 ->
    User.account_locked_until u' = User.account_locked_until u.

(** The specification's reading of repeated activation: a token that has
    been consumed with success is consumed with success again. *)
Definition reconsumption_succeeds : Prop :=
  forall now token db,
    fst (activate_user now token (healthy db)) = Returned true ->
    fst (activate_user now token
           (snd (activate_user now token (healthy db))))
    = Returned true.

(** A stand-in for bcrypt in the examples: the stored hash is the
    password. *)
Definition plain_checkpw (password password_hash : string) : option bool :=
  Some (String.eqb password password_hash).

(** Five failures on record and a lock that ran out at minute 15. *)
Definition alice : User.row :=
  User.mk 1 "alice" "alice@example.org" "pw-a" true None None None
          5 (Some (minutes 15)) (Some 0) None.

(** Locked until minute 30. *)
Definition bob : User.row :=
  User.mk 2 "bob" "bob@example.org" "pw-b" true None None None
          5 (Some (minutes 30)) (Some (minutes 15)) None.

(** Not activated, holding a token issued at time 0. *)
Definition carol : User.row :=
  User.mk 3 "carol" "carol@example.org" "pw-c" false
          (Some "act-c") (Some 0) None 0 None None None.

(** Active and still holding the token issued at registration. *)
Definition dan : User.row :=
  User.mk 4 "dan" "dan@example.org" "pw-d" true
          (Some "act-d") (Some 0) None 2 None None None.

Definition db_accounts : database :=
  mkdb [alice; bob; carol; dan] [] [] [] [].

(** Calls of [check_rate_limit] by one client on "login", one after the
    other at the given instants, against the rule (5, 60 s). *)
Definition db_login_rule : database := mkdb [] [] [] [login_rule] [].

Definition login_attempts (times : list Z) : Py (list bool) :=
  fold_right
    (fun t rest =>
       allowed <- check_rate_limit t "10.0.0.1" "login" ;;
       others <- rest ;;
       ret (allowed :: others))
    (ret []) times.


(** ** session_manager.py, continued *)

(** Modelled from the spec: the schema that creates the tables is not among
    the sources; the data model of the specification gives [is_active] of a
    session the default true. *)
Definition session_is_active_default : bool := true.

(** [INSERT INTO user_sessions (user_id, session_token, ip_address,
     user_agent, expires_at) ... RETURNING session_token].  The columns the
    statement does not name take what the schema gives them: [session_id]
    is the number the table's sequence issues, a parameter here, and
    [is_active] takes its default. *)
Definition insert_session (session_id user_id : Z) (session_token ip_address
  user_agent : string) (expires_at : Z) (db : database) : database * string :=
  (set_user_sessions
     (user_sessions db
      ++ [Session.mk session_id user_id session_token ip_address user_agent
                     expires_at session_is_active_default]) db,
   session_token).

(** [session_token] is what [secrets.token_urlsafe(32)] draws. *)
Definition create_session (session_token : string) (session_id : Z)
  (now : Z) (user_id : Z) (ip_address user_agent : string)
  : Py (option string) :=
  try_except
    (let expires_at := now + hours 24 in
     with_connection
       (returned <-
          execute (insert_session session_id user_id session_token
                                  ip_address user_agent expires_at) ;;
        ret (Some returned)))
    (ret None).

(** ** security_manager.py, continued *)

(** [DELETE FROM throttle_log
     WHERE timestamp < CURRENT_TIMESTAMP - interval '1 day']. *)
Definition delete_expired_logs (now : Z) (db : database) : database * unit :=
  (set_throttle_log
     (filter (fun l => negb (ThrottleLog.timestamp l <? now - days 1))
             (throttle_log db)) db, tt).

Definition clear_expired_logs (now : Z) : Py bool :=
  try_except
    (with_connection
       (execute (delete_expired_logs now) ;;
        ret true))
    (ret false).

(** Requests to [check_rate_limit], one after the other: each is an
    instant, a client and an endpoint. *)
Definition check_all (requests : list (Z * (string * string)))
  : Py (list bool) :=
  fold_right
    (fun request rest =>
       allowed <- check_rate_limit (fst request) (fst (snd request))
                                   (snd (snd request)) ;;
       others <- rest ;;
       ret (allowed :: others))
    (ret []) requests.

(** The calls of a client on an endpoint that were let through and whose
    log entry lies in the window of [time_window] seconds ending at [s]:
    later than [s - time_window], not later than [s]. *)
Definition admitted (s : Z) (client_id endpoint : string) (time_window : Z)
  (log : list ThrottleLog.row) : list ThrottleLog.row :=
  filter (fun l => String.eqb (ThrottleLog.ip_address l) client_id
                   && String.eqb (ThrottleLog.endpoint l) endpoint
                   && (s - seconds time_window <? ThrottleLog.timestamp l)
                   && (ThrottleLog.timestamp l <=? s)
                   && negb (ThrottleLog.is_blocked l))
         log.

(** ** db_reset.py *)

(** [TRUNCATE TABLE throttle_log]. *)
Definition reset_throttle_logs : Py bool :=
  try_except
    (with_connection
       (execute (fun db => (set_throttle_log [] db, tt)) ;;
        ret true))
    (ret false).

(** [SET failed_login_attempts = 0, account_locked_until = NULL,
         last_failed_login = NULL], on every row. *)
Definition security_counters_reset (u : User.row) : User.row :=
  User.mk (User.user_id u) (User.username u) (User.email u)
          (User.password_hash u) (User.is_active u)
          (User.activation_token u) (User.activation_token_created_at u)
          (User.reset_password_token u)
          0 None None
          (User.last_login u).

Definition reset_user_security_counters : Py bool :=
  try_except
    (with_connection
       (execute (fun db =>
                   (set_users (map security_counters_reset (users db)) db,
                    tt)) ;;
        ret true))
    (ret false).

(** [TRUNCATE TABLE login_history]. *)
Definition reset_login_history : Py bool :=
  try_except
    (with_connection
       (execute (fun db => (set_login_history [] db, tt)) ;;
        ret true))
    (ret false).

(** ** user_manager.py, continued *)

(** [SELECT username, email FROM users WHERE username = %s OR email = %s]
    and [fetchone]. *)
Definition select_existing (username email : string) (db : database)
  : option (string * string) :=
  option_map (fun u => (User.username u, User.email u))
    (find (fun u => String.eqb (User.username u) username
                    || String.eqb (User.email u) email)
          (users db)).

(** Modelled from the spec: the schema that creates the tables is not among
    the sources; the data model of the specification gives
    [failed_login_attempts] the default 0, and the nullable columns of an
    account start out NULL. *)
Definition failed_login_attempts_default : Z := 0.

(** [INSERT INTO users (username, email, password_hash, is_active,
     activation_token, activation_token_created_at)
     VALUES (%s, %s, %s, TRUE, %s, CURRENT_TIMESTAMP) RETURNING user_id].
    The columns the statement does not name take what the schema gives
    them: [user_id] is the number the table's sequence issues, a parameter
    here, and the others take their defaults. *)
Definition insert_user (user_id : Z) (username email password_hash
  activation_token : string) (now : Z) (db : database) : database * Z :=
  (set_users
     (users db
      ++ [User.mk user_id username email password_hash true
                  (Some activation_token) (Some now) None
                  failed_login_attempts_default None None None])
     db,
   user_id).

Section CreateUser.

(** [bcrypt.hashpw(password, salt)], decoded; [None] when it raises. *)
Variable hashpw : string -> string -> option string.

(** [salt] is what [bcrypt.gensalt(rounds=12)] draws and [activation_token]
    what [secrets.token_urlsafe(32)] draws. *)
Definition create_user (salt activation_token : string) (user_id : Z)
  (now : Z) (username email password : string) : Py (option Z) :=
  try_except
    (password_hash <- match hashpw password salt with
                      | Some h => ret h
                      | None => raise
                      end ;;
     with_connection
       (existing <- query (select_existing username email) ;;
        if is_not_None existing then ret None
        else
          returned <-
            execute (insert_user user_id username email password_hash
                                 activation_token now) ;;
          ret (Some returned)))
    (ret None).

End CreateUser.

(** [SELECT user_id FROM users
     WHERE (username = %s OR email = %s) AND user_id != %s]
    and [fetchone]. *)
Definition select_clash (user_id : Z) (username email : string)
  (db : database) : option Z :=
  option_map User.user_id
    (find (fun u => (String.eqb (User.username u) username
                     || String.eqb (User.email u) email)
                    && negb (User.user_id u =? user_id))
          (users db)).

(** [SET username = %s, email = %s, updated_at = CURRENT_TIMESTAMP]; of
    these, [User.row] carries the first two. *)
Definition renamed (username email : string) (u : User.row) : User.row :=
  User.mk (User.user_id u) username email
          (User.password_hash u) (User.is_active u)
          (User.activation_token u) (User.activation_token_created_at u)
          (User.reset_password_token u)
          (User.failed_login_attempts u) (User.account_locked_until u)
          (User.last_failed_login u) (User.last_login u).

(** [UPDATE users SET ... WHERE user_id = %s RETURNING user_id] and
    [fetchone]. *)
Definition update_profile (user_id : Z) (username email : string)
  (db : database) : database * option Z :=
  (set_users (sql_update (has_user_id user_id) (renamed username email)
                         (users db)) db,
   hd_error (map User.user_id (filter (has_user_id user_id) (users db)))).

Definition update_user_profile (user_id : Z) (username email : string)
  : Py bool :=
  try_except
    (with_connection
       (clash <- query (select_clash user_id username email) ;;
        if is_not_None clash then ret false
        else
          returned <- execute (update_profile user_id username email) ;;
          ret (is_not_None returned)))
    (ret false).

(** Calls of [verify_user] for one username from one client, one after the
    other: each is an instant and a candidate password. *)
Definition verify_all (checkpw : string -> string -> option bool)
  (username : string) (ip_address user_agent : option string)
  (attempts : list (Z * string)) : Py (list (option UserDict.t)) :=
  fold_right
    (fun attempt rest =>
       answer <- verify_user checkpw (fst attempt) username (snd attempt)
                             ip_address user_agent ;;
       others <- rest ;;
       ret (answer :: others))
    (ret []) attempts.

(** A store whose first [n] operations succeed and whose next one fails. *)
Definition fails_at (n : nat) (db : database) : env :=
  mkenv db [] (repeat false n ++ [true]) 0.

(** ** routes/auth/validators.py

    A Python [str] is modelled by [string], whose characters are the code
    points below 256; on these [\d] is the class [0-9]. *)

Definition code (c : Ascii.ascii) : Z := Z.of_N (Ascii.N_of_ascii c).

Definition between (lo hi : Z) (c : Ascii.ascii) : bool :=
  (lo <=? code c) && (code c <=? hi).

Definition one_of (set : string) (c : Ascii.ascii) : bool :=
  existsb (Ascii.eqb c) (list_ascii_of_string set).

(** [re.search] of a pattern that is one character class. *)
Definition re_search (class : Ascii.ascii -> bool) (s : string) : bool :=
  existsb class (list_ascii_of_string s).

(** [[A-Z]], [[a-z]] and [\d]. *)
Definition upper (c : Ascii.ascii) : bool := between 65 90 c.
Definition lower (c : Ascii.ascii) : bool := between 97 122 c.
Definition digit (c : Ascii.ascii) : bool := between 48 57 c.

(** The class of the last pattern of [validate_password]: the characters
    from the space to [+] one by one, the range from the comma to the full
    stop, then the solidus, the brackets with the escaped backslash between
    them, and so on to the tilde, and the double quote (code 34) that the
    second string literal appends. *)
Definition special (c : Ascii.ascii) : bool :=
  one_of " !@#$%&'()*+" c
  || between 44 46 c
  || one_of "/[\]^_`{|}~" c
  || (code c =? 34).

Definition validate_password (password : string) : bool * string :=
  if (String.length password <? 8)%nat then
    (false, "Password must be at least 8 characters long")
  else if negb (re_search upper password) then
    (false, "Password must contain uppercase letters")
  else if negb (re_search lower password) then
    (false, "Password must contain lowercase letters")
  else if negb (re_search digit password) then
    (false, "Password must contain numbers")
  else if negb (re_search special password) then
    (false, "Password must contain special characters")
  else (true, "").

(** [[a-zA-Z0-9_-]]. *)
Definition username_char (c : Ascii.ascii) : bool :=
  between 97 122 c || between 65 90 c || between 48 57 c
  || (code c =? 95) || (code c =? 45).

(** The length of the longest run of characters of the class at the start
    of the text. *)
Fixpoint span (class : Ascii.ascii -> bool) (s : list Ascii.ascii) : nat :=
  match s with
  | c :: rest => if class c then S (span class rest) else 0%nat
  | [] => 0%nat
  end.

(** [$] without [re.MULTILINE]: the end of the text, or the place before a
    newline that ends the text. *)
Definition at_dollar (rest : list Ascii.ascii) : bool :=
  match rest with
  | [] => true
  | [c] => code c =? 10
  | _ => false
  end.

(** [re.match(r"^[a-zA-Z0-9_-]{3,20}$", username)]: some number of
    repetitions from 3 to 20, all of them characters of the class, brings
    the match to a place where [$] holds. *)
Definition username_pattern (username : string) : bool :=
  let text := list_ascii_of_string username in
  existsb (fun k => (k <=? span username_char text)%nat
                    && at_dollar (skipn k text))
          (seq 3 18).

Definition validate_username (username : string) : bool * string :=
  if negb (username_pattern username) then
    (false,
     "Username must be 3-20 characters and contain only letters, numbers, underscores, and hyphens")
  else (true, "").

(** ** routes/auth/login.py *)

(** The keys of Flask's [session] that the routes read and write. *)
Record flask_session : Type := mkcookie {
  cookie_user_id : option Z;
  cookie_username : option string;
  cookie_session_token : option string
}.

(** [session.clear()]. *)
Definition cleared : flask_session := mkcookie None None None.

(** What the [login] view answers to a POST. *)
Inductive login_response : Type :=
| TooManyAttempts      (* 429, "Too many login attempts." *)
| PleaseVerifyEmail    (* "Please verify your email address." *)
| LoginSucceeded       (* success: True *)
| InvalidLogin.        (* "Invalid credentials" *)

(** The truth value of a Python [str]. *)
Definition nonempty (s : string) : bool := negb (String.eqb s "").

Section Login.

Variable checkpw : string -> string -> option bool.

(** The POST branch of [login]; [new_token] and [new_session_id] are what
    [create_session] draws and what the sequence issues if the view gets
    that far. *)
Definition login (new_token : string) (new_session_id : Z) (now : Z)
  (remote_addr user_agent : string) (username password : string)
  (session : flask_session) : Py (login_response * flask_session) :=
  allowed <- check_rate_limit now remote_addr "login" ;;
  if negb allowed then ret (TooManyAttempts, session)
  else
    user <- verify_user checkpw now username password
                        (Some remote_addr) (Some user_agent) ;;
    match user with
    | Some user =>
        if negb (UserDict.is_active user) then
          ret (PleaseVerifyEmail, session)
        else
          session_token <-
            create_session new_token new_session_id now
                           (UserDict.user_id user) remote_addr user_agent ;;
          match session_token with
          | Some token =>
              if nonempty token then
                ret (LoginSucceeded,
                     mkcookie (Some (UserDict.user_id user))
                              (Some (UserDict.username user))
                              (Some token))
              else ret (InvalidLogin, session)
          | None => ret (InvalidLogin, session)
          end
    | None => ret (InvalidLogin, session)
    end.

End Login.

(** The truth value of the optional integer [verify_session] returns. *)
Definition truthy_id (user_id : option Z) : bool :=
  match user_id with
  | Some n => negb (n =? 0)
  | None => false
  end.

(** The [login_required] decorator: [true] when the decorated view is
    run, [false] when the request is redirected to the login page. *)
Definition login_required (now : Z) (remote_addr user_agent : string)
  (session : flask_session) : Py (bool * flask_session) :=
  match cookie_user_id session, cookie_session_token session with
  | Some _, Some session_token =>
      user_id <- verify_session now session_token remote_addr user_agent ;;
      if negb (truthy_id user_id) then ret (false, cleared)
      else ret (true, session)
  | _, _ => ret (false, session)
  end.

Definition logout (session : flask_session) : Py flask_session :=
  match cookie_session_token session with
  | Some session_token =>
      invalidate_session session_token ;;
      ret cleared
  | None => ret cleared
  end.

(** The codes of the characters [validate_password] takes for special:
    the printable ASCII characters that are neither letters nor digits,
    without the six from the colon to the question mark (58 to 63). *)
Definition special_code (n : Z) : Prop :=
  32 <= n <= 47 \/ n = 64 \/ 91 <= n <= 96 \/ 123 <= n <= 126.

(** The codes of the characters the docstring of [validate_username]
    allows: the letters, the digits, the underscore (95) and the hyphen
    (45). *)
Definition username_code (n : Z) : Prop :=
  97 <= n <= 122 \/ 65 <= n <= 90 \/ 48 <= n <= 57 \/ n = 95 \/ n = 45.

(** A username as the docstring of [validate_username] describes it. *)
Definition plain_username (text : list Ascii.ascii) : Prop :=
  (3 <= List.length text <= 20)%nat
  /\ Forall (fun c => username_code (code c)) text.

Definition newline : Ascii.ascii := Ascii.ascii_of_nat 10.

(** The columns of an account that an activation keeps. *)
Definition kept_on_activation (r r' : User.row) : Prop :=
  User.user_id r' = User.user_id r
  /\ User.username r' = User.username r
  /\ User.email r' = User.email r
  /\ User.password_hash r' = User.password_hash r
  /\ User.reset_password_token r' = User.reset_password_token r
  /\ User.failed_login_attempts r' = User.failed_login_attempts r
  /\ User.account_locked_until r' = User.account_locked_until r
  /\ User.last_failed_login r' = User.last_failed_login r
  /\ User.last_login r' = User.last_login r.
(** ** Tactics *)

Ltac unfold_py :=
  unfold try_except, with_connection, query, execute, bind, ret, raise,
    storage_op, push_txn, pop_txn, commit_txn, healthy.

(** Split on the next slots of the fault schedule until the run is
    determined. *)
Ltac split_faults :=
  repeat match goal with
         | |- context [match ?fs with [] => _ | _ :: _ => _ end] =>
             is_var fs; destruct fs as [| [|] fs]; cbn
         end.

(** ** Facts about the SQL helpers *)

Lemma in_window_counted (now : Z) (ip ep : string) (tw : Z)
  (l : ThrottleLog.row) :
  in_window now ip ep tw l = true <-> counted now ip ep tw l.
Proof.
  unfold in_window, counted.
  rewrite !andb_true_iff, !String.eqb_eq, Z.ltb_lt. tauto.
Qed.

Lemma select_rule_None (ep : string) (db : database) :
  select_rule ep db = None <->
  forall r, In r (throttle_rules db) -> ThrottleRule.endpoint r <> ep.
Proof.
  unfold select_rule. split.
  - intros H r Hr Heq.
    apply (find_none _ _ H) in Hr.
    apply String.eqb_neq in Hr. contradiction.
  - intros H. induction (throttle_rules db) as [| r rs IH]; [reflexivity |].
    cbn. destruct (String.eqb_spec (ThrottleRule.endpoint r) ep) as [E | E].
    + exfalso. apply (H r); [left; reflexivity | exact E].
    + apply IH. intros r' Hr'. apply H. right. exact Hr'.
Qed.

Lemma select_rule_Some (ep : string) (db : database) (r : ThrottleRule.row) :
  select_rule ep db = Some r ->
  In r (throttle_rules db) /\ ThrottleRule.endpoint r = ep.
Proof.
  unfold select_rule. intros H. apply find_some in H.
  destruct H as [Hin Heq]. apply String.eqb_eq in Heq. auto.
Qed.

Lemma sql_min_None (l : list Z) : sql_min l = None <-> l = [].
Proof.
  destruct l as [| x xs]; cbn; [tauto |].
  destruct (sql_min xs); split; discriminate.
Qed.

Lemma sql_min_Some (l : list Z) (m : Z) :
  sql_min l = Some m -> In m l /\ forall x, In x l -> m <= x.
Proof.
  revert m. induction l as [| x xs IH]; cbn; intros m H; [discriminate |].
  destruct (sql_min xs) as [m' |] eqn:E.
  - destruct (IH m' eq_refl) as [Hin Hle].
    injection H as <-. split.
    + destruct (Z.min_spec x m') as [[_ ->] | [_ ->]]; auto.
    + intros y [<- | Hy]; [lia |].
      specialize (Hle y Hy). lia.
  - apply sql_min_None in E. subst xs. injection H as <-. split.
    + left. reflexivity.
    + intros y [<- | []]. lia.
Qed.

Lemma or_zero_Some (n : Z) : or_zero (Some n) = n.
Proof.
  cbn. destruct (Z.eqb_spec n 0); congruence.
Qed.

Lemma sql_update_Forall2 {R : Type} (cond : R -> bool) (set : R -> R)
  (rows : list R) :
  Forall2 (fun r r' => r' = if cond r then set r else r)
          rows (sql_update cond set rows).
Proof.
  induction rows as [| r rs IH]; cbn; constructor; auto.
Qed.

(** ** check_rate_limit *)

Lemma check_rate_limit_no_rule (now : Z) (ip ep : string) (db : database) :
  select_rule ep db = None ->
  check_rate_limit now ip ep (healthy db) = (Returned true, healthy db).
Proof.
  intros H. unfold check_rate_limit. unfold_py. cbn. rewrite H. reflexivity.
Qed.

Lemma check_rate_limit_rule (now : Z) (ip ep : string) (db : database)
  (r : ThrottleRule.row) :
  select_rule ep db = Some r ->
  let is_blocked :=
    ThrottleRule.max_attempts r
    <=? count_attempts now ip ep (ThrottleRule.time_window r) db in
  check_rate_limit now ip ep (healthy db) =
  (Returned (negb is_blocked),
   healthy (set_throttle_log
              (throttle_log db ++ [ThrottleLog.mk ip ep now is_blocked]) db)).
Proof.
  intros H. unfold check_rate_limit. unfold_py. cbn. rewrite H. reflexivity.
Qed.

(** C1. Without a throttle rule for the endpoint the call is allowed and the
    store is left as it was.  With a rule, the call returns [false] exactly
    when the number of log entries of this client on this endpoint inside
    the trailing [time_window] seconds is at least [max_attempts], and in
    both outcomes the throttle log afterwards is the log before followed by
    one new entry, stamped [now], that records the decision; every other
    table is as it was. *)
Theorem check_rate_limit_decision (now : Z) (client_id endpoint : string)
  (db : database) :
  ((forall r, In r (throttle_rules db) -> ThrottleRule.endpoint r <> endpoint)
   -> check_rate_limit now client_id endpoint (healthy db)
      = (Returned true, healthy db))
  /\
  (forall rule, select_rule endpoint db = Some rule ->
     exists (allowed : bool) (db' : database),
       check_rate_limit now client_id endpoint (healthy db)
       = (Returned allowed, healthy db')
       /\ throttle_log db'
          = throttle_log db
            ++ [ThrottleLog.mk client_id endpoint now (negb allowed)]
       /\ users db' = users db
       /\ user_sessions db' = user_sessions db
       /\ login_history db' = login_history db
       /\ throttle_rules db' = throttle_rules db
       /\ (allowed = false <->
           ThrottleRule.max_attempts rule
           <= Z.of_nat
                (List.length
                   (filter (in_window now client_id endpoint
                                      (ThrottleRule.time_window rule))
                           (throttle_log db))))
       /\ (forall l, In l (filter (in_window now client_id endpoint
                                             (ThrottleRule.time_window rule))
                                  (throttle_log db))
                     <-> In l (throttle_log db)
                         /\ counted now client_id endpoint
                                    (ThrottleRule.time_window rule) l)).
Proof.
  split.
  - intros H. apply check_rate_limit_no_rule. apply select_rule_None. exact H.
  - intros rule H.
    exists (negb (ThrottleRule.max_attempts rule
                  <=? count_attempts now client_id endpoint
                        (ThrottleRule.time_window rule) db)).
    eexists. split; [apply (check_rate_limit_rule _ _ _ _ _ H) |].
    split; [cbn; rewrite negb_involutive; reflexivity |].
    do 4 (split; [reflexivity |]).
    split.
    + rewrite negb_false_iff, Z.leb_le. reflexivity.
    + intros l. rewrite filter_In, in_window_counted. reflexivity.
Qed.

Lemma check_rate_limit_decision_witness :
  check_rate_limit (seconds 6) "10.0.0.1" "register"
                   (healthy db_five_attempts)
  = (Returned true, healthy db_five_attempts)
  /\ exists db' : database,
       check_rate_limit (seconds 6) "10.0.0.1" "login"
                        (healthy db_five_attempts)
       = (Returned false, healthy db')
       /\ throttle_log db'
          = throttle_log db_five_attempts
            ++ [ThrottleLog.mk "10.0.0.1" "login" (seconds 6) true]
       /\ users db' = users db_five_attempts.
Proof.
  destruct (check_rate_limit_decision (seconds 6) "10.0.0.1" "register"
                                      db_five_attempts) as [Hnone _].
  destruct (check_rate_limit_decision (seconds 6) "10.0.0.1" "login"
                                      db_five_attempts) as [_ Hrule].
  split.
  - apply Hnone. intros r [<- | []]. cbn. discriminate.
  - destruct (Hrule login_rule eq_refl)
      as [allowed [db' [Hrun [Hlog [Husers [_ [_ [_ [Hiff _]]]]]]]]].
    assert (allowed = false) as ->.
    { apply Hiff. vm_compute. discriminate. }
    exists db'. split; [exact Hrun | split; [exact Hlog | exact Husers]].
Defined.

(** The sliding window at work: five calls inside a minute pass and the
    sixth is refused. *)
Example five_allowed_sixth_blocked :
  fst (login_attempts
         [seconds 1; seconds 2; seconds 3; seconds 4; seconds 5; seconds 6]
         (healthy db_login_rule))
  = Returned [true; true; true; true; true; false].
Proof.
  vm_compute. reflexivity.
Qed.

(** A refused call is logged and counted like any other: half a second
    after the first call has left the window, the refused sixth call keeps
    the count at five. *)
Example refused_call_is_counted :
  fst (login_attempts
         [seconds 1; seconds 2; seconds 3; seconds 4; seconds 5; seconds 6;
          seconds 61 + 500000]
         (healthy db_login_rule))
  = Returned [true; true; true; true; true; false; false]
  /\ fst (login_attempts
            [seconds 1; seconds 2; seconds 3; seconds 4; seconds 5;
             seconds 61 + 500000]
            (healthy db_login_rule))
     = Returned [true; true; true; true; true; true].
Proof.
  split; vm_compute; reflexivity.
Qed.

(** ** get_rate_limit_status *)

Lemma elapsed_of_oldest (epoch_integer : Z -> Z) (now : Z)
  (window : list ThrottleLog.row) (oldest : ThrottleLog.row) :
  In oldest window ->
  (forall l, In l window ->
             ThrottleLog.timestamp oldest <= ThrottleLog.timestamp l) ->
  or_zero (option_map (fun t => epoch_integer (now - t))
                      (sql_min (map ThrottleLog.timestamp window)))
  = epoch_integer (now - ThrottleLog.timestamp oldest).
Proof.
  intros Hin Hmin.
  destruct (sql_min (map ThrottleLog.timestamp window)) as [m |] eqn:E.
  - destruct (sql_min_Some _ _ E) as [Hm Hle].
    apply in_map_iff in Hm. destruct Hm as [l0 [Hl0 Hin0]].
    assert (m = ThrottleLog.timestamp oldest) as ->.
    { apply Z.le_antisymm.
      - apply Hle. apply in_map. exact Hin.
      - rewrite <- Hl0. apply Hmin. exact Hin0. }
    cbn [option_map]. apply or_zero_Some.
  - apply sql_min_None in E. destruct window; [contradiction | discriminate].
Qed.

(** C8. Without a throttle rule for the endpoint the status is the sentinel
    [(-1, -1)].  With a rule it is
    [(max 0 (max_attempts - count), max 0 (time_window - elapsed))], where
    [count] is the number of log entries of this client on this endpoint
    inside the trailing [time_window] seconds and [elapsed] is the age in
    seconds of the oldest of them ([0] when there is none).  The call never
    changes the committed tables, failing store included. *)
Theorem get_rate_limit_status_spec (epoch_integer : Z -> Z) (now : Z)
  (client_id endpoint : string) (db : database) :
  ((forall r, In r (throttle_rules db) -> ThrottleRule.endpoint r <> endpoint)
   -> get_rate_limit_status epoch_integer now client_id endpoint (healthy db)
      = (Returned (-1, -1), healthy db))
  /\
  (forall rule, select_rule endpoint db = Some rule ->
     let window :=
       filter (in_window now client_id endpoint
                         (ThrottleRule.time_window rule))
              (throttle_log db) in
     exists elapsed : Z,
       get_rate_limit_status epoch_integer now client_id endpoint (healthy db)
       = (Returned
            (Z.max 0 (ThrottleRule.max_attempts rule
                      - Z.of_nat (List.length window)),
             Z.max 0 (ThrottleRule.time_window rule - elapsed)),
          healthy db)
       /\ (forall l, In l window
                     <-> In l (throttle_log db)
                         /\ counted now client_id endpoint
                                    (ThrottleRule.time_window rule) l)
       /\ (window = [] -> elapsed = 0)
       /\ (forall oldest, In oldest window ->
             (forall l, In l window ->
                ThrottleLog.timestamp oldest <= ThrottleLog.timestamp l) ->
             elapsed
             = epoch_integer (now - ThrottleLog.timestamp oldest))
       /\ ((forall l, In l (throttle_log db) ->
                      ~ counted now client_id endpoint
                                (ThrottleRule.time_window rule) l) ->
           List.length window = 0%nat /\ elapsed = 0)
       /\ (forall oldest,
             In oldest (throttle_log db) ->
             counted now client_id endpoint
                     (ThrottleRule.time_window rule) oldest ->
             (forall l, In l (throttle_log db) ->
                counted now client_id endpoint
                        (ThrottleRule.time_window rule) l ->
                ThrottleLog.timestamp oldest <= ThrottleLog.timestamp l) ->
             elapsed
             = epoch_integer (now - ThrottleLog.timestamp oldest)))
  /\
  (forall e : env,
     committed (snd (get_rate_limit_status epoch_integer now client_id
                                           endpoint e))
     = committed e).
Proof.
  split; [| split].
  - intros H. apply select_rule_None in H.
    unfold get_rate_limit_status. unfold_py. cbn. rewrite H. reflexivity.
  - intros rule H window.
    assert (Hwin : forall l, In l window
                             <-> In l (throttle_log db)
                                 /\ counted now client_id endpoint
                                            (ThrottleRule.time_window rule) l).
    { intros l. unfold window. rewrite filter_In, in_window_counted.
      reflexivity. }
    exists (or_zero
              (option_map (fun t => epoch_integer (now - t))
                          (sql_min (map ThrottleLog.timestamp window)))).
    split; [| split; [exact Hwin | split; [| split; [| split]]]].
    + unfold get_rate_limit_status. unfold_py. cbn. rewrite H. reflexivity.
    + intros ->. reflexivity.
    + intros oldest Hin Hmin. apply elapsed_of_oldest; assumption.
    + intros Hnone.
      assert (Hempty : window = []).
      { destruct window as [| l rest] eqn:E; [reflexivity |].
        exfalso. destruct (proj1 (Hwin l) (or_introl eq_refl)) as [Hin Hc].
        apply (Hnone l Hin Hc). }
      rewrite Hempty. split; reflexivity.
    + intros oldest Hin Hc Hmin. apply elapsed_of_oldest.
      * apply Hwin. split; assumption.
      * intros l Hl. apply Hwin in Hl. destruct Hl as [Hl1 Hl2].
        apply Hmin; assumption.
  - intros [db0 txns fs n].
    unfold get_rate_limit_status. unfold_py. cbn.
    split_faults; try reflexivity;
      destruct (select_rule endpoint db0); cbn;
      split_faults; reflexivity.
Qed.

Lemma get_rate_limit_status_spec_witness :
  get_rate_limit_status whole_seconds (seconds 6 + 600000) "10.0.0.1"
                        "register" (healthy db_five_attempts)
  = (Returned (-1, -1), healthy db_five_attempts)
  /\ get_rate_limit_status whole_seconds (seconds 6 + 600000) "10.0.0.1"
                           "login" (healthy db_five_attempts)
     = (Returned (0, 54), healthy db_five_attempts).
Proof.
  destruct (get_rate_limit_status_spec whole_seconds (seconds 6 + 600000)
              "10.0.0.1" "register" db_five_attempts) as [Hnone _].
  destruct (get_rate_limit_status_spec whole_seconds (seconds 6 + 600000)
              "10.0.0.1" "login" db_five_attempts) as [_ [Hrule _]].
  split.
  - apply Hnone. intros r [<- | []]. cbn. discriminate.
  - destruct (Hrule login_rule eq_refl)
      as [elapsed [Hrun [_ [_ [_ [_ Hold]]]]]].
    rewrite Hrun.
    rewrite (Hold (ThrottleLog.mk "10.0.0.1" "login" (seconds 1) false)).
    + reflexivity.
    + cbn. left. reflexivity.
    + unfold counted. cbn. repeat split; lia.
    + cbn. intros l H _.
      repeat (destruct H as [<- | H]; [cbn; lia |]). contradiction.
Defined.

(** ** Storage failures in check_rate_limit *)

(** C9. Whatever the store does, [check_rate_limit] returns a boolean and
    never lets an exception out; when a storage operation fails during the
    call it returns [false], and nothing of the call is committed. *)
Theorem check_rate_limit_fails_closed (now : Z) (client_id endpoint : string)
  (e : env) :
  (exists allowed : bool,
     fst (check_rate_limit now client_id endpoint e) = Returned allowed)
  /\
  (failures (snd (check_rate_limit now client_id endpoint e)) <> failures e
   -> fst (check_rate_limit now client_id endpoint e) = Returned false
      /\ committed (snd (check_rate_limit now client_id endpoint e))
         = committed e).
Proof.
  destruct e as [db0 txns fs n].
  unfold check_rate_limit. unfold_py. cbn.
  split_faults; try (split; [eexists; reflexivity | intros H; try (split; reflexivity); try (exfalso; apply H; reflexivity)]);
    destruct (select_rule endpoint db0); cbn;
    split_faults;
    (split; [eexists; reflexivity
            | intros H; try (split; reflexivity);
              exfalso; apply H; reflexivity]).
Qed.

Lemma check_rate_limit_fails_closed_witness :
  fst (check_rate_limit (seconds 6) "10.0.0.1" "register"
         (mkenv db_five_attempts [] [false; true] 0))
  = Returned false
  /\ committed
       (snd (check_rate_limit (seconds 6) "10.0.0.1" "register"
               (mkenv db_five_attempts [] [false; true] 0)))
     = db_five_attempts.
Proof.
  apply (check_rate_limit_fails_closed (seconds 6) "10.0.0.1" "register"
           (mkenv db_five_attempts [] [false; true] 0)).
  cbn. discriminate.
Defined.

(** ** verify_session *)

Lemma session_matches_valid (now : Z) (token ip ua : string)
  (s : Session.row) :
  session_matches now token ip ua s = true <->
  valid_session now token ip ua s.
Proof.
  unfold session_matches, valid_session.
  rewrite !andb_true_iff, !String.eqb_eq, Z.ltb_lt. tauto.
Qed.

Lemma verify_session_run (now : Z) (token ip ua : string) (db : database) :
  verify_session now token ip ua (healthy db)
  = (Returned (select_session now token ip ua db), healthy db).
Proof.
  reflexivity.
Qed.

Lemma find_unique {R : Type} (p : R -> bool) (rows : list R) (r : R) :
  In r rows -> p r = true ->
  (forall r', In r' rows -> p r' = true -> r' = r) ->
  find p rows = Some r.
Proof.
  intros Hin Hp Huniq.
  destruct (find p rows) as [r' |] eqn:E.
  - apply find_some in E. destruct E as [Hin' Hp'].
    f_equal. apply Huniq; assumption.
  - rewrite (find_none _ _ E _ Hin) in Hp. discriminate.
Qed.

(** C5. On a store that answers, [verify_session] changes nothing and
    returns some user id exactly when a session with that token, that
    address and that user agent exists, is active and expires strictly after
    [now]; the id returned is the owner of such a session, and the owner of
    the session when no other session carries the token.  When no stored
    session agrees on every point the answer is [None]. *)
Theorem verify_session_spec (now : Z) (session_token ip_address
  user_agent : string) (db : database) :
  exists result : option Z,
    verify_session now session_token ip_address user_agent (healthy db)
    = (Returned result, healthy db)
    /\ (forall user_id, result = Some user_id ->
          exists s, In s (user_sessions db)
                    /\ valid_session now session_token ip_address
                                     user_agent s
                    /\ Session.user_id s = user_id)
    /\ ((exists user_id, result = Some user_id) <->
        (exists s, In s (user_sessions db)
                   /\ valid_session now session_token ip_address
                                    user_agent s))
    /\ (forall s, In s (user_sessions db) ->
          valid_session now session_token ip_address user_agent s ->
          (forall s', In s' (user_sessions db) ->
             Session.session_token s' = session_token -> s' = s) ->
          result = Some (Session.user_id s))
    /\ ((forall s, In s (user_sessions db) ->
           ~ valid_session now session_token ip_address user_agent s) ->
        result = None).
Proof.
  exists (select_session now session_token ip_address user_agent db).
  split; [apply verify_session_run |].
  unfold select_session.
  set (p := session_matches now session_token ip_address user_agent).
  split; [| split; [| split]].
  - intros uid H.
    destruct (find p (user_sessions db)) as [s |] eqn:E; [| discriminate].
    injection H as <-. apply find_some in E. destruct E as [Hin Hp].
    exists s. split; [exact Hin | split; [| reflexivity]].
    apply session_matches_valid. exact Hp.
  - split.
    + intros [uid H].
      destruct (find p (user_sessions db)) as [s |] eqn:E; [| discriminate].
      apply find_some in E. destruct E as [Hin Hp].
      exists s. split; [exact Hin |]. apply session_matches_valid. exact Hp.
    + intros [s [Hin Hv]]. apply session_matches_valid in Hv.
      destruct (find p (user_sessions db)) as [s' |] eqn:E.
      * exists (Session.user_id s'). reflexivity.
      * pose proof (find_none _ _ E _ Hin) as Hn. unfold p in Hn.
        congruence.
  - intros s Hin Hv Huniq.
    rewrite (find_unique p (user_sessions db) s); [reflexivity | exact Hin | |].
    + apply session_matches_valid. exact Hv.
    + intros s' Hin' Hp'. apply Huniq; [exact Hin' |].
      apply session_matches_valid in Hp'. apply Hp'.
  - intros Hnone.
    destruct (find p (user_sessions db)) as [s |] eqn:E; [| reflexivity].
    apply find_some in E. destruct E as [Hin Hp].
    exfalso. apply (Hnone s Hin). apply session_matches_valid. exact Hp.
Qed.

Lemma verify_session_spec_witness :
  verify_session (hours 1) "tok-a" "10.0.0.1" "Firefox" (healthy db_sessions)
  = (Returned (Some 7), healthy db_sessions)
  /\ verify_session (hours 1) "tok-a" "10.0.0.2" "Firefox"
                    (healthy db_sessions)
     = (Returned None, healthy db_sessions)
  /\ verify_session (hours 1) "tok-a" "10.0.0.1" "Chrome"
                    (healthy db_sessions)
     = (Returned None, healthy db_sessions)
  /\ verify_session (hours 24) "tok-a" "10.0.0.1" "Firefox"
                    (healthy db_sessions)
     = (Returned None, healthy db_sessions).
Proof.
  assert (Hmiss : forall now ip ua,
            (forall s, In s (user_sessions db_sessions) ->
               ~ valid_session now "tok-a" ip ua s) ->
            verify_session now "tok-a" ip ua (healthy db_sessions)
            = (Returned None, healthy db_sessions)).
  { intros now ip ua H.
    destruct (verify_session_spec now "tok-a" ip ua db_sessions)
      as [res [Hrun [_ [_ [_ Hnone]]]]].
    rewrite Hrun, (Hnone H). reflexivity. }
  split; [| split; [| split]].
  - destruct (verify_session_spec (hours 1) "tok-a" "10.0.0.1" "Firefox"
                db_sessions) as [res [Hrun [_ [_ [Hone _]]]]].
    rewrite Hrun, (Hone alice_session); [reflexivity | | |].
    + left. reflexivity.
    + unfold valid_session. cbn. repeat split; reflexivity.
    + intros s' [<- | [<- | []]]; cbn; [reflexivity | discriminate].
  - apply Hmiss. unfold valid_session.
    intros s [<- | [<- | []]] H; cbn in H;
      destruct H as [Ht [Hi [Hu [He Ha]]]];
      first [discriminate Ht | discriminate Hi].
  - apply Hmiss. unfold valid_session.
    intros s [<- | [<- | []]] H; cbn in H;
      destruct H as [Ht [Hi [Hu [He Ha]]]];
      first [discriminate Ht | discriminate Hu].
  - apply Hmiss. unfold valid_session.
    intros s [<- | [<- | []]] H; cbn in H;
      destruct H as [Ht [Hi [Hu [He Ha]]]];
      first [discriminate Ht | lia].
Defined.

(** ** invalidate_session *)

Lemma fetchone_existsb {R A : Type} (p : R -> bool) (f : R -> A)
  (rows : list R) :
  is_not_None (hd_error (map f (filter p rows))) = existsb p rows.
Proof.
  induction rows as [| r rs IH]; cbn; [reflexivity |].
  destruct (p r); cbn; [reflexivity | exact IH].
Qed.

Lemma has_token_deactivate (token : string) (s : Session.row) :
  has_token token (deactivate s) = has_token token s.
Proof.
  reflexivity.
Qed.

Lemma deactivate_again (token : string) (rows : list Session.row) :
  sql_update (has_token token) deactivate
             (sql_update (has_token token) deactivate rows)
  = sql_update (has_token token) deactivate rows.
Proof.
  unfold sql_update. rewrite map_map. apply map_ext. intros s.
  destruct (has_token token s) eqn:E.
  - rewrite has_token_deactivate, E. reflexivity.
  - rewrite E. reflexivity.
Qed.

Lemma existsb_deactivate (token : string) (rows : list Session.row) :
  existsb (has_token token) (sql_update (has_token token) deactivate rows)
  = existsb (has_token token) rows.
Proof.
  unfold sql_update.
  induction rows as [| s rs IH]; cbn [map existsb]; [reflexivity |].
  rewrite IH. destruct (has_token token s) eqn:E.
  - rewrite has_token_deactivate, E. reflexivity.
  - rewrite E. reflexivity.
Qed.

Lemma invalidate_session_run (token : string) (db : database) :
  invalidate_session token (healthy db)
  = (Returned (existsb (has_token token) (user_sessions db)),
     healthy (set_user_sessions
                (sql_update (has_token token) deactivate (user_sessions db))
                db)).
Proof.
  unfold invalidate_session. unfold_py. cbn.
  rewrite fetchone_existsb. reflexivity.
Qed.

(** C6, as the specification words it, fails: invalidating a stored session
    a second time finds the row again and returns [true]. *)
Lemma reinvalidation_returns_true : ~ reinvalidation_returns_false.
Proof.
  intros H. specialize (H "tok-a" db_sessions).
  vm_compute in H. discriminate H.
Qed.

(** C6, amended. [invalidate_session] returns whether a session with the
    token is stored, switches [is_active] off on every such session and
    touches nothing else; a second call returns the same answer as the
    first and leaves the store as the first call left it. *)
Theorem invalidate_session_spec (session_token : string) (db : database) :
  exists (existed : bool) (db' : database),
    invalidate_session session_token (healthy db)
    = (Returned existed, healthy db')
    /\ (existed = true <->
        exists s, In s (user_sessions db)
                  /\ Session.session_token s = session_token)
    /\ Forall2 (fun s s' =>
                  (Session.session_token s = session_token
                   -> switched_off s s')
                  /\ (Session.session_token s <> session_token -> s' = s))
               (user_sessions db) (user_sessions db')
    /\ users db' = users db
    /\ login_history db' = login_history db
    /\ throttle_rules db' = throttle_rules db
    /\ throttle_log db' = throttle_log db
    /\ invalidate_session session_token (healthy db')
       = (Returned existed, healthy db').
Proof.
  exists (existsb (has_token session_token) (user_sessions db)).
  exists (set_user_sessions
            (sql_update (has_token session_token) deactivate
                        (user_sessions db)) db).
  split; [apply invalidate_session_run |].
  split; [| split; [| repeat (split; [reflexivity |])]].
  - rewrite existsb_exists. unfold has_token.
    split; intros [s [Hin Hs]]; exists s; split; auto;
      apply String.eqb_eq; exact Hs.
  - cbn [user_sessions set_user_sessions].
    eapply Forall2_impl; [| apply sql_update_Forall2].
    intros s s' ->. unfold has_token.
    destruct (String.eqb_spec (Session.session_token s) session_token);
      split; intros H; try contradiction; try reflexivity.
    unfold switched_off. cbn. repeat split; reflexivity.
  - rewrite invalidate_session_run.
    cbn [user_sessions set_user_sessions].
    rewrite existsb_deactivate, deactivate_again. reflexivity.
Qed.

Lemma invalidate_session_spec_witness :
  exists db',
    invalidate_session "tok-a" (healthy db_sessions)
    = (Returned true, healthy db')
    /\ invalidate_session "tok-a" (healthy db')
       = (Returned true, healthy db').
Proof.
  destruct (invalidate_session_spec "tok-a" db_sessions)
    as [existed [db' [Hrun [Hex [_ [_ [_ [_ [_ Hagain]]]]]]]]].
  assert (existed = true) as ->.
  { apply Hex. exists alice_session.
    split; [left; reflexivity | reflexivity]. }
  exists db'. auto.
Defined.

(** ** verify_user *)

Ltac run_verify_user :=
  unfold verify_user, _log_login_attempt, bcrypt_checkpw, select_user;
  unfold_py; cbn.

Lemma locked_out_locked_at (now : Z) (u : User.row) :
  locked_out now (user_dict u) = true <-> locked_at now u.
Proof.
  unfold locked_out, locked_at. cbn.
  destruct (User.account_locked_until u) as [t |].
  - rewrite Z.ltb_lt. split.
    + intros H. exists t. auto.
    + intros [t' [E H]]. injection E as ->. exact H.
  - split; [discriminate | intros [t' [E _]]; discriminate].
Qed.

Lemma locked_out_unlocked_at (now : Z) (u : User.row) :
  locked_out now (user_dict u) = false <-> unlocked_at now u.
Proof.
  unfold locked_out, unlocked_at. cbn.
  destruct (User.account_locked_until u) as [t |].
  - rewrite Z.ltb_ge. reflexivity.
  - tauto.
Qed.

Section VerifyUserRuns.

Variable checkpw : string -> string -> option bool.
Variables (now : Z) (username password : string).
Variables (ip ua : option string) (db : database).

Let run := verify_user checkpw now username password ip ua (healthy db).

Let audit (user_id : option Z) (successful : bool)
  (reason : option string) : list LoginHistory.row :=
  login_history db
  ++ [LoginHistory.mk user_id ip ua successful reason now].

Lemma verify_user_not_found_run :
  find_user username db = None ->
  run = (Returned None,
         healthy (set_login_history
                    (audit None false (Some "User not found")) db)).
Proof.
  intros Hf. subst run audit. run_verify_user. rewrite Hf. reflexivity.
Qed.

Lemma verify_user_locked_run (u : User.row) :
  find_user username db = Some u ->
  locked_out now (user_dict u) = true ->
  run = (Returned None,
         healthy (set_login_history
                    (audit (Some (User.user_id u)) false
                           (Some "Account locked")) db)).
Proof.
  intros Hf Hl. subst run audit. run_verify_user.
  rewrite Hf. cbn. rewrite Hl. reflexivity.
Qed.

Lemma verify_user_wrong_password_run (u : User.row) :
  find_user username db = Some u ->
  locked_out now (user_dict u) = false ->
  checkpw password (User.password_hash u) = Some false ->
  run = (Returned None,
         healthy (set_users
                    (sql_update (has_user_id (User.user_id u))
                                (failed_login now) (users db))
                    (set_login_history
                       (audit (Some (User.user_id u)) false
                              (Some "Invalid password")) db))).
Proof.
  intros Hf Hl Hc. subst run audit. run_verify_user.
  rewrite Hf. cbn. rewrite Hl. cbn. rewrite Hc. reflexivity.
Qed.

Lemma verify_user_inactive_run (u : User.row) :
  find_user username db = Some u ->
  locked_out now (user_dict u) = false ->
  checkpw password (User.password_hash u) = Some true ->
  User.is_active u = false ->
  run = (Returned None,
         healthy (set_login_history
                    (audit (Some (User.user_id u)) false
                           (Some "Account not activated")) db)).
Proof.
  intros Hf Hl Hc Ha. subst run audit. run_verify_user.
  rewrite Hf. cbn. rewrite Hl. cbn. rewrite Hc. cbn. rewrite Ha.
  reflexivity.
Qed.

Lemma verify_user_success_run (u : User.row) :
  find_user username db = Some u ->
  locked_out now (user_dict u) = false ->
  checkpw password (User.password_hash u) = Some true ->
  User.is_active u = true ->
  run = (Returned (Some (user_dict u)),
         healthy (set_users
                    (sql_update (has_user_id (User.user_id u))
                                (successful_login now) (users db))
                    (set_login_history
                       (audit (Some (User.user_id u)) true None) db))).
Proof.
  intros Hf Hl Hc Ha. subst run audit. run_verify_user.
  rewrite Hf. cbn. rewrite Hl. cbn. rewrite Hc. cbn. rewrite Ha.
  reflexivity.
Qed.

Lemma verify_user_checkpw_raises_run (u : User.row) :
  find_user username db = Some u ->
  locked_out now (user_dict u) = false ->
  checkpw password (User.password_hash u) = None ->
  run = (Returned None, healthy db).
Proof.
  intros Hf Hl Hc. subst run audit. run_verify_user.
  rewrite Hf. cbn. rewrite Hl. cbn. rewrite Hc. reflexivity.
Qed.

End VerifyUserRuns.

(** The account a username finds is still found after an update that keeps
    usernames, and is the updated row. *)
Lemma find_user_updated (username : string) (db : database) (u : User.row)
  (set : User.row -> User.row) (rest : database) :
  (forall r, User.username (set r) = User.username r) ->
  find_user username db = Some u ->
  find_user username
    (set_users (sql_update (has_user_id (User.user_id u)) set (users db))
               rest)
  = Some (set u).
Proof.
  intros Hname. unfold find_user, sql_update. cbn [users set_users].
  induction (users db) as [| r rs IH]; cbn; [discriminate |].
  intros H. destruct (has_user_id (User.user_id u) r) eqn:E.
  - rewrite Hname.
    destruct (String.eqb (User.username r) username).
    + injection H as ->. reflexivity.
    + apply IH. exact H.
  - destruct (String.eqb (User.username r) username).
    + injection H as ->. unfold has_user_id in E.
      rewrite Z.eqb_refl in E. discriminate.
    + apply IH. exact H.
Qed.

Lemma has_user_id_eq (user_id : Z) (r : User.row) :
  has_user_id user_id r = true <-> User.user_id r = user_id.
Proof.
  unfold has_user_id. apply Z.eqb_eq.
Qed.

Lemma update_users_Forall2 (user_id : Z) (set : User.row -> User.row)
  (P : User.row -> User.row -> Prop) (rows : list User.row) :
  (forall r, P r (set r)) ->
  Forall2 (fun r r' => (User.user_id r = user_id -> P r r')
                       /\ (User.user_id r <> user_id -> r' = r))
          rows (sql_update (has_user_id user_id) set rows).
Proof.
  intros HP. eapply Forall2_impl; [| apply sql_update_Forall2].
  intros r r' ->. unfold has_user_id.
  destruct (Z.eqb_spec (User.user_id r) user_id); split; intros H;
    try contradiction; auto.
Qed.

(** C2, as the specification words it, fails: the locked branch and the
    unknown-username branch return the same value, so no failure kind can be
    read off what [verify_user] returns. *)
Lemma verify_user_returns_no_failure_kind :
  ~ verify_returns_failure_kind plain_checkpw.
Proof.
  intros [kind_of [Hlocked Hunknown]].
  specialize (Hlocked (minutes 20) "bob" "pw-b" None None db_accounts bob
                      eq_refl).
  specialize (Hunknown (minutes 20) "eve" "pw-e" None None db_accounts
                       eq_refl).
  assert (Hbob : locked_at (minutes 20) bob).
  { exists (minutes 30). split; [reflexivity | reflexivity]. }
  specialize (Hlocked Hbob).
  vm_compute in Hlocked, Hunknown. congruence.
Qed.

(** C2, amended. While the stored [account_locked_until] lies strictly in
    the future, [verify_user] returns [None] (the value of every failure)
    for every candidate password, whatever the password check would say; it
    appends the history entry "Account locked" and leaves the accounts, the
    counter included, and every other table as they were. *)
Theorem verify_user_locked (checkpw : string -> string -> option bool)
  (now : Z) (username password : string) (ip ua : option string)
  (db : database) (u : User.row) :
  find_user username db = Some u ->
  locked_at now u ->
  exists db',
    verify_user checkpw now username password ip ua (healthy db)
    = (Returned None, healthy db')
    /\ users db' = users db
    /\ login_history db'
       = login_history db
         ++ [LoginHistory.mk (Some (User.user_id u)) ip ua false
                             (Some "Account locked") now]
    /\ user_sessions db' = user_sessions db
    /\ throttle_rules db' = throttle_rules db
    /\ throttle_log db' = throttle_log db.
Proof.
  intros Hf Hl. apply locked_out_locked_at in Hl.
  eexists. split.
  - apply (verify_user_locked_run _ _ _ _ _ _ _ u Hf Hl).
  - repeat split; reflexivity.
Qed.

Lemma verify_user_locked_witness :
  exists db',
    verify_user plain_checkpw (minutes 20) "bob" "pw-b" None None
                (healthy db_accounts)
    = (Returned None, healthy db')
    /\ users db' = users db_accounts
    /\ login_history db'
       = [LoginHistory.mk (Some 2) None None false (Some "Account locked")
                          (minutes 20)].
Proof.
  destruct (verify_user_locked plain_checkpw (minutes 20) "bob" "pw-b"
              None None db_accounts bob eq_refl)
    as [db' [Hrun [Hu [Hh _]]]].
  - exists (minutes 30). split; reflexivity.
  - exists db'. auto.
Defined.

(** C3, as the specification words it, fails: after a lock has run out the
    counter still stands at 5, the next wrong password takes it to 6 and
    the account is locked again. *)
Lemma relocked_past_five : ~ locks_only_at_exactly_five plain_checkpw.
Proof.
  intros H.
  specialize (H (minutes 20) "alice" "guess" None None db_accounts alice
                (failed_login (minutes 20) alice) eq_refl).
  assert (Hunlocked : unlocked_at (minutes 20) alice).
  { unfold unlocked_at. cbn. lia. }
  specialize (H Hunlocked eq_refl eq_refl).
  cbn in H. assert (6 <> 5) as Hneq by lia. specialize (H Hneq).
  discriminate H.
Qed.

(** C3, amended. On an account that exists and is not under lockout, a
    password that does not match adds one to [failed_login_attempts] and
    sets [last_failed_login] to [now]; [account_locked_until] becomes
    [now + 15 minutes] when the counter after the increment is 5 or more,
    and keeps its value when that counter is below 5.  Nothing else of the
    account changes, no other account changes, the history gains the entry
    "Invalid password", and the call returns [None]. *)
Theorem verify_user_wrong_password
  (checkpw : string -> string -> option bool)
  (now : Z) (username password : string) (ip ua : option string)
  (db : database) (u : User.row) :
  find_user username db = Some u ->
  unlocked_at now u ->
  checkpw password (User.password_hash u) = Some false ->
  exists (db' : database) (u' : User.row),
    verify_user checkpw now username password ip ua (healthy db)
    = (Returned None, healthy db')
    /\ find_user username db' = Some u'
    /\ User.failed_login_attempts u' = User.failed_login_attempts u + 1
    /\ User.last_failed_login u' = Some now
    /\ (5 <= User.failed_login_attempts u + 1 ->
        User.account_locked_until u' = Some (now + minutes 15))
    /\ (User.failed_login_attempts u + 1 < 5 ->
        User.account_locked_until u' = User.account_locked_until u)
    /\ User.last_login u' = User.last_login u
    /\ same_identity u u'
    /\ Forall2 (fun r r' =>
                  (User.user_id r = User.user_id u ->
                   User.failed_login_attempts r'
                   = User.failed_login_attempts r + 1
                   /\ same_identity r r')
                  /\ (User.user_id r <> User.user_id u -> r' = r))
               (users db) (users db')
    /\ login_history db'
       = login_history db
         ++ [LoginHistory.mk (Some (User.user_id u)) ip ua false
                             (Some "Invalid password") now]
    /\ user_sessions db' = user_sessions db
    /\ throttle_rules db' = throttle_rules db
    /\ throttle_log db' = throttle_log db.
Proof.
  intros Hf Hl Hc. apply locked_out_unlocked_at in Hl.
  eexists. exists (failed_login now u). split.
  - apply (verify_user_wrong_password_run _ _ _ _ _ _ _ u Hf Hl Hc).
  - split; [apply find_user_updated; [reflexivity | exact Hf] |].
    cbn.
    split; [reflexivity |]. split; [reflexivity |].
    split.
    { intros H. apply Z.leb_le in H. rewrite H. reflexivity. }
    split.
    { intros H. apply Z.leb_gt in H. rewrite H. reflexivity. }
    split; [reflexivity |].
    split; [unfold same_identity; cbn; repeat split; reflexivity |].
    split; [| repeat split; reflexivity].
    apply update_users_Forall2. intros r. cbn.
    split; [reflexivity |]. unfold same_identity. cbn.
    repeat split; reflexivity.
Qed.

Lemma verify_user_wrong_password_witness :
  exists (db' : database) (u' : User.row),
    verify_user plain_checkpw (minutes 20) "dan" "guess" None None
                (healthy db_accounts)
    = (Returned None, healthy db')
    /\ find_user "dan" db' = Some u'
    /\ User.failed_login_attempts u' = 3
    /\ User.last_failed_login u' = Some (minutes 20)
    /\ User.account_locked_until u' = None.
Proof.
  destruct (verify_user_wrong_password plain_checkpw (minutes 20) "dan"
              "guess" None None db_accounts dan eq_refl I eq_refl)
    as [db' [u' [Hrun [Hfind [Hcount [Hlast [_ [Hkeep _]]]]]]]].
  exists db', u'. repeat split; try assumption.
  apply Hkeep. cbn. lia.
Defined.

(** C4. On an active account, a matching password presented while no lock
    is stored or the stored lock has run out ([now >= account_locked_until])
    is accepted: the call returns the columns it read of the account, sets
    [failed_login_attempts] to 0, clears [account_locked_until], sets
    [last_login] to [now], appends a successful history entry, and changes
    nothing else. *)
Theorem verify_user_success (checkpw : string -> string -> option bool)
  (now : Z) (username password : string) (ip ua : option string)
  (db : database) (u : User.row) :
  find_user username db = Some u ->
  User.is_active u = true ->
  unlocked_at now u ->
  checkpw password (User.password_hash u) = Some true ->
  exists (db' : database) (u' : User.row),
    verify_user checkpw now username password ip ua (healthy db)
    = (Returned (Some (user_dict u)), healthy db')
    /\ UserDict.user_id (user_dict u) = User.user_id u
    /\ UserDict.username (user_dict u) = username
    /\ UserDict.is_active (user_dict u) = true
    /\ find_user username db' = Some u'
    /\ User.failed_login_attempts u' = 0
    /\ User.account_locked_until u' = None
    /\ User.last_login u' = Some now
    /\ User.last_failed_login u' = User.last_failed_login u
    /\ same_identity u u'
    /\ Forall2 (fun r r' =>
                  (User.user_id r = User.user_id u ->
                   User.failed_login_attempts r' = 0
                   /\ User.account_locked_until r' = None
                   /\ same_identity r r')
                  /\ (User.user_id r <> User.user_id u -> r' = r))
               (users db) (users db')
    /\ login_history db'
       = login_history db
         ++ [LoginHistory.mk (Some (User.user_id u)) ip ua true None now]
    /\ user_sessions db' = user_sessions db
    /\ throttle_rules db' = throttle_rules db
    /\ throttle_log db' = throttle_log db.
Proof.
  intros Hf Ha Hl Hc. apply locked_out_unlocked_at in Hl.
  eexists. exists (successful_login now u). split.
  - apply (verify_user_success_run _ _ _ _ _ _ _ u Hf Hl Hc Ha).
  - split; [reflexivity |].
    split.
    { unfold find_user in Hf. apply find_some in Hf.
      destruct Hf as [_ Hn]. apply String.eqb_eq in Hn. exact Hn. }
    split; [exact Ha |].
    split; [apply find_user_updated; [reflexivity | exact Hf] |].
    cbn. do 4 (split; [reflexivity |]).
    split; [unfold same_identity; cbn; repeat split; reflexivity |].
    split; [| repeat split; reflexivity].
    apply update_users_Forall2. intros r. cbn.
    do 2 (split; [reflexivity |]). unfold same_identity. cbn.
    repeat split; reflexivity.
Qed.

Lemma verify_user_success_witness :
  exists (db' : database) (u' : User.row),
    verify_user plain_checkpw (minutes 15) "alice" "pw-a" None None
                (healthy db_accounts)
    = (Returned (Some (user_dict alice)), healthy db')
    /\ find_user "alice" db' = Some u'
    /\ User.failed_login_attempts u' = 0
    /\ User.account_locked_until u' = None
    /\ User.last_login u' = Some (minutes 15).
Proof.
  destruct (verify_user_success plain_checkpw (minutes 15) "alice" "pw-a"
              None None db_accounts alice eq_refl eq_refl)
    as [db' [u' [Hrun [_ [_ [_ [Hfind [Hcount [Hlock [Hlast _]]]]]]]]]].
  - unfold unlocked_at. cbn. lia.
  - reflexivity.
  - exists db', u'. auto.
Defined.

(** C10. Each failure branch of [verify_user] (unknown username, account
    under lockout, wrong password, account not activated) returns the one
    value [None]; what tells them apart is the reason of the history entry
    the branch appends.  A value other than [None] is returned only for an
    existing, unlocked, active account whose password matches. *)
Theorem verify_user_failures_return_None
  (checkpw : string -> string -> option bool)
  (now : Z) (username password : string) (ip ua : option string)
  (db : database) :
  let run := verify_user checkpw now username password ip ua (healthy db) in
  let logged (user_id : option Z) (reason : string) :=
    login_history (committed (snd run))
    = login_history db
      ++ [LoginHistory.mk user_id ip ua false (Some reason) now] in
  (find_user username db = None ->
   fst run = Returned None /\ logged None "User not found")
  /\
  (forall u, find_user username db = Some u ->
     (locked_at now u ->
      fst run = Returned None
      /\ logged (Some (User.user_id u)) "Account locked")
     /\
     (unlocked_at now u ->
      checkpw password (User.password_hash u) = Some false ->
      fst run = Returned None
      /\ logged (Some (User.user_id u)) "Invalid password")
     /\
     (unlocked_at now u ->
      checkpw password (User.password_hash u) = Some true ->
      User.is_active u = false ->
      fst run = Returned None
      /\ logged (Some (User.user_id u)) "Account not activated"))
  /\
  (forall d, fst run = Returned (Some d) ->
     exists u, find_user username db = Some u
               /\ d = user_dict u
               /\ unlocked_at now u
               /\ checkpw password (User.password_hash u) = Some true
               /\ User.is_active u = true).
Proof.
  intros run logged. subst logged. split; [| split].
  - intros Hf. subst run.
    rewrite (verify_user_not_found_run _ _ _ _ _ _ _ Hf). split; reflexivity.
  - intros u Hf. split; [| split].
    + intros Hl. apply locked_out_locked_at in Hl. subst run.
      rewrite (verify_user_locked_run _ _ _ _ _ _ _ u Hf Hl).
      split; reflexivity.
    + intros Hl Hc. apply locked_out_unlocked_at in Hl. subst run.
      rewrite (verify_user_wrong_password_run _ _ _ _ _ _ _ u Hf Hl Hc).
      split; reflexivity.
    + intros Hl Hc Ha. apply locked_out_unlocked_at in Hl. subst run.
      rewrite (verify_user_inactive_run _ _ _ _ _ _ _ u Hf Hl Hc Ha).
      split; reflexivity.
  - intros d Hd. subst run.
    destruct (find_user username db) as [u |] eqn:Hf.
    2:{ rewrite (verify_user_not_found_run _ _ _ _ _ _ _ Hf) in Hd.
        discriminate Hd. }
    destruct (locked_out now (user_dict u)) eqn:Hl.
    1:{ rewrite (verify_user_locked_run _ _ _ _ _ _ _ u Hf Hl) in Hd.
        discriminate Hd. }
    destruct (checkpw password (User.password_hash u)) as [[|] |] eqn:Hc.
    + destruct (User.is_active u) eqn:Ha.
      * rewrite (verify_user_success_run _ _ _ _ _ _ _ u Hf Hl Hc Ha) in Hd.
        injection Hd as <-. exists u.
        apply locked_out_unlocked_at in Hl. auto.
      * rewrite (verify_user_inactive_run _ _ _ _ _ _ _ u Hf Hl Hc Ha) in Hd.
        discriminate Hd.
    + rewrite (verify_user_wrong_password_run _ _ _ _ _ _ _ u Hf Hl Hc) in Hd.
      discriminate Hd.
    + rewrite (verify_user_checkpw_raises_run _ _ _ _ _ _ _ u Hf Hl Hc) in Hd.
      discriminate Hd.
Qed.

Lemma verify_user_failures_return_None_witness :
  fst (verify_user plain_checkpw (minutes 20) "eve" "pw-e" None None
                   (healthy db_accounts)) = Returned None
  /\ fst (verify_user plain_checkpw (minutes 20) "bob" "pw-b" None None
                      (healthy db_accounts)) = Returned None
  /\ fst (verify_user plain_checkpw (minutes 20) "alice" "guess" None None
                      (healthy db_accounts)) = Returned None
  /\ fst (verify_user plain_checkpw (minutes 20) "carol" "pw-c" None None
                      (healthy db_accounts)) = Returned None.
Proof.
  pose proof (fun username password =>
                verify_user_failures_return_None plain_checkpw (minutes 20)
                  username password None None db_accounts) as H.
  cbv zeta in H.
  split; [| split; [| split]].
  - destruct (H "eve" "pw-e") as [Hunknown _].
    apply Hunknown. reflexivity.
  - destruct (H "bob" "pw-b") as [_ [Hfound _]].
    destruct (Hfound bob eq_refl) as [Hlocked _].
    apply Hlocked. exists (minutes 30). split; reflexivity.
  - destruct (H "alice" "guess") as [_ [Hfound _]].
    destruct (Hfound alice eq_refl) as [_ [Hwrong _]].
    apply Hwrong; [unfold unlocked_at; cbn; lia | reflexivity].
  - destruct (H "carol" "pw-c") as [_ [Hfound _]].
    destruct (Hfound carol eq_refl) as [_ [_ Hinactive]].
    apply Hinactive; [exact I | reflexivity | reflexivity].
Defined.

(** ** activate_user *)

Ltac run_activate_user :=
  unfold activate_user, select_activation; unfold_py; cbn.

Lemma eq_nullable_Some (col : option string) (v : string) :
  eq_nullable col v = true <-> col = Some v.
Proof.
  destruct col as [c |]; cbn.
  - rewrite String.eqb_eq. split; congruence.
  - split; discriminate.
Qed.

Lemma find_token_holder_None (token : string) (db : database) :
  find_token_holder token db = None <->
  forall u, In u (users db) -> User.activation_token u <> Some token.
Proof.
  unfold find_token_holder. split.
  - intros H u Hin Heq. apply eq_nullable_Some in Heq.
    rewrite (find_none _ _ H u Hin) in Heq. discriminate.
  - intros H.
    destruct (find _ (users db)) as [u |] eqn:E; [| reflexivity].
    apply find_some in E. destruct E as [Hin Heq].
    apply eq_nullable_Some in Heq. destruct (H u Hin Heq).
Qed.

Lemma activate_user_no_holder_run (now : Z) (token : string)
  (db : database) :
  find_token_holder token db = None ->
  activate_user now token (healthy db) = (Returned false, healthy db).
Proof.
  intros Hf. run_activate_user. rewrite Hf. reflexivity.
Qed.

(** Once every account of the holder's id is activated, nobody holds the
    token any more, provided the holders all had that id. *)
Lemma token_cleared (token : string) (user_id : Z) (db : database) :
  (forall r, In r (users db) -> User.activation_token r = Some token ->
             User.user_id r = user_id) ->
  find_token_holder token
    (set_users (sql_update (has_user_id user_id) activated (users db)) db)
  = None.
Proof.
  intros Honly. apply find_token_holder_None.
  cbn [users set_users]. unfold sql_update.
  intros u Hin. apply in_map_iff in Hin. destruct Hin as [r [<- Hr]].
  destruct (has_user_id user_id r) eqn:E.
  - cbn. discriminate.
  - intros Htok. apply Honly in Htok; [| exact Hr].
    apply has_user_id_eq in Htok. congruence.
Qed.

(** C7, as the specification words it, fails: a successful activation
    clears the token, so the second consumption of the same token finds no
    account and returns [false]. *)
Lemma reconsumption_fails : ~ reconsumption_succeeds.
Proof.
  intros H. specialize (H (hours 1) "act-c" db_accounts eq_refl).
  vm_compute in H. discriminate H.
Qed.

(** C7, amended. [activate_user] returns [false] and changes nothing when
    no account holds the token; returns [true] and changes nothing when the
    holder is already active (so that call can be repeated with the same
    answer); returns [false] and leaves the holder inactive when the token
    was issued more than 24 hours before [now]; and otherwise, for a token
    with an issue time on record, returns [true], makes the holder active
    and clears its two activation-token columns, changing nothing else.
    After such an activation the token is gone: consuming it again returns
    [false], unless an account of another id holds the same token. *)
Theorem activate_user_spec (now : Z) (token : string) (db : database) :
  ((forall u, In u (users db) -> User.activation_token u <> Some token) ->
   activate_user now token (healthy db) = (Returned false, healthy db))
  /\
  (forall u, find_token_holder token db = Some u ->
     (User.is_active u = true ->
      activate_user now token (healthy db) = (Returned true, healthy db))
     /\
     (forall created,
        User.is_active u = false ->
        User.activation_token_created_at u = Some created ->
        (created < now - hours 24 ->
         activate_user now token (healthy db) = (Returned false, healthy db))
        /\
        (now - hours 24 <= created ->
         exists db',
           activate_user now token (healthy db) = (Returned true, healthy db')
           /\ Forall2 (fun r r' =>
                         (User.user_id r = User.user_id u ->
                          User.is_active r' = true
                          /\ User.activation_token r' = None
                          /\ User.activation_token_created_at r' = None
                          /\ User.user_id r' = User.user_id r
                          /\ User.username r' = User.username r
                          /\ User.email r' = User.email r
                          /\ User.password_hash r' = User.password_hash r
                          /\ User.reset_password_token r'
                             = User.reset_password_token r
                          /\ User.failed_login_attempts r'
                             = User.failed_login_attempts r
                          /\ User.account_locked_until r'
                             = User.account_locked_until r
                          /\ User.last_failed_login r'
                             = User.last_failed_login r
                          /\ User.last_login r' = User.last_login r)
                         /\ (User.user_id r <> User.user_id u -> r' = r))
                      (users db) (users db')
           /\ user_sessions db' = user_sessions db
           /\ login_history db' = login_history db
           /\ throttle_rules db' = throttle_rules db
           /\ throttle_log db' = throttle_log db
           /\ ((forall r, In r (users db) ->
                  User.activation_token r = Some token ->
                  User.user_id r = User.user_id u) ->
               activate_user now token (healthy db')
               = (Returned false, healthy db'))))).
Proof.
  split.
  - intros H. apply activate_user_no_holder_run.
    apply find_token_holder_None. exact H.
  - intros u Hf. split.
    + intros Ha. run_activate_user. rewrite Hf. cbn. rewrite Ha.
      reflexivity.
    + intros created Ha Hc. split.
      * intros Hold. apply Z.ltb_lt in Hold.
        unfold activate_user, select_activation.
        change (days 1) with (hours 24).
        set (cutoff := now - hours 24) in *.
        unfold_py. cbn. rewrite Hf. cbn. rewrite Ha, Hc. cbn.
        rewrite Hold. reflexivity.
      * intros Hfresh.
        exists (set_users (sql_update (has_user_id (User.user_id u))
                                      activated (users db)) db).
        split.
        { apply Z.ltb_ge in Hfresh.
          unfold activate_user, select_activation.
          change (days 1) with (hours 24).
          set (cutoff := now - hours 24) in *.
          unfold_py. cbn. rewrite Hf. cbn. rewrite Ha, Hc. cbn.
          rewrite Hfresh. reflexivity. }
        split.
        { cbn [users set_users]. apply update_users_Forall2.
          intros r. cbn. repeat split; reflexivity. }
        do 4 (split; [reflexivity |]).
        intros Honly. apply activate_user_no_holder_run.
        apply (token_cleared token (User.user_id u) db Honly).
Qed.

Lemma activate_user_spec_witness :
  activate_user (hours 1) "act-x" (healthy db_accounts)
  = (Returned false, healthy db_accounts)
  /\ activate_user (hours 1) "act-d" (healthy db_accounts)
     = (Returned true, healthy db_accounts)
  /\ activate_user (hours 25) "act-c" (healthy db_accounts)
     = (Returned false, healthy db_accounts)
  /\ exists db',
       activate_user (hours 1) "act-c" (healthy db_accounts)
       = (Returned true, healthy db')
       /\ activate_user (hours 1) "act-c" (healthy db')
          = (Returned false, healthy db').
Proof.
  pose proof (fun now token => activate_user_spec now token db_accounts)
    as H.
  split; [| split; [| split]].
  - destruct (H (hours 1) "act-x") as [Hnone _]. apply Hnone.
    intros u [<- | [<- | [<- | [<- | []]]]]; cbn; discriminate.
  - destruct (H (hours 1) "act-d") as [_ Hheld].
    destruct (Hheld dan eq_refl) as [Hactive _].
    apply Hactive. reflexivity.
  - destruct (H (hours 25) "act-c") as [_ Hheld].
    destruct (Hheld carol eq_refl) as [_ Hinactive].
    destruct (Hinactive 0 eq_refl eq_refl) as [Hold _].
    apply Hold. cbn. lia.
  - destruct (H (hours 1) "act-c") as [_ Hheld].
    destruct (Hheld carol eq_refl) as [_ Hinactive].
    destruct (Hinactive 0 eq_refl eq_refl) as [_ Hfresh].
    destruct Hfresh as [db' [Hrun [_ [_ [_ [_ [_ Hagain]]]]]]].
    + cbn. lia.
    + exists db'. split; [exact Hrun |]. apply Hagain.
      intros r [<- | [<- | [<- | [<- | []]]]]; cbn; intros E;
        first [discriminate E | reflexivity].
Defined.


(** * Beyond the claims: the rest of the managers and their callers *)

(** ** Facts about [find] *)

Lemma find_snoc {R : Type} (p : R -> bool) (rows : list R) (r : R) :
  find p (rows ++ [r])
  = match find p rows with
    | Some x => Some x
    | None => if p r then Some r else None
    end.
Proof.
  induction rows as [| x xs IH]; cbn; [reflexivity |].
  destruct (p x); [reflexivity | exact IH].
Qed.

Lemma find_all_false {R : Type} (p : R -> bool) (rows : list R) :
  (forall r, In r rows -> p r = false) -> find p rows = None.
Proof.
  intros H. induction rows as [| x xs IH]; cbn; [reflexivity |].
  rewrite (H x (or_introl eq_refl)). apply IH.
  intros r Hr. apply H. right. exact Hr.
Qed.

Lemma find_map_same {R : Type} (p : R -> bool) (f : R -> R)
  (rows : list R) :
  (forall r, p (f r) = p r) ->
  find p (map f rows) = option_map f (find p rows).
Proof.
  intros H. induction rows as [| x xs IH]; cbn; [reflexivity |].
  rewrite H. destruct (p x); [reflexivity | exact IH].
Qed.

(** ** create_session, and how the three session operations compose *)

Lemma create_session_run (token : string) (sid now uid : Z)
  (ip ua : string) (db : database) :
  create_session token sid now uid ip ua (healthy db)
  = (Returned (Some token),
     healthy (set_user_sessions
                (user_sessions db
                 ++ [Session.mk sid uid token ip ua (now + hours 24) true])
                db)).
Proof.
  reflexivity.
Qed.

Lemma session_matches_other_token (now : Z) (token ip ua : string)
  (s : Session.row) :
  Session.session_token s <> token ->
  session_matches now token ip ua s = false.
Proof.
  intros H. unfold session_matches.
  apply String.eqb_neq in H. rewrite H. reflexivity.
Qed.

Lemma session_matches_mk (now' : Z) (token' ip' ua' : string)
  (sid uid : Z) (token ip ua : string) (expires : Z) (active : bool) :
  session_matches now' token' ip' ua'
                  (Session.mk sid uid token ip ua expires active)
  = String.eqb token token' && String.eqb ip ip' && String.eqb ua ua'
    && (now' <? expires) && active.
Proof.
  reflexivity.
Qed.

(** What [verify_session] selects for a token once a session has been
    stored under it, no earlier session carrying the token. *)
Lemma select_session_created (token : string) (sid now uid : Z)
  (ip ua : string) (db rest : database) (now' : Z) (ip' ua' : string) :
  (forall s, In s (user_sessions db) -> Session.session_token s <> token) ->
  select_session now' token ip' ua'
    (set_user_sessions
       (user_sessions db
        ++ [Session.mk sid uid token ip ua (now + hours 24) true]) rest)
  = if String.eqb ip ip' && String.eqb ua ua' && (now' <? now + hours 24)
    then Some uid else None.
Proof.
  intros Hfresh. unfold select_session. cbn [user_sessions set_user_sessions].
  rewrite find_snoc, find_all_false.
  - rewrite session_matches_mk, String.eqb_refl, andb_true_r. cbn [andb].
    destruct (String.eqb ip ip' && String.eqb ua ua'
              && (now' <? now + hours 24)); reflexivity.
  - intros s Hs. apply session_matches_other_token. apply Hfresh. exact Hs.
Qed.

(** X1. A session created under a token that no stored session carries is
    accepted by [verify_session] for the address and user agent it was
    created with at every instant before [now + 24 hours], with the id of
    the user it was created for; it is refused from [now + 24 hours] on,
    and at any time when the address or the user agent differs. *)
Theorem create_session_then_verify (token : string) (session_id now
  user_id : Z) (ip ua : string) (db : database) :
  (forall s, In s (user_sessions db) -> Session.session_token s <> token) ->
  exists db',
    create_session token session_id now user_id ip ua (healthy db)
    = (Returned (Some token), healthy db')
    /\ (forall now', now' < now + hours 24 ->
          verify_session now' token ip ua (healthy db')
          = (Returned (Some user_id), healthy db'))
    /\ (forall now' ip' ua', now + hours 24 <= now' ->
          verify_session now' token ip' ua' (healthy db')
          = (Returned None, healthy db'))
    /\ (forall now' ip' ua', ip' <> ip \/ ua' <> ua ->
          verify_session now' token ip' ua' (healthy db')
          = (Returned None, healthy db')).
Proof.
  intros Hfresh. eexists. split; [apply create_session_run |].
  split; [| split].
  - intros now' Hlt. rewrite verify_session_run.
    rewrite (select_session_created _ _ _ _ _ _ _ _ _ _ _ Hfresh).
    rewrite !String.eqb_refl. apply Z.ltb_lt in Hlt. rewrite Hlt.
    reflexivity.
  - intros now' ip' ua' Hge. rewrite verify_session_run.
    rewrite (select_session_created _ _ _ _ _ _ _ _ _ _ _ Hfresh).
    apply Z.ltb_ge in Hge. rewrite Hge, andb_false_r. reflexivity.
  - intros now' ip' ua' Hdiff. rewrite verify_session_run.
    rewrite (select_session_created _ _ _ _ _ _ _ _ _ _ _ Hfresh).
    destruct Hdiff as [H | H]; apply not_eq_sym in H;
      apply String.eqb_neq in H; rewrite H; cbn [andb];
      rewrite ?andb_false_r; reflexivity.
Qed.

Lemma create_session_then_verify_witness :
  exists db',
    create_session "tok-c" 3 0 9 "10.0.0.3" "Safari" (healthy db_sessions)
    = (Returned (Some "tok-c"), healthy db')
    /\ verify_session (hours 23) "tok-c" "10.0.0.3" "Safari" (healthy db')
       = (Returned (Some 9), healthy db')
    /\ verify_session (hours 24) "tok-c" "10.0.0.3" "Safari" (healthy db')
       = (Returned None, healthy db').
Proof.
  destruct (create_session_then_verify "tok-c" 3 0 9 "10.0.0.3" "Safari"
              db_sessions) as [db' [Hrun [Hin [Hout _]]]].
  - intros s [<- | [<- | []]]; cbn; discriminate.
  - exists db'. split; [exact Hrun | split].
    + apply Hin. cbn. lia.
    + apply Hout. cbn. lia.
Defined.

(** What [verify_session] selects for a token whose sessions have been
    switched off. *)
Lemma select_session_invalidated (token : string) (db rest : database)
  (now : Z) (ip ua : string) :
  select_session now token ip ua
    (set_user_sessions
       (sql_update (has_token token) deactivate (user_sessions db)) rest)
  = None.
Proof.
  unfold select_session. cbn [user_sessions set_user_sessions].
  rewrite find_all_false; [reflexivity |].
  intros s Hs. unfold sql_update in Hs. apply in_map_iff in Hs.
  destruct Hs as [s0 [<- _]]. unfold session_matches, has_token.
  destruct (String.eqb (Session.session_token s0) token) eqn:E.
  - cbn. apply andb_false_r.
  - rewrite E. reflexivity.
Qed.

(** X2. Once [invalidate_session] has run on a token, [verify_session]
    refuses that token for every address, user agent and instant. *)
Theorem invalidate_then_verify (token : string) (db : database) (now : Z)
  (ip ua : string) :
  fst (verify_session now token ip ua
         (snd (invalidate_session token (healthy db))))
  = Returned None.
Proof.
  rewrite invalidate_session_run. cbn [snd].
  rewrite verify_session_run. cbn [fst].
  rewrite select_session_invalidated. reflexivity.
Qed.

(** X3. Neither invalidating a token nor creating a session under it
    changes what [verify_session] answers for any other token. *)
Theorem other_sessions_untouched (token other : string) (session_id now
  user_id : Z) (ip ua : string) (db : database) (now' : Z)
  (ip' ua' : string) :
  other <> token ->
  fst (verify_session now' other ip' ua'
         (snd (invalidate_session token (healthy db))))
  = fst (verify_session now' other ip' ua' (healthy db))
  /\
  fst (verify_session now' other ip' ua'
         (snd (create_session token session_id now user_id ip ua
                              (healthy db))))
  = fst (verify_session now' other ip' ua' (healthy db)).
Proof.
  intros Hneq. split.
  - rewrite invalidate_session_run. cbn [snd].
    rewrite !verify_session_run. cbn [fst]. f_equal.
    unfold select_session. cbn [user_sessions set_user_sessions].
    induction (user_sessions db) as [| s ss IH]; [reflexivity |].
    unfold sql_update in *. cbn [map find].
    destruct (has_token token s) eqn:E.
    + apply String.eqb_eq in E.
      assert (session_matches now' other ip' ua' s = false) as Hs.
      { apply session_matches_other_token. congruence. }
      assert (session_matches now' other ip' ua' (deactivate s) = false)
        as Hd.
      { apply session_matches_other_token. cbn. congruence. }
      rewrite Hs, Hd. exact IH.
    + destruct (session_matches now' other ip' ua' s);
        [reflexivity | exact IH].
  - rewrite create_session_run. cbn [snd].
    rewrite !verify_session_run. cbn [fst]. f_equal.
    unfold select_session. cbn [user_sessions set_user_sessions].
    rewrite find_snoc.
    destruct (find _ (user_sessions db)); [reflexivity |].
    rewrite session_matches_other_token; [reflexivity |].
    cbn. congruence.
Qed.

Lemma other_sessions_untouched_witness :
  fst (verify_session (hours 1) "tok-b" "10.0.0.2" "Chrome"
         (snd (invalidate_session "tok-a" (healthy db_sessions))))
  = Returned (Some 8).
Proof.
  destruct (other_sessions_untouched "tok-a" "tok-b" 3 0 9 "10.0.0.3"
              "Safari" db_sessions (hours 1) "10.0.0.2" "Chrome")
    as [H _].
  - discriminate.
  - rewrite H. reflexivity.
Defined.

(** X4. [create_session] is all or nothing, whatever the store does: it
    never raises; it returns the token with the session table grown by
    exactly one row (the user, the token, the address, the user agent,
    expiry at [now + 24 hours], active) and every other table as it was, or
    it returns [None] after a storage failure with the committed tables as
    they were. *)
Theorem create_session_all_or_nothing (token : string) (session_id now
  user_id : Z) (ip ua : string) (e : env) :
  let run := create_session token session_id now user_id ip ua e in
  let before := committed e in
  let after := committed (snd run) in
  (fst run = Returned (Some token)
   /\ user_sessions after
      = user_sessions before
        ++ [Session.mk session_id user_id token ip ua (now + hours 24)
                       true]
   /\ users after = users before
   /\ login_history after = login_history before
   /\ throttle_rules after = throttle_rules before
   /\ throttle_log after = throttle_log before
   /\ failures (snd run) = failures e)
  \/
  (fst run = Returned None
   /\ after = before
   /\ failures (snd run) <> failures e).
Proof.
  destruct e as [db0 txns fs n].
  unfold create_session. unfold_py. cbn.
  split_faults;
    first [left; repeat split; reflexivity
          | right; repeat split; try reflexivity; cbn; lia].
Qed.

(** X5. When a storage operation fails during [invalidate_session], the
    call returns [false] without raising and commits nothing: the session
    is as usable afterwards as it was before. *)
Theorem invalidate_session_failure (token : string) (e : env) :
  let run := invalidate_session token e in
  (exists b : bool, fst run = Returned b)
  /\ (failures (snd run) <> failures e ->
      fst run = Returned false /\ committed (snd run) = committed e).
Proof.
  destruct e as [db0 txns fs n].
  unfold invalidate_session. unfold_py. cbn.
  split_faults;
    (split; [eexists; reflexivity
            | intros H; try (split; reflexivity);
              exfalso; apply H; reflexivity]).
Qed.

Lemma invalidate_session_failure_witness :
  fst (invalidate_session "tok-a" (mkenv db_sessions [] [false; true] 0))
  = Returned false
  /\ committed
       (snd (invalidate_session "tok-a"
               (mkenv db_sessions [] [false; true] 0)))
     = db_sessions.
Proof.
  apply (invalidate_session_failure "tok-a"
           (mkenv db_sessions [] [false; true] 0)).
  cbn. discriminate.
Defined.

(** ** clear_expired_logs, reset_throttle_logs and the throttle as a whole *)

Lemma filter_filter_implied {R : Type} (p q : R -> bool) (rows : list R) :
  (forall r, p r = true -> q r = true) ->
  filter p (filter q rows) = filter p rows.
Proof.
  intros H. induction rows as [| r rs IH]; cbn; [reflexivity |].
  destruct (q r) eqn:Q; cbn.
  - rewrite IH. reflexivity.
  - destruct (p r) eqn:P; [| exact IH].
    rewrite (H r P) in Q. discriminate.
Qed.

Lemma filter_length_implied {R : Type} (p q : R -> bool) (rows : list R) :
  (forall r, p r = true -> q r = true) ->
  (List.length (filter p rows) <= List.length (filter q rows))%nat.
Proof.
  intros H. induction rows as [| r rs IH]; cbn; [lia |].
  destruct (p r) eqn:P.
  - rewrite (H r P). cbn. lia.
  - destruct (q r); cbn; lia.
Qed.

Lemma clear_expired_logs_run (now : Z) (db : database) :
  clear_expired_logs now (healthy db)
  = (Returned true,
     healthy (set_throttle_log
                (filter (fun l => negb (ThrottleLog.timestamp l
                                        <? now - days 1))
                        (throttle_log db)) db)).
Proof.
  reflexivity.
Qed.

Lemma get_rate_limit_status_rule (epoch_integer : Z -> Z) (now : Z)
  (ip ep : string) (db : database) (r : ThrottleRule.row) :
  select_rule ep db = Some r ->
  get_rate_limit_status epoch_integer now ip ep (healthy db)
  = (Returned
       (Z.max 0 (ThrottleRule.max_attempts r
                 - fst (select_window epoch_integer now ip ep
                                      (ThrottleRule.time_window r) db)),
        Z.max 0 (ThrottleRule.time_window r
                 - or_zero (snd (select_window epoch_integer now ip ep
                                   (ThrottleRule.time_window r) db)))),
     healthy db).
Proof.
  intros H. unfold get_rate_limit_status. unfold_py. cbn.
  rewrite H. reflexivity.
Qed.

Lemma get_rate_limit_status_no_rule (epoch_integer : Z -> Z) (now : Z)
  (ip ep : string) (db : database) :
  select_rule ep db = None ->
  get_rate_limit_status epoch_integer now ip ep (healthy db)
  = (Returned (-1, -1), healthy db).
Proof.
  intros H. unfold get_rate_limit_status. unfold_py. cbn.
  rewrite H. reflexivity.
Qed.

Lemma window_survives_pruning (now now' : Z) (ip ep : string) (tw : Z)
  (log : list ThrottleLog.row) :
  now <= now' -> tw <= 86400 ->
  filter (in_window now' ip ep tw)
         (filter (fun l => negb (ThrottleLog.timestamp l <? now - days 1))
                 log)
  = filter (in_window now' ip ep tw) log.
Proof.
  intros Hnow Htw. apply filter_filter_implied. intros l Hl.
  apply in_window_counted in Hl. destruct Hl as [_ [_ Hl]].
  apply negb_true_iff, Z.ltb_ge.
  unfold seconds in Hl. unfold days, hours, minutes, seconds. lia.
Qed.

(** X6. Pruning the throttle log decides nothing: for an endpoint without
    a rule, or with a window of at most one day (86400 seconds), both
    [check_rate_limit] and [get_rate_limit_status] answer at any instant
    from the pruning on exactly as they would have answered without it. *)
Theorem clear_expired_logs_keeps_decisions (epoch_integer : Z -> Z)
  (now now' : Z) (client_id endpoint : string) (db : database) :
  now <= now' ->
  (forall rule, select_rule endpoint db = Some rule ->
                ThrottleRule.time_window rule <= 86400) ->
  fst (check_rate_limit now' client_id endpoint
         (snd (clear_expired_logs now (healthy db))))
  = fst (check_rate_limit now' client_id endpoint (healthy db))
  /\
  fst (get_rate_limit_status epoch_integer now' client_id endpoint
         (snd (clear_expired_logs now (healthy db))))
  = fst (get_rate_limit_status epoch_integer now' client_id endpoint
           (healthy db)).
Proof.
  intros Hnow Hrule. rewrite clear_expired_logs_run. cbn [snd].
  set (db' := set_throttle_log _ db).
  assert (Hsel : select_rule endpoint db' = select_rule endpoint db)
    by reflexivity.
  destruct (select_rule endpoint db) as [r |] eqn:E.
  - specialize (Hrule r eq_refl).
    assert (Hwin : filter (in_window now' client_id endpoint
                                     (ThrottleRule.time_window r))
                          (throttle_log db')
                   = filter (in_window now' client_id endpoint
                                       (ThrottleRule.time_window r))
                            (throttle_log db)).
    { apply window_survives_pruning; assumption. }
    split.
    + rewrite (check_rate_limit_rule _ _ _ _ _ Hsel).
      rewrite (check_rate_limit_rule _ _ _ _ _ E).
      cbn [fst]. unfold count_attempts. rewrite Hwin. reflexivity.
    + rewrite (get_rate_limit_status_rule _ _ _ _ _ _ Hsel).
      rewrite (get_rate_limit_status_rule _ _ _ _ _ _ E).
      cbn [fst]. unfold select_window. rewrite Hwin. reflexivity.
  - split.
    + rewrite (check_rate_limit_no_rule _ _ _ _ Hsel).
      rewrite (check_rate_limit_no_rule _ _ _ _ E). reflexivity.
    + rewrite (get_rate_limit_status_no_rule _ _ _ _ _ Hsel).
      rewrite (get_rate_limit_status_no_rule _ _ _ _ _ E). reflexivity.
Qed.

Lemma clear_expired_logs_keeps_decisions_witness :
  fst (check_rate_limit (days 2) "10.0.0.1" "login"
         (snd (clear_expired_logs (days 2) (healthy db_five_attempts))))
  = fst (check_rate_limit (days 2) "10.0.0.1" "login"
           (healthy db_five_attempts)).
Proof.
  apply (clear_expired_logs_keeps_decisions whole_seconds (days 2) (days 2)
           "10.0.0.1" "login" db_five_attempts).
  - lia.
  - intros rule H. injection H as <-. cbn. lia.
Defined.

(** X7. Whatever the store does, [clear_expired_logs] never raises, never
    adds a log entry, never removes one whose timestamp is not more than a
    day before [now], and never touches another table; when it returns
    [true], no entry older than a day is left. *)
Theorem clear_expired_logs_removes_only_old (now : Z) (e : env) :
  let run := clear_expired_logs now e in
  let before := committed e in
  let after := committed (snd run) in
  (exists b : bool, fst run = Returned b)
  /\ (forall l, In l (throttle_log after) -> In l (throttle_log before))
  /\ (forall l, In l (throttle_log before) ->
                now - hours 24 <= ThrottleLog.timestamp l ->
                In l (throttle_log after))
  /\ (fst run = Returned true ->
      forall l, In l (throttle_log after) ->
                now - hours 24 <= ThrottleLog.timestamp l)
  /\ users after = users before
  /\ user_sessions after = user_sessions before
  /\ login_history after = login_history before
  /\ throttle_rules after = throttle_rules before.
Proof.
  assert (Hkeep : forall (log : list ThrottleLog.row) l,
            In l (filter (fun l => negb (ThrottleLog.timestamp l
                                         <? now - days 1)) log)
            <-> In l log /\ now - hours 24 <= ThrottleLog.timestamp l).
  { intros log l. rewrite filter_In, negb_true_iff, Z.ltb_ge.
    reflexivity. }
  destruct e as [db0 txns fs n].
  unfold clear_expired_logs. unfold_py. cbn -[days hours].
  split_faults; cbn -[days hours];
    (split; [eexists; reflexivity |]);
    (split; [intros l Hl; try exact Hl; apply Hkeep in Hl; apply Hl |]);
    (split; [intros l Hl Hts; try exact Hl; apply Hkeep; auto |]);
    (split; [intros Ht l Hl; try discriminate Ht; apply Hkeep in Hl;
             apply Hl |]);
    repeat split; reflexivity.
Qed.

Lemma clear_expired_logs_removes_only_old_witness :
  In (ThrottleLog.mk "10.0.0.1" "login" (seconds 1) false)
     (throttle_log
        (committed (snd (clear_expired_logs (hours 1)
                           (healthy db_five_attempts))))).
Proof.
  destruct (clear_expired_logs_removes_only_old (hours 1)
              (healthy db_five_attempts)) as [_ [_ [Hkept _]]].
  apply Hkept.
  - left. reflexivity.
  - cbn. lia.
Defined.

Lemma check_rate_limit_healthy (now : Z) (ip ep : string) (db : database) :
  exists (allowed : bool) (db' : database),
    check_rate_limit now ip ep (healthy db) = (Returned allowed, healthy db')
    /\ throttle_rules db' = throttle_rules db
    /\ (throttle_log db' = throttle_log db
        \/ exists r, select_rule ep db = Some r
             /\ allowed
                = negb (ThrottleRule.max_attempts r
                        <=? count_attempts now ip ep
                              (ThrottleRule.time_window r) db)
             /\ throttle_log db'
                = throttle_log db
                  ++ [ThrottleLog.mk ip ep now (negb allowed)]).
Proof.
  destruct (select_rule ep db) as [r |] eqn:E.
  - eexists. eexists. split; [apply (check_rate_limit_rule _ _ _ _ _ E) |].
    split; [reflexivity |]. right. exists r.
    split; [reflexivity |]. split; [reflexivity |].
    cbn. rewrite negb_involutive. reflexivity.
  - exists true, db. split; [apply (check_rate_limit_no_rule _ _ _ _ E) |].
    split; [reflexivity |]. left. reflexivity.
Qed.

Lemma admitted_snoc (s : Z) (ip ep : string) (tw : Z)
  (log : list ThrottleLog.row) (l : ThrottleLog.row) :
  admitted s ip ep tw (log ++ [l])
  = admitted s ip ep tw log
    ++ (if in_window s ip ep tw l && (ThrottleLog.timestamp l <=? s)
           && negb (ThrottleLog.is_blocked l)
        then [l] else []).
Proof.
  unfold admitted. rewrite filter_app. reflexivity.
Qed.

(** One call keeps the bound on admitted calls. *)
Lemma admission_bound_step (now : Z) (ip' ep' : string) (db : database)
  (ip ep : string) (rule : ThrottleRule.row) :
  select_rule ep db = Some rule ->
  (forall s,
     Z.of_nat (List.length (admitted s ip ep (ThrottleRule.time_window rule)
                                     (throttle_log db)))
     <= ThrottleRule.max_attempts rule) ->
  exists (allowed : bool) (db' : database),
    check_rate_limit now ip' ep' (healthy db) = (Returned allowed, healthy db')
    /\ select_rule ep db' = Some rule
    /\ (forall s,
          Z.of_nat (List.length
                      (admitted s ip ep (ThrottleRule.time_window rule)
                                (throttle_log db')))
          <= ThrottleRule.max_attempts rule).
Proof.
  intros Hrule Hbound.
  destruct (check_rate_limit_healthy now ip' ep' db)
    as [allowed [db' [Hrun [Hrules Hlog]]]].
  exists allowed, db'. split; [exact Hrun |].
  split; [unfold select_rule in *; rewrite Hrules; exact Hrule |].
  intros s. destruct Hlog as [-> | [r [Hr [Hallowed ->]]]]; [apply Hbound |].
  rewrite admitted_snoc, length_app.
  destruct (in_window s ip ep (ThrottleRule.time_window rule)
                      (ThrottleLog.mk ip' ep' now (negb allowed))
            && (ThrottleLog.timestamp
                  (ThrottleLog.mk ip' ep' now (negb allowed)) <=? s)
            && negb (ThrottleLog.is_blocked
                       (ThrottleLog.mk ip' ep' now (negb allowed))))
    eqn:Hnew.
  2:{ cbn [List.length]. rewrite Nat.add_0_r. apply Hbound. }
  apply andb_true_iff in Hnew. destruct Hnew as [Hnew Hpass].
  apply andb_true_iff in Hnew. destruct Hnew as [Hwin Hle].
  apply in_window_counted in Hwin. destruct Hwin as [Hip [Hep Hts]].
  cbn in Hip, Hep, Hts, Hle, Hpass. subst ip' ep'.
  rewrite negb_involutive in Hpass. rewrite Hpass in Hallowed.
  apply Z.leb_le in Hle.
  assert (r = rule) by congruence. subst r.
  symmetry in Hallowed. apply negb_true_iff, Z.leb_gt in Hallowed.
  unfold count_attempts in Hallowed.
  assert (Hsub : (List.length
                    (admitted s ip ep (ThrottleRule.time_window rule)
                              (throttle_log db))
                  <= List.length
                       (filter (in_window now ip ep
                                          (ThrottleRule.time_window rule))
                               (throttle_log db)))%nat).
  { apply filter_length_implied. intros l Hl.
    apply andb_true_iff in Hl. destruct Hl as [Hl _].
    apply andb_true_iff in Hl. destruct Hl as [Hl _].
    apply in_window_counted in Hl. apply in_window_counted.
    destruct Hl as [H1 [H2 H3]]. repeat split; try assumption. lia. }
  cbn [List.length]. lia.
Qed.

Lemma check_all_cons (request : Z * (string * string))
  (requests : list (Z * (string * string))) (e : env) :
  check_all (request :: requests) e
  = match check_rate_limit (fst request) (fst (snd request))
                           (snd (snd request)) e with
    | (Returned allowed, e1) =>
        match check_all requests e1 with
        | (Returned others, e2) => (Returned (allowed :: others), e2)
        | (Raised, e2) => (Raised, e2)
        end
    | (Raised, e1) => (Raised, e1)
    end.
Proof.
  reflexivity.
Qed.

(** X8. Calls made one after the other never let more than [max_attempts]
    calls of one client on one endpoint through within any span of
    [time_window] seconds: if the stored log respects that bound (an empty
    log does, when [max_attempts] is not negative), it still does after any
    sequence of calls by any clients on any endpoints, refused calls
    included. *)
Theorem sequential_admission_bound
  (requests : list (Z * (string * string))) (db : database)
  (client_id endpoint : string) (rule : ThrottleRule.row) :
  select_rule endpoint db = Some rule ->
  (forall s,
     Z.of_nat (List.length
                 (admitted s client_id endpoint
                           (ThrottleRule.time_window rule)
                           (throttle_log db)))
     <= ThrottleRule.max_attempts rule) ->
  exists (answers : list bool) (db' : database),
    check_all requests (healthy db) = (Returned answers, healthy db')
    /\ List.length answers = List.length requests
    /\ forall s,
         Z.of_nat (List.length
                     (admitted s client_id endpoint
                               (ThrottleRule.time_window rule)
                               (throttle_log db')))
         <= ThrottleRule.max_attempts rule.
Proof.
  revert db. induction requests as [| request rest IH]; intros db Hrule Hb.
  - exists [], db. split; [reflexivity | split; [reflexivity | exact Hb]].
  - destruct (admission_bound_step (fst request) (fst (snd request))
                (snd (snd request)) db client_id endpoint rule Hrule Hb)
      as [allowed [db1 [Hrun [Hrule1 Hb1]]]].
    destruct (IH db1 Hrule1 Hb1) as [others [db2 [Hrest [Hlen Hb2]]]].
    exists (allowed :: others), db2.
    rewrite check_all_cons, Hrun, Hrest.
    split; [reflexivity | split; [cbn; lia | exact Hb2]].
Qed.

Lemma sequential_admission_bound_witness :
  exists (answers : list bool) (db' : database),
    check_all [(seconds 1, ("10.0.0.1", "login"));
               (seconds 2, ("10.0.0.1", "login"));
               (seconds 3, ("10.0.0.2", "login"))]
              (healthy db_login_rule)
    = (Returned answers, healthy db')
    /\ Z.of_nat (List.length
                   (admitted (seconds 10) "10.0.0.1" "login" 60
                             (throttle_log db')))
       <= 5.
Proof.
  destruct (sequential_admission_bound
              [(seconds 1, ("10.0.0.1", "login"));
               (seconds 2, ("10.0.0.1", "login"));
               (seconds 3, ("10.0.0.2", "login"))]
              db_login_rule "10.0.0.1" "login" login_rule eq_refl)
    as [answers [db' [Hrun [_ Hbound]]]].
  - intros s. cbn. lia.
  - exists answers, db'. split; [exact Hrun | apply (Hbound (seconds 10))].
Defined.

(** X9. The two throttle queries agree: at any instant, the next
    [check_rate_limit] of a client on an endpoint is let through exactly
    when [get_rate_limit_status] reports a number of remaining attempts
    other than 0 (which includes the sentinel -1 of an endpoint without a
    rule). *)
Theorem status_agrees_with_check (epoch_integer : Z -> Z) (now : Z)
  (client_id endpoint : string) (db : database) :
  exists (remaining reset : Z) (allowed : bool),
    fst (get_rate_limit_status epoch_integer now client_id endpoint
                               (healthy db))
    = Returned (remaining, reset)
    /\ fst (check_rate_limit now client_id endpoint (healthy db))
       = Returned allowed
    /\ (allowed = true <-> remaining <> 0).
Proof.
  destruct (select_rule endpoint db) as [r |] eqn:E.
  - rewrite (get_rate_limit_status_rule _ _ _ _ _ _ E).
    rewrite (check_rate_limit_rule _ _ _ _ _ E).
    do 3 eexists. split; [reflexivity | split; [reflexivity |]].
    rewrite negb_true_iff, Z.leb_gt.
    unfold select_window, count_attempts. cbn [fst]. lia.
  - rewrite (get_rate_limit_status_no_rule _ _ _ _ _ E).
    rewrite (check_rate_limit_no_rule _ _ _ _ E).
    do 3 eexists. split; [reflexivity | split; [reflexivity |]].
    split; [discriminate | reflexivity].
Qed.

(** X10. After [reset_throttle_logs] every client is let through on every
    endpoint that has no rule or whose rule allows at least one attempt,
    whatever the log held before. *)
Theorem reset_throttle_logs_admits (now : Z) (client_id endpoint : string)
  (db : database) :
  (forall rule, select_rule endpoint db = Some rule ->
                1 <= ThrottleRule.max_attempts rule) ->
  fst (reset_throttle_logs (healthy db)) = Returned true
  /\ fst (check_rate_limit now client_id endpoint
            (snd (reset_throttle_logs (healthy db))))
     = Returned true.
Proof.
  intros Hrule. split; [reflexivity |].
  change (snd (reset_throttle_logs (healthy db)))
    with (healthy (set_throttle_log [] db)).
  assert (Hsel : select_rule endpoint (set_throttle_log [] db)
                 = select_rule endpoint db) by reflexivity.
  destruct (select_rule endpoint db) as [r |] eqn:E.
  - rewrite (check_rate_limit_rule _ _ _ _ _ Hsel). cbn [fst]. f_equal.
    specialize (Hrule r eq_refl). apply negb_true_iff, Z.leb_gt.
    unfold count_attempts. cbn. lia.
  - rewrite (check_rate_limit_no_rule _ _ _ _ Hsel). reflexivity.
Qed.

Lemma reset_throttle_logs_admits_witness :
  fst (check_rate_limit (seconds 6) "10.0.0.1" "login"
         (snd (reset_throttle_logs (healthy db_five_attempts))))
  = Returned true.
Proof.
  apply (reset_throttle_logs_admits (seconds 6) "10.0.0.1" "login"
           db_five_attempts).
  intros rule H. injection H as <-. cbn. lia.
Defined.

(** ** create_user *)

Lemma select_existing_None (username email : string) (db : database) :
  select_existing username email db = None <->
  forall u, In u (users db) ->
            User.username u <> username /\ User.email u <> email.
Proof.
  unfold select_existing. split.
  - intros H u Hu.
    destruct (find _ (users db)) as [x |] eqn:E; [discriminate |].
    pose proof (find_none _ _ E u Hu) as Hn. cbn in Hn.
    apply orb_false_iff in Hn. destruct Hn as [H1 H2].
    apply String.eqb_neq in H1, H2. auto.
  - intros H. rewrite find_all_false; [reflexivity |].
    intros u Hu. destruct (H u Hu) as [H1 H2].
    apply String.eqb_neq in H1, H2. rewrite H1, H2. reflexivity.
Qed.

Section CreateUserRuns.

Variable hashpw : string -> string -> option string.
Variables (salt token : string) (user_id now : Z).
Variables (username email password : string) (db : database).

Lemma create_user_taken_run :
  select_existing username email db <> None ->
  create_user hashpw salt token user_id now username email password
              (healthy db)
  = (Returned None, healthy db).
Proof.
  intros H. unfold create_user. unfold_py.
  destruct (hashpw password salt) as [h |]; [| reflexivity].
  cbn. destruct (select_existing username email db); [reflexivity |].
  contradiction.
Qed.

Lemma create_user_fresh_run (h : string) :
  select_existing username email db = None ->
  hashpw password salt = Some h ->
  create_user hashpw salt token user_id now username email password
              (healthy db)
  = (Returned (Some user_id),
     healthy (set_users
                (users db
                 ++ [User.mk user_id username email h true (Some token)
                             (Some now) None 0 None None None]) db)).
Proof.
  intros Hnone Hh. unfold create_user. unfold_py. rewrite Hh. cbn.
  rewrite Hnone. reflexivity.
Qed.

End CreateUserRuns.

(** X11. [create_user] refuses a username or an email address that an
    account already has: it returns [None] and stores nothing. *)
Theorem create_user_refuses_duplicates
  (hashpw : string -> string -> option string) (salt token : string)
  (user_id now : Z) (username email password : string) (db : database)
  (u : User.row) :
  In u (users db) ->
  User.username u = username \/ User.email u = email ->
  create_user hashpw salt token user_id now username email password
              (healthy db)
  = (Returned None, healthy db).
Proof.
  intros Hin Hdup. apply create_user_taken_run. intros Hnone.
  destruct (proj1 (select_existing_None username email db) Hnone u Hin)
    as [H1 H2].
  destruct Hdup; contradiction.
Qed.

Lemma create_user_refuses_duplicates_witness :
  create_user (fun pw _ => Some pw) "salt" "act-e" 5 0
              "eve" "alice@example.org" "pw-e" (healthy db_accounts)
  = (Returned None, healthy db_accounts).
Proof.
  apply (create_user_refuses_duplicates (fun pw _ => Some pw) "salt" "act-e"
           5 0 "eve" "alice@example.org" "pw-e" db_accounts alice).
  - left. reflexivity.
  - right. reflexivity.
Defined.

Lemma find_user_snoc_fresh (username : string) (db rest : database)
  (u : User.row) :
  (forall x, In x (users db) -> User.username x <> username) ->
  User.username u = username ->
  find_user username (set_users (users db ++ [u]) rest) = Some u.
Proof.
  intros Hfresh Hname. unfold find_user. cbn [users set_users].
  rewrite find_snoc, find_all_false.
  - rewrite Hname, String.eqb_refl. reflexivity.
  - intros x Hx. apply String.eqb_neq. apply Hfresh. exact Hx.
Qed.

(** X12. An account that [create_user] has stored can log in at once: when
    neither the username nor the email address was taken and bcrypt accepts
    the password against the hash it made of it, [verify_user] with that
    username and password succeeds at any later or earlier instant, with no
    activation in between, and returns the id [create_user] returned. *)
Theorem create_user_then_verify
  (hashpw : string -> string -> option string)
  (checkpw : string -> string -> option bool)
  (salt token : string) (user_id now : Z)
  (username email password : string) (db : database) (h : string)
  (now' : Z) (ip ua : option string) :
  (forall u, In u (users db) ->
             User.username u <> username /\ User.email u <> email) ->
  hashpw password salt = Some h ->
  checkpw password h = Some true ->
  exists db',
    create_user hashpw salt token user_id now username email password
                (healthy db)
    = (Returned (Some user_id), healthy db')
    /\ fst (verify_user checkpw now' username password ip ua (healthy db'))
       = Returned (Some (UserDict.mk user_id username h true 0 None)).
Proof.
  intros Hfresh Hh Hc. apply select_existing_None in Hfresh as Hnone.
  eexists. split.
  - apply (create_user_fresh_run _ _ _ _ _ _ _ _ _ h Hnone Hh).
  - set (u := User.mk user_id username email h true (Some token)
                      (Some now) None 0 None None None).
    assert (Hf : find_user username (set_users (users db ++ [u]) db)
                 = Some u).
    { apply find_user_snoc_fresh; [| reflexivity].
      intros x Hx. apply (Hfresh x Hx). }
    rewrite (verify_user_success_run checkpw now' username password ip ua
               _ u Hf); [reflexivity | reflexivity | exact Hc | reflexivity].
Qed.

Lemma create_user_then_verify_witness :
  exists db',
    create_user (fun pw _ => Some pw) "salt" "act-e" 5 0
                "eve" "eve@example.org" "pw-e" (healthy db_accounts)
    = (Returned (Some 5), healthy db')
    /\ fst (verify_user plain_checkpw (minutes 1) "eve" "pw-e" None None
                        (healthy db'))
       = Returned (Some (UserDict.mk 5 "eve" "pw-e" true 0 None)).
Proof.
  apply (create_user_then_verify (fun pw _ => Some pw) plain_checkpw "salt"
           "act-e" 5 0 "eve" "eve@example.org" "pw-e" db_accounts "pw-e"
           (minutes 1) None None).
  - intros u [<- | [<- | [<- | [<- | []]]]]; cbn; split; discriminate.
  - reflexivity.
  - reflexivity.
Defined.

Lemma NoDup_map_snoc {R K : Type} (key : R -> K) (rows : list R) (r : R) :
  NoDup (map key rows) ->
  (forall x, In x rows -> key x <> key r) ->
  NoDup (map key (rows ++ [r])).
Proof.
  intros Hnd Hfresh. rewrite map_app. cbn.
  apply NoDup_app; [exact Hnd | repeat constructor; intros [] | ].
  intros k Hk [<- | []]. apply in_map_iff in Hk.
  destruct Hk as [x [Hx Hin]]. apply (Hfresh x Hin Hx).
Qed.

(** X13. [create_user] keeps usernames and email addresses unique: on a
    store where no two accounts share a username and no two share an email
    address, that is still so after the call, whatever it returns and
    whatever storage operation fails on the way; and it never raises. *)
Theorem create_user_keeps_uniqueness
  (hashpw : string -> string -> option string) (salt token : string)
  (user_id now : Z) (username email password : string) (e : env) :
  let run :=
    create_user hashpw salt token user_id now username email password e in
  NoDup (map User.username (users (committed e))) ->
  NoDup (map User.email (users (committed e))) ->
  (exists answer, fst run = Returned answer)
  /\ NoDup (map User.username (users (committed (snd run))))
  /\ NoDup (map User.email (users (committed (snd run)))).
Proof.
  destruct e as [db0 txns fs n]. intros run Hn He. subst run.
  unfold create_user. unfold_py.
  destruct (hashpw password salt) as [h |];
    [| cbn; split; [eexists; reflexivity | split; assumption]].
  cbn in Hn, He. cbn.
  split_faults;
    try (split; [eexists; reflexivity | split; assumption]);
    destruct (select_existing username email db0) eqn:E; cbn;
    split_faults;
    try (split; [eexists; reflexivity | split; assumption]);
    (split; [eexists; reflexivity |]);
    pose proof (proj1 (select_existing_None username email db0) E) as Hf;
    (split; apply NoDup_map_snoc; try assumption;
     intros x Hx; cbn; apply (Hf x Hx)).
Qed.

Lemma create_user_keeps_uniqueness_witness :
  NoDup (map User.username
           (users (committed
                     (snd (create_user (fun pw _ => Some pw) "salt" "act-e"
                             5 0 "eve" "eve@example.org" "pw-e"
                             (healthy db_accounts)))))).
Proof.
  apply (create_user_keeps_uniqueness (fun pw _ => Some pw) "salt" "act-e"
           5 0 "eve" "eve@example.org" "pw-e" (healthy db_accounts)).
  - cbn. repeat constructor; cbn; intuition discriminate.
  - cbn. repeat constructor; cbn; intuition discriminate.
Defined.

(** X14. The activation token of an account that [create_user] has stored
    is accepted by [activate_user] at any time, 24 hours later included,
    and consuming it changes nothing, the token itself included: the
    account was stored active.  The token must not be held by an account
    stored before. *)
Theorem create_user_then_activate
  (hashpw : string -> string -> option string)
  (salt token : string) (user_id now : Z)
  (username email password : string) (db : database) (now' : Z) :
  fst (create_user hashpw salt token user_id now username email password
                   (healthy db))
  = Returned (Some user_id) ->
  (forall u, In u (users db) -> User.activation_token u <> Some token) ->
  let stored :=
    snd (create_user hashpw salt token user_id now username email password
                     (healthy db)) in
  activate_user now' token stored = (Returned true, stored).
Proof.
  intros Hcreated Hfresh stored. subst stored.
  destruct (hashpw password salt) as [h |] eqn:Hh.
  2:{ unfold create_user in Hcreated. unfold_py. rewrite Hh in Hcreated.
      discriminate Hcreated. }
  destruct (select_existing username email db) eqn:E.
  1:{ rewrite create_user_taken_run in Hcreated;
        [discriminate Hcreated | congruence]. }
  rewrite (create_user_fresh_run _ _ _ _ _ _ _ _ _ h E Hh). cbn [snd].
  unfold activate_user, select_activation, find_token_holder.
  unfold_py. cbn [users set_users committed open_txns faults failures].
  cbn -[find days]. rewrite find_snoc, find_all_false.
  - cbn. rewrite String.eqb_refl. reflexivity.
  - intros u Hu. specialize (Hfresh u Hu).
    destruct (eq_nullable (User.activation_token u) token) eqn:Q;
      [| reflexivity].
    apply eq_nullable_Some in Q. contradiction.
Qed.

Lemma create_user_then_activate_witness :
  fst (activate_user (days 30) "act-e"
         (snd (create_user (fun pw _ => Some pw) "salt" "act-e" 5 0
                 "eve" "eve@example.org" "pw-e" (healthy db_accounts))))
  = Returned true.
Proof.
  rewrite (create_user_then_activate (fun pw _ => Some pw) "salt" "act-e"
             5 0 "eve" "eve@example.org" "pw-e" db_accounts (days 30)).
  - reflexivity.
  - reflexivity.
  - intros u [<- | [<- | [<- | [<- | []]]]]; cbn; discriminate.
Defined.

(** ** update_user_profile *)

Lemma select_clash_None (user_id : Z) (username email : string)
  (db : database) :
  select_clash user_id username email db = None <->
  forall u, In u (users db) -> User.user_id u <> user_id ->
            User.username u <> username /\ User.email u <> email.
Proof.
  unfold select_clash. split.
  - intros H u Hu Hid.
    destruct (find _ (users db)) as [x |] eqn:E; [discriminate |].
    pose proof (find_none _ _ E u Hu) as Hn. cbn in Hn.
    apply Z.eqb_neq in Hid. rewrite Hid, andb_true_r in Hn.
    apply orb_false_iff in Hn. destruct Hn as [H1 H2].
    apply String.eqb_neq in H1, H2. auto.
  - intros H. rewrite find_all_false; [reflexivity |].
    intros u Hu.
    destruct (Z.eqb_spec (User.user_id u) user_id) as [Hid | Hid];
      [apply andb_false_r |].
    destruct (H u Hu Hid) as [H1 H2].
    apply String.eqb_neq in H1, H2. rewrite H1, H2. reflexivity.
Qed.

Lemma update_user_profile_run (user_id : Z) (username email : string)
  (db : database) :
  update_user_profile user_id username email (healthy db)
  = match select_clash user_id username email db with
    | Some _ => (Returned false, healthy db)
    | None =>
        (Returned (existsb (has_user_id user_id) (users db)),
         healthy (set_users
                    (sql_update (has_user_id user_id)
                                (renamed username email) (users db)) db))
    end.
Proof.
  unfold update_user_profile. unfold_py. cbn.
  destruct (select_clash user_id username email db); cbn; [reflexivity |].
  rewrite fetchone_existsb. reflexivity.
Qed.

(** A key that an update gives to the rows of one id stays unique when no
    row of another id has it and ids are unique. *)
Lemma NoDup_key_updated {K : Type} (key : User.row -> K)
  (set : User.row -> User.row) (user_id : Z) (new : K)
  (rows : list User.row) :
  (forall r, key (set r) = new) ->
  NoDup (map User.user_id rows) ->
  NoDup (map key rows) ->
  (forall u, In u rows -> User.user_id u <> user_id -> key u <> new) ->
  NoDup (map key (sql_update (has_user_id user_id) set rows)).
Proof.
  intros Hset. unfold sql_update.
  induction rows as [| x xs IH]; cbn; intros Hid Hkey Hclash;
    [constructor |].
  inversion Hid as [| ? ? Hx_id Hxs_id]. subst.
  inversion Hkey as [| ? ? Hx_key Hxs_key]. subst.
  assert (Hin : forall k,
            In k (map key (map (fun r => if has_user_id user_id r
                                         then set r else r) xs)) ->
            In k (map key xs) \/ (k = new /\ exists r, In r xs
                                   /\ User.user_id r = user_id)).
  { intros k Hk. apply in_map_iff in Hk. destruct Hk as [r' [<- Hr']].
    apply in_map_iff in Hr'. destruct Hr' as [r [<- Hr]].
    destruct (has_user_id user_id r) eqn:E.
    - right. split; [apply Hset |]. exists r. split; [exact Hr |].
      apply has_user_id_eq. exact E.
    - left. apply in_map. exact Hr. }
  constructor.
  - intros Hk. apply Hin in Hk.
    destruct (has_user_id user_id x) eqn:E.
    + apply has_user_id_eq in E. rewrite Hset in Hk.
      destruct Hk as [Hk | [_ [r [Hr Hrid]]]].
      * apply in_map_iff in Hk. destruct Hk as [r [Hr Hrin]].
        apply (Hclash r (or_intror Hrin)); [| exact Hr].
        intros Hrid. apply Hx_id. rewrite E, <- Hrid.
        apply in_map. exact Hrin.
      * apply Hx_id. rewrite E, <- Hrid. apply in_map. exact Hr.
    + destruct Hk as [Hk | [Hk _]]; [contradiction |].
      apply (Hclash x (or_introl eq_refl)); [| exact Hk].
      intros Hxid. apply has_user_id_eq in Hxid. congruence.
  - apply IH; try assumption.
    intros u Hu. apply Hclash. right. exact Hu.
Qed.

(** X15. [update_user_profile] keeps usernames and email addresses unique
    on a store where user ids are unique; it returns [false] and changes
    nothing when an account of another id has the username or the email
    address, and it returns [true] only when an account of the given id is
    stored. *)
Theorem update_user_profile_keeps_uniqueness (user_id : Z)
  (username email : string) (db : database) :
  NoDup (map User.user_id (users db)) ->
  NoDup (map User.username (users db)) ->
  NoDup (map User.email (users db)) ->
  exists (answer : bool) (db' : database),
    update_user_profile user_id username email (healthy db)
    = (Returned answer, healthy db')
    /\ NoDup (map User.username (users db'))
    /\ NoDup (map User.email (users db'))
    /\ ((exists u, In u (users db) /\ User.user_id u <> user_id
                   /\ (User.username u = username \/ User.email u = email))
        -> answer = false /\ db' = db)
    /\ (answer = true ->
        exists u, In u (users db) /\ User.user_id u = user_id).
Proof.
  intros Hid Hname Hemail. rewrite update_user_profile_run.
  destruct (select_clash user_id username email db) as [c |] eqn:E.
  - exists false, db. split; [reflexivity |].
    repeat split; try assumption. discriminate.
  - pose proof (proj1 (select_clash_None _ _ _ _) E) as Hfree.
    do 2 eexists. split; [reflexivity |].
    cbn [users set_users]. split; [| split; [| split]].
    + apply (NoDup_key_updated User.username _ user_id username);
        try assumption; [reflexivity |].
      intros u Hu Hu_id. apply (Hfree u Hu Hu_id).
    + apply (NoDup_key_updated User.email _ user_id email);
        try assumption; [reflexivity |].
      intros u Hu Hu_id. apply (Hfree u Hu Hu_id).
    + intros [u [Hu [Hu_id Hdup]]]. destruct (Hfree u Hu Hu_id).
      destruct Hdup; contradiction.
    + intros Hans. apply existsb_exists in Hans.
      destruct Hans as [u [Hu Hm]]. exists u.
      split; [exact Hu | apply has_user_id_eq; exact Hm].
Qed.

Lemma update_user_profile_keeps_uniqueness_witness :
  exists db',
    update_user_profile 4 "daniel" "dan@example.org" (healthy db_accounts)
    = (Returned true, healthy db')
    /\ NoDup (map User.username (users db'))
    /\ update_user_profile 4 "alice" "dan@example.org" (healthy db_accounts)
       = (Returned false, healthy db_accounts).
Proof.
  assert (Hid : NoDup (map User.user_id (users db_accounts))).
  { cbn. repeat constructor; cbn; intuition discriminate. }
  assert (Hname : NoDup (map User.username (users db_accounts))).
  { cbn. repeat constructor; cbn; intuition discriminate. }
  assert (Hemail : NoDup (map User.email (users db_accounts))).
  { cbn. repeat constructor; cbn; intuition discriminate. }
  destruct (update_user_profile_keeps_uniqueness 4 "daniel"
              "dan@example.org" db_accounts Hid Hname Hemail)
    as [answer [db' [Hrun [Hn [_ _]]]]].
  destruct (update_user_profile_keeps_uniqueness 4 "alice"
              "dan@example.org" db_accounts Hid Hname Hemail)
    as [answer2 [db2 [Hrun2 [_ [_ [Hclash _]]]]]].
  destruct Hclash as [-> ->].
  { exists alice. split; [left; reflexivity |].
    split; [cbn; discriminate | left; reflexivity]. }
  exists db'. split; [| split; [exact Hn | exact Hrun2]].
  rewrite Hrun. vm_compute in Hrun. injection Hrun as <- _.
  reflexivity.
Defined.

(** ** verify_user over several calls: the lockout *)

Lemma verify_all_cons (checkpw : string -> string -> option bool)
  (username : string) (ip ua : option string) (attempt : Z * string)
  (attempts : list (Z * string)) (e : env) :
  verify_all checkpw username ip ua (attempt :: attempts) e
  = match verify_user checkpw (fst attempt) username (snd attempt) ip ua e
    with
    | (Returned answer, e1) =>
        match verify_all checkpw username ip ua attempts e1 with
        | (Returned others, e2) => (Returned (answer :: others), e2)
        | (Raised, e2) => (Raised, e2)
        end
    | (Raised, e1) => (Raised, e1)
    end.
Proof.
  reflexivity.
Qed.

Lemma verify_all_app (checkpw : string -> string -> option bool)
  (username : string) (ip ua : option string)
  (first rest : list (Z * string)) :
  forall (e e1 e2 : env) (a1 a2 : list (option UserDict.t)),
    verify_all checkpw username ip ua first e = (Returned a1, e1) ->
    verify_all checkpw username ip ua rest e1 = (Returned a2, e2) ->
    verify_all checkpw username ip ua (first ++ rest) e
    = (Returned (a1 ++ a2), e2).
Proof.
  induction first as [| attempt first IH]; intros e e1 e2 a1 a2 H1 H2.
  - cbn in H1. injection H1 as <- <-. exact H2.
  - rewrite <- app_comm_cons, verify_all_cons.
    rewrite verify_all_cons in H1.
    destruct (verify_user checkpw (fst attempt) username (snd attempt)
                          ip ua e) as [[answer |] e'];
      [| discriminate H1].
    destruct (verify_all checkpw username ip ua first e')
      as [[others |] e''] eqn:E; [| discriminate H1].
    injection H1 as <- <-.
    rewrite (IH e' e'' e2 others a2 E H2). reflexivity.
Qed.

(** Wrong passwords that keep the counter below 5 leave the account
    without a lock. *)
Lemma wrong_attempts_below_five (checkpw : string -> string -> option bool)
  (username : string) (ip ua : option string)
  (attempts : list (Z * string)) :
  forall (db : database) (u : User.row),
    find_user username db = Some u ->
    User.account_locked_until u = None ->
    User.failed_login_attempts u + Z.of_nat (List.length attempts) < 5 ->
    Forall (fun a => checkpw (snd a) (User.password_hash u) = Some false)
           attempts ->
    exists (db' : database) (u' : User.row),
      verify_all checkpw username ip ua attempts (healthy db)
      = (Returned (repeat None (List.length attempts)), healthy db')
      /\ find_user username db' = Some u'
      /\ User.failed_login_attempts u'
         = User.failed_login_attempts u + Z.of_nat (List.length attempts)
      /\ User.account_locked_until u' = None
      /\ User.password_hash u' = User.password_hash u
      /\ User.is_active u' = User.is_active u
      /\ User.user_id u' = User.user_id u.
Proof.
  induction attempts as [| attempt attempts IH]; intros db u Hf Hl Hc Hw.
  - exists db, u. cbn. rewrite Z.add_0_r. repeat split; auto.
  - inversion Hw as [| ? ? Hw1 Hw2]. subst.
    cbn [List.length] in Hc. rewrite Nat2Z.inj_succ in Hc.
    assert (Hlo : locked_out (fst attempt) (user_dict u) = false).
    { unfold locked_out. cbn. rewrite Hl. reflexivity. }
    pose proof (verify_user_wrong_password_run checkpw (fst attempt)
                  username (snd attempt) ip ua db u Hf Hlo Hw1) as Hrun.
    set (db1 := set_users _ _) in Hrun.
    assert (Hf1 : find_user username db1
                  = Some (failed_login (fst attempt) u)).
    { apply find_user_updated; [reflexivity | exact Hf]. }
    destruct (IH db1 (failed_login (fst attempt) u) Hf1)
      as [db' [u' [Hrest [Hf' [Hcount [Hlock [Hhash [Hact Hid]]]]]]]].
    + cbn. rewrite Hl.
      destruct (Z.leb_spec 5 (User.failed_login_attempts u + 1));
        [lia | reflexivity].
    + cbn. lia.
    + exact Hw2.
    + exists db', u'. rewrite verify_all_cons, Hrun, Hrest.
      cbn in Hcount, Hhash, Hact, Hid.
      cbn [List.length repeat]. rewrite Nat2Z.inj_succ.
      repeat split; try assumption; try reflexivity. lia.
Qed.

(** X16. Five wrong passwords in a row lock a clean account (counter 0, no
    lock stored), whatever the instants of the five calls: all five return
    [None], and from then on every call made before [15 minutes] have
    passed since the fifth is refused, the right password included, and
    changes no account; the right password presented on an active account
    once the 15 minutes are over is accepted and takes the counter back
    to 0. *)
Theorem five_failures_lock_the_account
  (checkpw : string -> string -> option bool)
  (username : string) (ip ua : option string) (db : database)
  (u : User.row) (first_four : list (Z * string)) (t5 : Z) (p5 : string) :
  find_user username db = Some u ->
  User.failed_login_attempts u = 0 ->
  User.account_locked_until u = None ->
  List.length first_four = 4%nat ->
  Forall (fun a => checkpw (snd a) (User.password_hash u) = Some false)
         (first_four ++ [(t5, p5)]) ->
  exists db5 : database,
    verify_all checkpw username ip ua (first_four ++ [(t5, p5)])
               (healthy db)
    = (Returned [None; None; None; None; None], healthy db5)
    /\ (forall now password,
          now < t5 + minutes 15 ->
          fst (verify_user checkpw now username password ip ua
                           (healthy db5))
          = Returned None
          /\ users (committed
                      (snd (verify_user checkpw now username password ip ua
                                        (healthy db5))))
             = users db5)
    /\ (forall now password,
          t5 + minutes 15 <= now ->
          checkpw password (User.password_hash u) = Some true ->
          User.is_active u = true ->
          exists (d : UserDict.t) (u' : User.row),
            fst (verify_user checkpw now username password ip ua
                             (healthy db5))
            = Returned (Some d)
            /\ UserDict.user_id d = User.user_id u
            /\ find_user username
                 (committed
                    (snd (verify_user checkpw now username password ip ua
                                      (healthy db5))))
               = Some u'
            /\ User.failed_login_attempts u' = 0
            /\ User.account_locked_until u' = None).
Proof.
  intros Hf Hzero Hnolock Hlen Hwrong.
  apply Forall_app in Hwrong. destruct Hwrong as [Hw4 Hw5].
  inversion Hw5 as [| ? ? Hw5' _]. subst. cbn in Hw5'.
  destruct (wrong_attempts_below_five checkpw username ip ua first_four
              db u Hf Hnolock) as
    [db4 [u4 [Hrun4 [Hf4 [Hcount4 [Hlock4 [Hhash4 [Hact4 Hid4]]]]]]]];
    [rewrite Hzero, Hlen; cbn; lia | exact Hw4 |].
  rewrite Hzero, Hlen in Hcount4. rewrite Hlen in Hrun4.
  assert (Hlo4 : locked_out t5 (user_dict u4) = false).
  { unfold locked_out. cbn. rewrite Hlock4. reflexivity. }
  rewrite <- Hhash4 in Hw5'.
  pose proof (verify_user_wrong_password_run checkpw t5 username p5 ip ua
                db4 u4 Hf4 Hlo4 Hw5') as Hrun5.
  set (db5 := set_users _ _) in Hrun5.
  assert (Hf5 : find_user username db5 = Some (failed_login t5 u4)).
  { apply find_user_updated; [reflexivity | exact Hf4]. }
  assert (Hlock5 : User.account_locked_until (failed_login t5 u4)
                   = Some (t5 + minutes 15)).
  { cbn -[minutes]. rewrite Hcount4. reflexivity. }
  exists db5. split; [| split].
  - apply (verify_all_app _ _ _ _ _ _ _ _ _ _ _ Hrun4).
    rewrite verify_all_cons. cbn [fst snd]. rewrite Hrun5. reflexivity.
  - intros now password Hnow.
    assert (Hlo : locked_out now (user_dict (failed_login t5 u4)) = true).
    { apply locked_out_locked_at. exists (t5 + minutes 15).
      split; [exact Hlock5 | exact Hnow]. }
    rewrite (verify_user_locked_run checkpw now username password ip ua
               db5 _ Hf5 Hlo).
    split; reflexivity.
  - intros now password Hnow Hc Ha.
    assert (Hlo : locked_out now (user_dict (failed_login t5 u4)) = false).
    { apply locked_out_unlocked_at. unfold unlocked_at.
      rewrite Hlock5. exact Hnow. }
    assert (Hc' : checkpw password
                    (User.password_hash (failed_login t5 u4)) = Some true).
    { cbn. rewrite Hhash4. exact Hc. }
    assert (Ha' : User.is_active (failed_login t5 u4) = true).
    { cbn. rewrite Hact4. exact Ha. }
    rewrite (verify_user_success_run checkpw now username password ip ua
               db5 _ Hf5 Hlo Hc' Ha').
    exists (user_dict (failed_login t5 u4)).
    exists (successful_login now (failed_login t5 u4)).
    cbn [fst snd committed healthy].
    split; [reflexivity |]. split; [exact Hid4 |].
    split; [| split; reflexivity].
    apply (find_user_updated username db5 (failed_login t5 u4)
             (successful_login now));
      [reflexivity | exact Hf5].
Qed.

Lemma five_failures_lock_the_account_witness :
  exists db5 : database,
    verify_all plain_checkpw "dan" None None
               [(0, "a"); (1, "b"); (2, "c"); (3, "d"); (4, "e")]
               (healthy (mkdb [User.mk 4 "dan" "dan@example.org" "pw-d" true
                                       None None None 0 None None None]
                              [] [] [] []))
    = (Returned [None; None; None; None; None], healthy db5)
    /\ fst (verify_user plain_checkpw (minutes 10) "dan" "pw-d" None None
                        (healthy db5))
       = Returned None.
Proof.
  destruct (five_failures_lock_the_account plain_checkpw "dan" None None
              (mkdb [User.mk 4 "dan" "dan@example.org" "pw-d" true
                             None None None 0 None None None] [] [] [] [])
              (User.mk 4 "dan" "dan@example.org" "pw-d" true
                       None None None 0 None None None)
              [(0, "a"); (1, "b"); (2, "c"); (3, "d")] 4 "e")
    as [db5 [Hrun [Hlocked _]]]; try reflexivity.
  - repeat constructor.
  - exists db5. split; [exact Hrun |].
    apply (Hlocked (minutes 10) "pw-d"). cbn. lia.
Defined.

(** ** verify_user when the store fails around the audit write *)

(** X17. A failure of the audit write costs only the history entry.  On an
    unlocked account whose password check gives an answer, the audit write
    comes after the operations [before_audit] (connecting, the SELECT, and
    the UPDATE that every branch but that of the right password on an
    inactive account executes); when connecting for it, its insert or its
    commit fails, [verify_user] still returns what it returns on a store
    that answers and commits the same accounts, and the login history stays
    as it was. *)
Theorem audit_failure_is_swallowed
  (checkpw : string -> string -> option bool)
  (now : Z) (username password : string) (ip ua : option string)
  (db : database) (u : User.row) (matches : bool) (k : nat) :
  find_user username db = Some u ->
  unlocked_at now u ->
  checkpw password (User.password_hash u) = Some matches ->
  (k <= 2)%nat ->
  let before_audit :=
    if matches && negb (User.is_active u) then 2%nat else 3%nat in
  let faulty :=
    verify_user checkpw now username password ip ua
                (fails_at (before_audit + k) db) in
  let sound :=
    verify_user checkpw now username password ip ua (healthy db) in
  fst faulty = fst sound
  /\ users (committed (snd faulty)) = users (committed (snd sound))
  /\ login_history (committed (snd faulty)) = login_history db
  /\ failures (snd faulty) = 1%nat.
Proof.
  intros Hf Hl Hc Hk before_audit faulty sound.
  subst before_audit faulty sound.
  apply locked_out_unlocked_at in Hl.
  assert (Hcases : k = 0%nat \/ k = 1%nat \/ k = 2%nat) by lia.
  destruct matches; [destruct (User.is_active u) eqn:Ha |].
  - rewrite (verify_user_success_run _ _ _ _ _ _ _ u Hf Hl Hc Ha).
    destruct Hcases as [-> | [-> | ->]];
      run_verify_user; rewrite Hf; cbn; rewrite Hl; cbn; rewrite Hc; cbn;
      rewrite Ha; cbn; repeat split; reflexivity.
  - rewrite (verify_user_inactive_run _ _ _ _ _ _ _ u Hf Hl Hc Ha).
    destruct Hcases as [-> | [-> | ->]];
      run_verify_user; rewrite Hf; cbn; rewrite Hl; cbn; rewrite Hc; cbn;
      rewrite Ha; cbn; repeat split; reflexivity.
  - rewrite (verify_user_wrong_password_run _ _ _ _ _ _ _ u Hf Hl Hc).
    destruct Hcases as [-> | [-> | ->]];
      run_verify_user; rewrite Hf; cbn; rewrite Hl; cbn; rewrite Hc; cbn;
      repeat split; reflexivity.
Qed.

Lemma audit_failure_is_swallowed_witness :
  (fst (verify_user plain_checkpw (minutes 20) "dan" "pw-d" None None
                    (fails_at 4 db_accounts))
   = fst (verify_user plain_checkpw (minutes 20) "dan" "pw-d" None None
                      (healthy db_accounts))
   /\ login_history
        (committed (snd (verify_user plain_checkpw (minutes 20) "dan" "pw-d"
                                     None None (fails_at 4 db_accounts))))
      = [])
  /\ fst (verify_user plain_checkpw (minutes 20) "carol" "pw-c" None None
                      (fails_at 2 db_accounts))
     = fst (verify_user plain_checkpw (minutes 20) "carol" "pw-c" None None
                        (healthy db_accounts)).
Proof.
  split.
  - destruct (audit_failure_is_swallowed plain_checkpw (minutes 20) "dan"
                "pw-d" None None db_accounts dan true 1 eq_refl I eq_refl)
      as [Hret [_ [Hhist _]]].
    + lia.
    + split; [exact Hret | exact Hhist].
  - destruct (audit_failure_is_swallowed plain_checkpw (minutes 20) "carol"
                "pw-c" None None db_accounts carol true 0 eq_refl I eq_refl)
      as [Hret _].
    + lia.
    + exact Hret.
Defined.

(** X18. The audit entry is committed before the account update is.  On an
    unlocked account whose password check gives an answer, when everything
    up to and including the audit write succeeds and the commit of
    [verify_user]'s own transaction then fails, the call returns [None] and
    no account changes, yet the history already holds the entry of the
    attempt: marked successful if the password matched an active account,
    and otherwise with the reason of the failure. *)
Theorem commit_failure_after_audit
  (checkpw : string -> string -> option bool)
  (now : Z) (username password : string) (ip ua : option string)
  (db : database) (u : User.row) (matches : bool) :
  find_user username db = Some u ->
  unlocked_at now u ->
  checkpw password (User.password_hash u) = Some matches ->
  let before_audit :=
    if matches && negb (User.is_active u) then 2%nat else 3%nat in
  let run :=
    verify_user checkpw now username password ip ua
                (fails_at (before_audit + 3) db) in
  fst run = Returned None
  /\ users (committed (snd run)) = users db
  /\ login_history (committed (snd run))
     = login_history db
       ++ [LoginHistory.mk (Some (User.user_id u)) ip ua
                           (matches && User.is_active u)
                           (if matches
                            then if User.is_active u then None
                                 else Some "Account not activated"
                            else Some "Invalid password")
                           now]
  /\ user_sessions (committed (snd run)) = user_sessions db
  /\ throttle_log (committed (snd run)) = throttle_log db.
Proof.
  intros Hf Hl Hc before_audit run. subst before_audit run.
  apply locked_out_unlocked_at in Hl.
  destruct matches; [destruct (User.is_active u) eqn:Ha |].
  - run_verify_user; rewrite Hf; cbn; rewrite Hl; cbn; rewrite Hc; cbn;
      rewrite Ha; cbn; repeat split; reflexivity.
  - run_verify_user; rewrite Hf; cbn; rewrite Hl; cbn; rewrite Hc; cbn;
      rewrite Ha; cbn; repeat split; reflexivity.
  - run_verify_user; rewrite Hf; cbn; rewrite Hl; cbn; rewrite Hc; cbn;
      repeat split; reflexivity.
Qed.

Lemma commit_failure_after_audit_witness :
  (fst (verify_user plain_checkpw (minutes 20) "dan" "pw-d" None None
                    (fails_at 6 db_accounts))
   = Returned None
   /\ login_history
        (committed (snd (verify_user plain_checkpw (minutes 20) "dan" "pw-d"
                                     None None (fails_at 6 db_accounts))))
      = [LoginHistory.mk (Some 4) None None true None (minutes 20)])
  /\ login_history
       (committed (snd (verify_user plain_checkpw (minutes 20) "carol"
                          "pw-c" None None (fails_at 5 db_accounts))))
     = [LoginHistory.mk (Some 3) None None false
                        (Some "Account not activated") (minutes 20)].
Proof.
  split.
  - destruct (commit_failure_after_audit plain_checkpw (minutes 20) "dan"
                "pw-d" None None db_accounts dan true eq_refl I eq_refl)
      as [Hret [_ [Hhist _]]].
    split; [exact Hret | exact Hhist].
  - destruct (commit_failure_after_audit plain_checkpw (minutes 20) "carol"
                "pw-c" None None db_accounts carol true eq_refl I eq_refl)
      as [_ [_ [Hhist _]]].
    exact Hhist.
Defined.

(** ** reset_user_security_counters *)

Lemma reset_user_security_counters_run (db : database) :
  reset_user_security_counters (healthy db)
  = (Returned true,
     healthy (set_users (map security_counters_reset (users db)) db)).
Proof.
  reflexivity.
Qed.

(** X19. [reset_user_security_counters] lifts every lockout: afterwards
    every account has a failure counter of 0 and no lock, with its other
    columns kept, and the right password of an active account is accepted
    at once, whatever lock the account was under. *)
Theorem reset_user_security_counters_unlocks
  (checkpw : string -> string -> option bool)
  (now : Z) (username password : string) (ip ua : option string)
  (db : database) (u : User.row) :
  find_user username db = Some u ->
  User.is_active u = true ->
  checkpw password (User.password_hash u) = Some true ->
  exists db',
    reset_user_security_counters (healthy db) = (Returned true, healthy db')
    /\ Forall2 (fun r r' =>
                  User.failed_login_attempts r' = 0
                  /\ User.account_locked_until r' = None
                  /\ User.last_failed_login r' = None
                  /\ User.last_login r' = User.last_login r
                  /\ same_identity r r')
               (users db) (users db')
    /\ fst (verify_user checkpw now username password ip ua (healthy db'))
       = Returned (Some (UserDict.mk (User.user_id u) username
                                     (User.password_hash u) true 0 None)).
Proof.
  intros Hf Ha Hc. eexists.
  split; [apply reset_user_security_counters_run |].
  cbn [users set_users]. split.
  - induction (users db) as [| r rs IH]; cbn; constructor; [| exact IH].
    unfold same_identity. cbn. repeat split; reflexivity.
  - assert (Hf' : find_user username
                    (set_users (map security_counters_reset (users db)) db)
                  = Some (security_counters_reset u)).
    { unfold find_user in *. cbn [users set_users].
      rewrite find_map_same; [rewrite Hf; reflexivity | reflexivity]. }
    rewrite (verify_user_success_run checkpw now username password ip ua
               _ _ Hf'); try reflexivity; [| exact Hc | exact Ha].
    cbn [fst]. unfold user_dict. cbn. rewrite Ha.
    unfold find_user in Hf. apply find_some in Hf. destruct Hf as [_ Hn].
    apply String.eqb_eq in Hn. rewrite Hn. reflexivity.
Qed.

Lemma reset_user_security_counters_unlocks_witness :
  exists db',
    reset_user_security_counters (healthy db_accounts)
    = (Returned true, healthy db')
    /\ fst (verify_user plain_checkpw (minutes 20) "bob" "pw-b" None None
                        (healthy db'))
       = Returned (Some (UserDict.mk 2 "bob" "pw-b" true 0 None)).
Proof.
  destruct (reset_user_security_counters_unlocks plain_checkpw (minutes 20)
              "bob" "pw-b" None None db_accounts bob eq_refl eq_refl
              eq_refl) as [db' [Hrun [_ Hok]]].
  exists db'. split; [exact Hrun | exact Hok].
Defined.

(** ** validators.py *)

Lemma special_by_code (c : Ascii.ascii) :
  special c
  = ((32 <=? code c) && (code c <=? 47) || (code c =? 64)
     || (91 <=? code c) && (code c <=? 96)
     || (123 <=? code c) && (code c <=? 126)).
Proof.
  destruct c as [[] [] [] [] [] [] [] []]; reflexivity.
Qed.

Lemma special_special_code (c : Ascii.ascii) :
  special c = true <-> special_code (code c).
Proof.
  rewrite special_by_code. unfold special_code.
  rewrite !orb_true_iff, !andb_true_iff, !Z.leb_le, Z.eqb_eq. tauto.
Qed.

Lemma between_spec (lo hi : Z) (c : Ascii.ascii) :
  between lo hi c = true <-> lo <= code c <= hi.
Proof.
  unfold between. rewrite andb_true_iff, !Z.leb_le. reflexivity.
Qed.

Lemma re_search_spec (class : Ascii.ascii -> bool) (s : string) :
  re_search class s = true <->
  exists c, In c (list_ascii_of_string s) /\ class c = true.
Proof.
  unfold re_search. apply existsb_exists.
Qed.

Lemma length_list_ascii (s : string) :
  List.length (list_ascii_of_string s) = String.length s.
Proof.
  induction s as [| c s IH]; cbn; [reflexivity | rewrite IH; reflexivity].
Qed.

(** X20. [validate_password] accepts exactly the passwords of at least 8
    characters that hold an upper-case letter, a lower-case letter, a digit
    and a character with code in 32-47, 64, 91-96 or 123-126.  The colon,
    the semicolon, [<], [=], [>] and the question mark (codes 58-63) are
    not among these: a password whose characters are all letters, digits
    or those six is refused. *)
Theorem validate_password_accepts (password : string) :
  let text := list_ascii_of_string password in
  (fst (validate_password password) = true <->
   (8 <= String.length password)%nat
   /\ (exists c, In c text /\ 65 <= code c <= 90)
   /\ (exists c, In c text /\ 97 <= code c <= 122)
   /\ (exists c, In c text /\ 48 <= code c <= 57)
   /\ (exists c, In c text /\ special_code (code c)))
  /\
  (Forall (fun c => 65 <= code c <= 90 \/ 97 <= code c <= 122
                    \/ 48 <= code c <= 63) text ->
   validate_password password
   = (false, "Password must be at least 8 characters long")
   \/ validate_password password
      = (false, "Password must contain uppercase letters")
   \/ validate_password password
      = (false, "Password must contain lowercase letters")
   \/ validate_password password
      = (false, "Password must contain numbers")
   \/ validate_password password
      = (false, "Password must contain special characters")).
Proof.
  intros text.
  assert (Hu : re_search upper password = true <->
               exists c, In c text /\ 65 <= code c <= 90).
  { rewrite re_search_spec. split; intros [c [Hc H]]; exists c;
      (split; [exact Hc | apply between_spec; exact H]). }
  assert (Hl : re_search lower password = true <->
               exists c, In c text /\ 97 <= code c <= 122).
  { rewrite re_search_spec. split; intros [c [Hc H]]; exists c;
      (split; [exact Hc | apply between_spec; exact H]). }
  assert (Hd : re_search digit password = true <->
               exists c, In c text /\ 48 <= code c <= 57).
  { rewrite re_search_spec. split; intros [c [Hc H]]; exists c;
      (split; [exact Hc | apply between_spec; exact H]). }
  assert (Hs : re_search special password = true <->
               exists c, In c text /\ special_code (code c)).
  { rewrite re_search_spec. split; intros [c [Hc H]]; exists c;
      (split; [exact Hc | apply special_special_code; exact H]). }
  split.
  - rewrite <- Hu, <- Hl, <- Hd, <- Hs. unfold validate_password.
    destruct (Nat.ltb_spec (String.length password) 8) as [Hlen | Hlen].
    { cbn. split; [discriminate | intros [H _]; lia]. }
    destruct (re_search upper password); cbn;
      [| split; [discriminate | intros [_ [H _]]; discriminate H]].
    destruct (re_search lower password); cbn;
      [| split; [discriminate | intros [_ [_ [H _]]]; discriminate H]].
    destruct (re_search digit password); cbn;
      [| split; [discriminate | intros [_ [_ [_ [H _]]]]; discriminate H]].
    destruct (re_search special password); cbn;
      [| split; [discriminate | intros [_ [_ [_ [_ H]]]]; discriminate H]].
    split; [intros _; repeat split; exact Hlen | reflexivity].
  - intros Hall.
    assert (Hno : re_search special password = false).
    { apply not_true_is_false. intros E.
      apply Hs in E. destruct E as [c [Hc Hsp]].
      rewrite Forall_forall in Hall. specialize (Hall c Hc).
      unfold special_code in Hsp. lia. }
    unfold validate_password. rewrite Hno.
    destruct (String.length password <? 8)%nat; [auto |].
    destruct (re_search upper password); cbn; [| auto].
    destruct (re_search lower password); cbn; [| auto].
    destruct (re_search digit password); cbn; auto 6.
Qed.

Lemma validate_password_accepts_witness :
  fst (validate_password "Passw0rd!") = true
  /\ validate_password "Passw0rd?"
     = (false, "Password must contain special characters").
Proof.
  destruct (validate_password_accepts "Passw0rd!") as [Hiff _].
  destruct (validate_password_accepts "Passw0rd?") as [_ Hsix].
  split.
  - apply Hiff. cbn. split; [lia |].
    split; [exists (Ascii.ascii_of_nat 80); split; [tauto | cbn; lia] |].
    split; [exists (Ascii.ascii_of_nat 97); split; [tauto | cbn; lia] |].
    split; [exists (Ascii.ascii_of_nat 48); split; [tauto | cbn; lia] |].
    exists (Ascii.ascii_of_nat 33). split; [tauto |].
    unfold special_code. cbn. lia.
  - destruct Hsix as [H | [H | [H | [H | H]]]];
      try (vm_compute in H; discriminate H).
    + repeat constructor; cbn; lia.
    + exact H.
Defined.

(** ** validate_username *)

Lemma span_prefix (class : Ascii.ascii -> bool) (text : list Ascii.ascii) :
  forall k, (k <= span class text)%nat ->
            Forall (fun c => class c = true) (firstn k text)
            /\ (k <= List.length text)%nat.
Proof.
  induction text as [| c rest IH]; intros k Hk.
  - cbn in Hk. assert (k = 0%nat) by lia. subst. cbn. split; [constructor | lia].
  - destruct k as [| k]; [cbn; split; [constructor | lia] |].
    cbn in Hk. destruct (class c) eqn:E; [| lia].
    destruct (IH k) as [Hall Hlen]; [lia |].
    cbn. split; [constructor; assumption | lia].
Qed.

Lemma span_covers (class : Ascii.ascii -> bool)
  (text rest : list Ascii.ascii) :
  Forall (fun c => class c = true) text ->
  (List.length text <= span class (text ++ rest))%nat.
Proof.
  induction 1 as [| c text Hc _ IH]; cbn; [lia |].
  rewrite Hc. lia.
Qed.

Lemma code_newline (c : Ascii.ascii) : code c = 10 -> c = newline.
Proof.
  intros H. unfold code in H.
  rewrite <- (Ascii.ascii_N_embedding c).
  replace (Ascii.N_of_ascii c) with 10%N by lia. reflexivity.
Qed.

Lemma at_dollar_spec (rest : list Ascii.ascii) :
  at_dollar rest = true <-> rest = [] \/ rest = [newline].
Proof.
  destruct rest as [| c [| d rest]]; cbn.
  - split; auto.
  - rewrite Z.eqb_eq. split.
    + intros H. right. f_equal. apply code_newline. exact H.
    + intros [H | H]; [discriminate H |]. injection H as ->. reflexivity.
  - split; [discriminate | intros [H | H]; discriminate H].
Qed.

Lemma username_char_code (c : Ascii.ascii) :
  username_char c = true <-> username_code (code c).
Proof.
  unfold username_char, username_code.
  rewrite !orb_true_iff, !between_spec, !Z.eqb_eq. tauto.
Qed.

Lemma Forall_username_code (text : list Ascii.ascii) :
  Forall (fun c => username_char c = true) text
  <-> Forall (fun c => username_code (code c)) text.
Proof.
  split; apply Forall_impl; intros c; apply username_char_code.
Qed.

(** X21. [validate_username] accepts a text exactly when it is 3 to 20
    characters, each a letter, a digit, an underscore or a hyphen, or is
    such a text followed by one newline: the [$] of the pattern matches
    before a newline that ends the text. *)
Theorem validate_username_accepts (username : string) :
  let text := list_ascii_of_string username in
  fst (validate_username username) = true <->
  plain_username text
  \/ exists base, text = base ++ [newline] /\ plain_username base.
Proof.
  intros text. unfold validate_username.
  assert (Hfst : fst (if negb (username_pattern username)
                      then (false,
                            "Username must be 3-20 characters and contain only letters, numbers, underscores, and hyphens")
                      else (true, "")) = true
                 <-> username_pattern username = true).
  { destruct (username_pattern username); cbn; split; auto; discriminate. }
  rewrite Hfst. unfold username_pattern. fold text.
  rewrite existsb_exists. unfold plain_username. split.
  - intros [k [Hk Hm]]. apply in_seq in Hk.
    apply andb_true_iff in Hm. destruct Hm as [Hspan Hend].
    apply Nat.leb_le in Hspan.
    destruct (span_prefix username_char text k Hspan) as [Hall Hlen].
    apply Forall_username_code in Hall.
    pose proof (firstn_skipn k text) as Hsplit.
    pose proof (length_firstn k text) as Hfirst.
    rewrite Nat.min_l in Hfirst by exact Hlen.
    apply at_dollar_spec in Hend. destruct Hend as [Hrest | Hrest].
    + left. rewrite Hrest, app_nil_r in Hsplit. rewrite <- Hsplit.
      split; [lia | exact Hall].
    + right. exists (firstn k text). rewrite Hrest in Hsplit.
      split; [symmetry; exact Hsplit | split; [lia | exact Hall]].
  - intros [[Hlen Hall] | [base [Hbase [Hlen Hall]]]];
      apply Forall_username_code in Hall.
    + exists (List.length text). split; [apply in_seq; lia |].
      apply andb_true_iff. split.
      * apply Nat.leb_le. rewrite <- (app_nil_r text) at 2.
        apply span_covers. exact Hall.
      * rewrite skipn_all. reflexivity.
    + exists (List.length base). split; [apply in_seq; lia |].
      apply andb_true_iff. split.
      * apply Nat.leb_le. rewrite Hbase. apply span_covers. exact Hall.
      * rewrite Hbase, skipn_app, skipn_all, Nat.sub_diag. reflexivity.
Qed.

Lemma validate_username_accepts_witness :
  fst (validate_username "al_ice-99") = true
  /\ fst (validate_username
            (String.append "alice" (String newline EmptyString)))
     = true.
Proof.
  split.
  - apply (validate_username_accepts "al_ice-99"). left.
    split; [cbn; lia |].
    repeat (constructor; [unfold username_code; cbn; lia |]). constructor.
  - apply (validate_username_accepts
             (String.append "alice" (String newline EmptyString))).
    right. exists (list_ascii_of_string "alice").
    split; [reflexivity | split; [cbn; lia |]].
    repeat (constructor; [unfold username_code; cbn; lia |]). constructor.
Defined.

(** ** The login, logout and login_required views *)

Lemma check_rate_limit_frame (now : Z) (ip ep : string) (db : database) :
  exists (allowed : bool) (db' : database),
    check_rate_limit now ip ep (healthy db) = (Returned allowed, healthy db')
    /\ users db' = users db
    /\ user_sessions db' = user_sessions db
    /\ login_history db' = login_history db
    /\ throttle_rules db' = throttle_rules db.
Proof.
  destruct (select_rule ep db) as [r |] eqn:E.
  - do 2 eexists. split; [apply (check_rate_limit_rule _ _ _ _ _ E) |].
    repeat split; reflexivity.
  - exists true, db. split; [apply (check_rate_limit_no_rule _ _ _ _ E) |].
    repeat split; reflexivity.
Qed.

(** X22. A login that the throttle refuses never reaches the accounts: the
    view answers 429 with the cookie as it was, and the only change to the
    store is the throttle-log entry of the refusal; no failure counter
    moves, no lock is set, no history entry and no session is written,
    whatever the username and the password. *)
Theorem throttled_login_touches_no_account
  (checkpw : string -> string -> option bool) (new_token : string)
  (new_session_id now : Z) (remote_addr user_agent username
  password : string) (session : flask_session) (db : database)
  (rule : ThrottleRule.row) :
  select_rule "login" db = Some rule ->
  ThrottleRule.max_attempts rule
  <= count_attempts now remote_addr "login"
                    (ThrottleRule.time_window rule) db ->
  login checkpw new_token new_session_id now remote_addr user_agent
        username password session (healthy db)
  = (Returned (TooManyAttempts, session),
     healthy (mkdb (users db) (user_sessions db) (login_history db)
                   (throttle_rules db)
                   (throttle_log db
                    ++ [ThrottleLog.mk remote_addr "login" now true]))).
Proof.
  intros Hrule Hfull. unfold login, bind.
  rewrite (check_rate_limit_rule _ _ _ _ _ Hrule).
  apply Z.leb_le in Hfull. rewrite Hfull. reflexivity.
Qed.

Lemma throttled_login_touches_no_account_witness :
  fst (login plain_checkpw "tok-n" 9 (seconds 6) "10.0.0.1" "Firefox"
             "alice" "pw-a" cleared (healthy db_five_attempts))
  = Returned (TooManyAttempts, cleared).
Proof.
  rewrite (throttled_login_touches_no_account plain_checkpw "tok-n" 9
             (seconds 6) "10.0.0.1" "Firefox" "alice" "pw-a" cleared
             db_five_attempts login_rule eq_refl).
  - reflexivity.
  - vm_compute. discriminate.
Defined.

(** X23. A login that goes through opens a session the decorator accepts:
    when the throttle lets the request pass, the account is active and not
    under lockout, the password matches, the token drawn is not empty and
    not yet stored, and the user id is not 0, the view answers success and
    sets the cookie; [login_required] then runs the view for that cookie
    from the same address and user agent until 24 hours have passed, and
    redirects, clearing the cookie, once they have passed or when the
    address or the user agent differs. *)
Theorem login_then_login_required
  (checkpw : string -> string -> option bool) (new_token : string)
  (new_session_id now : Z) (remote_addr user_agent username
  password : string) (session : flask_session) (db : database)
  (u : User.row) :
  fst (check_rate_limit now remote_addr "login" (healthy db))
  = Returned true ->
  find_user username db = Some u ->
  User.is_active u = true ->
  unlocked_at now u ->
  checkpw password (User.password_hash u) = Some true ->
  new_token <> "" ->
  (forall s, In s (user_sessions db) ->
             Session.session_token s <> new_token) ->
  User.user_id u <> 0 ->
  let cookie :=
    mkcookie (Some (User.user_id u)) (Some username) (Some new_token) in
  exists db',
    login checkpw new_token new_session_id now remote_addr user_agent
          username password session (healthy db)
    = (Returned (LoginSucceeded, cookie), healthy db')
    /\ (forall now', now' < now + hours 24 ->
          login_required now' remote_addr user_agent cookie (healthy db')
          = (Returned (true, cookie), healthy db'))
    /\ (forall now' ip' ua',
          now + hours 24 <= now' \/ ip' <> remote_addr
          \/ ua' <> user_agent ->
          login_required now' ip' ua' cookie (healthy db')
          = (Returned (false, cleared), healthy db')).
Proof.
  intros Hpass Hf Ha Hl Hc Htok Hfresh Hid cookie.
  apply locked_out_unlocked_at in Hl.
  destruct (check_rate_limit_frame now remote_addr "login" db)
    as [allowed [db1 [Hrun1 [Hu1 [Hs1 _]]]]].
  rewrite Hrun1 in Hpass. cbn in Hpass. injection Hpass as ->.
  assert (Hf1 : find_user username db1 = Some u).
  { unfold find_user in *. rewrite Hu1. exact Hf. }
  pose proof (verify_user_success_run checkpw now username password
                (Some remote_addr) (Some user_agent) db1 u Hf1 Hl Hc Ha)
    as Hrun2.
  set (db2 := set_users _ _) in Hrun2.
  assert (Hfresh2 : forall s, In s (user_sessions db2) ->
                              Session.session_token s <> new_token).
  { intros s Hs. apply Hfresh. rewrite <- Hs1. exact Hs. }
  pose proof (create_session_run new_token new_session_id now
                (User.user_id u) remote_addr user_agent db2) as Hrun3.
  set (db3 := set_user_sessions _ db2) in Hrun3.
  assert (Hsel : forall now' ip' ua',
            select_session now' new_token ip' ua' db3
            = if String.eqb remote_addr ip' && String.eqb user_agent ua'
                 && (now' <? now + hours 24)
              then Some (User.user_id u) else None).
  { intros now' ip' ua'. apply select_session_created. exact Hfresh2. }
  assert (Hname : User.username u = username).
  { unfold find_user in Hf. apply find_some in Hf. destruct Hf as [_ Hn].
    apply String.eqb_eq in Hn. exact Hn. }
  exists db3. split; [| split].
  - unfold login, bind. rewrite Hrun1. cbn [negb].
    rewrite Hrun2. cbn [UserDict.is_active user_dict]. rewrite Ha.
    cbn [negb UserDict.user_id user_dict]. rewrite Hrun3.
    apply String.eqb_neq in Htok. unfold nonempty. rewrite Htok.
    cbn [negb UserDict.username user_dict]. unfold ret, cookie.
    rewrite Hname. reflexivity.
  - intros now' Hnow. unfold login_required, cookie, bind.
    cbn [cookie_user_id cookie_session_token].
    rewrite verify_session_run, Hsel, !String.eqb_refl.
    apply Z.ltb_lt in Hnow. rewrite Hnow. unfold truthy_id. cbn [andb].
    apply Z.eqb_neq in Hid. rewrite Hid. reflexivity.
  - intros now' ip' ua' Hwhy. unfold login_required, cookie, bind.
    cbn [cookie_user_id cookie_session_token].
    rewrite verify_session_run, Hsel.
    assert (Hno : String.eqb remote_addr ip' && String.eqb user_agent ua'
                  && (now' <? now + hours 24) = false).
    { destruct Hwhy as [H | [H | H]].
      - apply Z.ltb_ge in H. rewrite H. apply andb_false_r.
      - apply not_eq_sym, String.eqb_neq in H. rewrite H. reflexivity.
      - apply not_eq_sym, String.eqb_neq in H. rewrite H.
        rewrite andb_false_r. reflexivity. }
    rewrite Hno. reflexivity.
Qed.

Lemma login_then_login_required_witness :
  exists db',
    login plain_checkpw "tok-n" 9 (minutes 20) "10.0.0.9" "Firefox"
          "dan" "pw-d" cleared (healthy db_accounts)
    = (Returned (LoginSucceeded,
                 mkcookie (Some 4) (Some "dan") (Some "tok-n")),
       healthy db')
    /\ login_required (hours 1) "10.0.0.9" "Firefox"
                      (mkcookie (Some 4) (Some "dan") (Some "tok-n"))
                      (healthy db')
       = (Returned (true, mkcookie (Some 4) (Some "dan") (Some "tok-n")),
          healthy db').
Proof.
  destruct (login_then_login_required plain_checkpw "tok-n" 9 (minutes 20)
              "10.0.0.9" "Firefox" "dan" "pw-d" cleared db_accounts dan)
    as [db' [Hrun [Hin _]]]; try reflexivity.
  - discriminate.
  - intros s [].
  - discriminate.
  - exists db'. split; [exact Hrun |]. apply Hin. cbn. lia.
Defined.

(** X24. Logging out revokes the token on the server: after [logout] of a
    cookie that carries a token, [login_required] redirects every request
    that presents a copy of that token, from any address, with any user
    agent, at any instant. *)
Theorem logout_revokes_the_token (session copy : flask_session)
  (token : string) (db : database) (now : Z) (remote_addr
  user_agent : string) :
  cookie_session_token session = Some token ->
  cookie_session_token copy = Some token ->
  fst (logout session (healthy db)) = Returned cleared
  /\ exists left_over : flask_session,
       fst (login_required now remote_addr user_agent copy
                           (snd (logout session (healthy db))))
       = Returned (false, left_over).
Proof.
  intros Hs Hc. unfold logout, bind. rewrite Hs.
  rewrite invalidate_session_run. cbn [fst snd ret].
  split; [reflexivity |].
  unfold login_required, bind. rewrite Hc.
  destruct (cookie_user_id copy); [| eexists; reflexivity].
  rewrite verify_session_run, select_session_invalidated.
  eexists. reflexivity.
Qed.

Lemma logout_revokes_the_token_witness :
  exists left_over : flask_session,
    fst (login_required (hours 1) "10.0.0.1" "Firefox"
           (mkcookie (Some 7) (Some "alice") (Some "tok-a"))
           (snd (logout (mkcookie (Some 7) (Some "alice") (Some "tok-a"))
                        (healthy db_sessions))))
    = Returned (false, left_over).
Proof.
  apply (logout_revokes_the_token
           (mkcookie (Some 7) (Some "alice") (Some "tok-a"))
           (mkcookie (Some 7) (Some "alice") (Some "tok-a"))
           "tok-a" db_sessions (hours 1) "10.0.0.1" "Firefox");
    reflexivity.
Defined.

(** ** The claims' operations on a store that fails *)

(** X25. [verify_session] only reads and fails closed: whatever the store
    does, it never raises and never changes a committed table, and when a
    storage operation fails during the call it answers [None], valid
    session or not. *)
Theorem verify_session_fails_closed (now : Z) (token ip ua : string)
  (e : env) :
  let run := verify_session now token ip ua e in
  (exists answer, fst run = Returned answer)
  /\ committed (snd run) = committed e
  /\ (failures (snd run) <> failures e -> fst run = Returned None)
  /\ (failures (snd run) = failures e ->
      fst run = Returned (select_session now token ip ua (committed e))).
Proof.
  destruct e as [db0 txns fs n].
  unfold verify_session. unfold_py. cbn.
  split_faults;
    (split; [eexists; reflexivity |]);
    (split; [reflexivity |]);
    (split; [intros H; try reflexivity; exfalso; apply H; reflexivity
            | intros H; try reflexivity; exfalso; cbn in H; lia]).
Qed.

Lemma verify_session_fails_closed_witness :
  fst (verify_session (hours 1) "tok-a" "10.0.0.1" "Firefox"
         (fails_at 1 db_sessions))
  = Returned None.
Proof.
  apply (verify_session_fails_closed (hours 1) "tok-a" "10.0.0.1" "Firefox"
           (fails_at 1 db_sessions)).
  cbn. discriminate.
Defined.

Ltac finish_verify_user :=
  cbn;
  first
    [ solve [split; [eexists; reflexivity | intros d H; discriminate H]]
    | solve [split; [eexists; reflexivity
                    | intros d H; injection H as <-;
                      eexists; repeat split; reflexivity]] ].

(** Under any schedule of failures, an account in the answer of
    [verify_user] means that the update of the success branch is in the
    committed table. *)
Lemma verify_user_answer_after_commit
  (checkpw : string -> string -> option bool)
  (now : Z) (username password : string) (ip ua : option string)
  (e : env) :
  let run := verify_user checkpw now username password ip ua e in
  (exists answer, fst run = Returned answer)
  /\ (forall d, fst run = Returned (Some d) ->
        exists u,
          find_user username (committed e) = Some u
          /\ d = user_dict u
          /\ users (committed (snd run))
             = sql_update (has_user_id (User.user_id u))
                          (successful_login now) (users (committed e))).
Proof.
  destruct e as [db0 txns fs n]. cbn [committed].
  run_verify_user. split_faults; try finish_verify_user;
    destruct (find_user username db0) as [u |]; cbn;
    split_faults; try finish_verify_user;
    destruct (locked_out now (user_dict u)); cbn;
    split_faults; try finish_verify_user;
    destruct (checkpw password (User.password_hash u)) as [[|] |]; cbn;
    split_faults; try finish_verify_user;
    destruct (User.is_active u); cbn;
    split_faults; finish_verify_user.
Qed.

(** X26. [verify_user] contains every failure and answers with an account
    only once its update is committed: whatever the store does, the call
    never raises, and when it returns the columns of an account, that
    account is the one the username finds, and in the committed table it
    has [failed_login_attempts = 0], no lock and [last_login = now], its
    other columns as before; the accounts of other ids are as before. *)
Theorem verify_user_success_is_committed
  (checkpw : string -> string -> option bool)
  (now : Z) (username password : string) (ip ua : option string)
  (e : env) :
  let run := verify_user checkpw now username password ip ua e in
  (exists answer, fst run = Returned answer)
  /\ (forall d, fst run = Returned (Some d) ->
        exists u u',
          find_user username (committed e) = Some u
          /\ UserDict.user_id d = User.user_id u
          /\ UserDict.username d = username
          /\ find_user username (committed (snd run)) = Some u'
          /\ User.failed_login_attempts u' = 0
          /\ User.account_locked_until u' = None
          /\ User.last_login u' = Some now
          /\ User.last_failed_login u' = User.last_failed_login u
          /\ same_identity u u'
          /\ Forall2 (fun r r' =>
                        (User.user_id r = User.user_id u ->
                         User.failed_login_attempts r' = 0
                         /\ User.account_locked_until r' = None
                         /\ User.last_login r' = Some now
                         /\ same_identity r r')
                        /\ (User.user_id r <> User.user_id u -> r' = r))
                     (users (committed e)) (users (committed (snd run)))).
Proof.
  intros run.
  destruct (verify_user_answer_after_commit checkpw now username password
              ip ua e) as [Hret Hsome].
  fold run in Hret, Hsome. split; [exact Hret |].
  intros d Hd. destruct (Hsome d Hd) as [u [Hf [-> Hu]]].
  exists u, (successful_login now u).
  split; [exact Hf |]. split; [reflexivity |].
  split.
  { cbn. unfold find_user in Hf. apply find_some in Hf.
    destruct Hf as [_ Hn]. apply String.eqb_eq in Hn. exact Hn. }
  split.
  { unfold find_user. rewrite Hu.
    apply (find_user_updated username (committed e) u
             (successful_login now) (committed e));
      [reflexivity | exact Hf]. }
  cbn. do 4 (split; [reflexivity |]).
  split; [unfold same_identity; cbn; repeat split; reflexivity |].
  rewrite Hu. apply update_users_Forall2. intros r. cbn.
  do 3 (split; [reflexivity |]). unfold same_identity. cbn.
  repeat split; reflexivity.
Qed.

Lemma verify_user_success_is_committed_witness :
  exists u',
    find_user "dan"
      (committed (snd (verify_user plain_checkpw (minutes 20) "dan" "pw-d"
                                   None None (fails_at 4 db_accounts))))
    = Some u'
    /\ User.failed_login_attempts u' = 0
    /\ User.last_login u' = Some (minutes 20).
Proof.
  destruct (verify_user_success_is_committed plain_checkpw (minutes 20)
              "dan" "pw-d" None None (fails_at 4 db_accounts))
    as [_ Hsome].
  destruct (Hsome (user_dict dan) eq_refl)
    as [u [u' [_ [_ [_ [Hf [Hcount [_ [Hlast _]]]]]]]]].
  exists u'. split; [exact Hf | split; [exact Hcount | exact Hlast]].
Defined.

Ltac finish_activate_user :=
  cbn;
  first
    [ solve [split; [eexists; reflexivity |];
             split; [intros H; discriminate H | intros H; reflexivity]]
    | solve [split; [eexists; reflexivity |];
             split; [intros H; eexists; split; [reflexivity |];
                     first [left; split; [assumption | reflexivity]
                           | right; reflexivity]
                    | intros H; discriminate H]] ].

(** Under any schedule of failures, [true] from [activate_user] means that
    the holder was active already or that the update of the activation is
    in the committed table. *)
Lemma activate_user_answer_after_commit (now : Z) (token : string)
  (e : env) :
  let run := activate_user now token e in
  (exists answer, fst run = Returned answer)
  /\ (fst run = Returned true ->
      exists u,
        find_token_holder token (committed e) = Some u
        /\ ((User.is_active u = true
             /\ committed (snd run) = committed e)
            \/ committed (snd run)
               = set_users (sql_update (has_user_id (User.user_id u))
                                       activated (users (committed e)))
                           (committed e)))
  /\ (fst run = Returned false -> committed (snd run) = committed e).
Proof.
  destruct e as [db0 txns fs n]. cbn [committed].
  unfold activate_user, select_activation. unfold_py. cbn -[days].
  split_faults; try finish_activate_user;
    destruct (find_token_holder token db0) as [u |]; cbn -[days];
    split_faults; try finish_activate_user;
    destruct (User.is_active u) eqn:Ha; cbn -[days];
    split_faults; try finish_activate_user;
    destruct (User.activation_token_created_at u) as [created |];
    cbn -[days];
    split_faults; try finish_activate_user;
    try match goal with
        | |- context [if ?c <? ?x then _ else _] => destruct (c <? x)
        end;
    cbn; split_faults; finish_activate_user.
Qed.

Lemma Forall2_In_left {A B : Type} (P : A -> B -> Prop) (l : list A)
  (l' : list B) (x : A) :
  Forall2 P l l' -> In x l -> exists y, In y l' /\ P x y.
Proof.
  induction 1 as [| a b l l' Hab _ IH]; intros Hin; [destruct Hin |].
  destruct Hin as [<- | Hin].
  - exists b. split; [left; reflexivity | exact Hab].
  - destruct (IH Hin) as [y [Hy Hxy]]. exists y.
    split; [right; exact Hy | exact Hxy].
Qed.

(** X27. [activate_user] answers [true] only for an account that is active
    in the committed table: whatever the store does, the call never
    raises; when it returns [true], the token had a holder, and either the
    holder was active already and nothing changed, or in the committed
    table every account of the holder's id is active with both
    activation-token columns NULL and its other columns kept, while the
    other accounts and the other tables are as before; in both cases an
    active account with the holder's id and username is stored afterwards.
    When it returns [false], nothing changed. *)
Theorem activate_user_true_is_committed (now : Z) (token : string)
  (e : env) :
  let run := activate_user now token e in
  let before := committed e in
  let after := committed (snd run) in
  (exists answer, fst run = Returned answer)
  /\ (fst run = Returned true ->
      exists u,
        find_token_holder token before = Some u
        /\ ((User.is_active u = true /\ after = before)
            \/ (Forall2 (fun r r' =>
                           (User.user_id r = User.user_id u ->
                            User.is_active r' = true
                            /\ User.activation_token r' = None
                            /\ User.activation_token_created_at r' = None
                            /\ kept_on_activation r r')
                           /\ (User.user_id r <> User.user_id u -> r' = r))
                        (users before) (users after)
                /\ user_sessions after = user_sessions before
                /\ login_history after = login_history before
                /\ throttle_rules after = throttle_rules before
                /\ throttle_log after = throttle_log before))
        /\ exists u', In u' (users after)
                      /\ User.user_id u' = User.user_id u
                      /\ User.username u' = User.username u
                      /\ User.is_active u' = true)
  /\ (fst run = Returned false -> after = before).
Proof.
  intros run before after.
  destruct (activate_user_answer_after_commit now token e)
    as [Hret [Htrue Hfalse]].
  fold run in Hret, Htrue, Hfalse. fold after before in Htrue, Hfalse.
  split; [exact Hret |]. split; [| exact Hfalse].
  intros Ht. destruct (Htrue Ht) as [u [Hf Hcases]].
  exists u. split; [exact Hf |].
  assert (Hin : In u (users before)).
  { unfold find_token_holder in Hf. apply find_some in Hf. apply Hf. }
  destruct Hcases as [[Ha Hsame] | Hupd].
  - split; [left; split; assumption |].
    exists u. rewrite Hsame. repeat split; [exact Hin | exact Ha].
  - assert (Hrows :
        Forall2 (fun r r' =>
                   (User.user_id r = User.user_id u ->
                    User.is_active r' = true
                    /\ User.activation_token r' = None
                    /\ User.activation_token_created_at r' = None
                    /\ kept_on_activation r r')
                   /\ (User.user_id r <> User.user_id u -> r' = r))
                (users before) (users after)).
    { rewrite Hupd. cbn [users set_users]. apply update_users_Forall2.
      intros r. cbn. do 3 (split; [reflexivity |]).
      unfold kept_on_activation. cbn. repeat split; reflexivity. }
    split.
    + right. split; [exact Hrows |]. rewrite Hupd.
      repeat split; reflexivity.
    + destruct (Forall2_In_left _ _ _ u Hrows Hin) as [u' [Hu' [Hmine _]]].
      destruct (Hmine eq_refl) as [Hact [_ [_ Hkept]]].
      exists u'. split; [exact Hu' |].
      unfold kept_on_activation in Hkept.
      destruct Hkept as [Hid [Hname _]].
      split; [exact Hid | split; [exact Hname | exact Hact]].
Qed.

Lemma activate_user_true_is_committed_witness :
  exists u',
    In u' (users (committed (snd (activate_user (hours 1) "act-c"
                                    (healthy db_accounts)))))
    /\ User.username u' = "carol"
    /\ User.is_active u' = true.
Proof.
  destruct (activate_user_true_is_committed (hours 1) "act-c"
              (healthy db_accounts)) as [_ [Htrue _]].
  destruct (Htrue eq_refl) as [u [Hf [_ [u' [Hin [_ [Hname Hact]]]]]]].
  exists u'. split; [exact Hin | split; [| exact Hact]].
  rewrite Hname. vm_compute in Hf. injection Hf as <-. reflexivity.
Defined.
